(** * Manga page constructor: panel geometry, history and export sizing

    A shallow embedding of the panel model and the editing operations of
    [page_constructor.py], and of the page rasteriser of
    [export_manager.py], together with the properties the specification
    states about them.

    Conventions of the embedding.
    - Python [float] values are idealised as exact rationals ([Q]); Python
      [int] values are [Z]. Equality of floats is [Qeq] ([==]).
    - Panels are mutable objects: the state holds a store of panel objects,
      and the page's list, the selection and the gesture state hold
      references into it. [copy.deepcopy] reads the values of the objects,
      and a snapshot is a list of such values.
    - Exceptions are explicit: a function that can raise returns a
      [result].
    - Tk widgets are reduced to what the modelled code reads from them: the
      view origin of the canvas, which [canvasx]/[canvasy] add to a window
      coordinate read in whole pixels. [redraw] is modelled by what it
      writes to the fields of the model (the selection markers and the
      cache flags of panels) and is part of [set_zoom], [undo_action] and
      [redo_action]; the gesture and editing handlers are given up to the
      redraw they end with. The canvas items, status texts and the bitmap
      caches are left out, and so are the pixels of an exported image: an
      image is its mode, its size and the list of what was drawn on it.
    - What the environment answers (a fresh id, whether a file exists,
      where Tk puts the view) is an argument of the function that asks. *)

From Stdlib Require Import ZArith QArith Qround Bool List String Ascii Lia Lqa.
Import ListNotations.

Local Open Scope Z_scope.
Local Open Scope Q_scope.

(** ** Python numerics *)

Module Py.

Definition ltb (a b : Q) : bool := negb (Qle_bool b a).
Definition leb (a b : Q) : bool := Qle_bool a b.

(** [max(a, b)] and [min(a, b)]: the first argument wins a tie. *)
Definition max (a b : Q) : Q := if ltb a b then b else a.
Definition min (a b : Q) : Q := if ltb b a then b else a.

Definition abs (a : Q) : Q := if ltb a 0 then - a else a.

(** [int(x)] on a float truncates toward zero. *)
Definition int (x : Q) : Z := if ltb x 0 then Qceiling x else Qfloor x.

(** [round(x)] on a float: nearest integer, ties to the even one. *)
Definition round (x : Q) : Z :=
  let f := Qfloor x in
  let r := x - inject_Z f in
  if ltb r (1 # 2) then f
  else if ltb (1 # 2) r then (f + 1)%Z
  else if Z.even f then f else (f + 1)%Z.

(** [c in s] for a one-character needle. *)
Fixpoint contains (c : ascii) (s : string) : bool :=
  match s with
  | EmptyString => false
  | String a rest => if Ascii.eqb a c then true else contains c rest
  end.

End Py.

(** ** Panels (page_constructor.py) *)

Inductive PanelType :=
| RECTANGULAR | ROUND | SPLASH | SPEECH_BUBBLE | THOUGHT_BUBBLE | IRREGULAR.

Definition PanelType_eqb (a b : PanelType) : bool :=
  match a, b with
  | RECTANGULAR, RECTANGULAR | ROUND, ROUND | SPLASH, SPLASH
  | SPEECH_BUBBLE, SPEECH_BUBBLE | THOUGHT_BUBBLE, THOUGHT_BUBBLE
  | IRREGULAR, IRREGULAR => true
  | _, _ => false
  end.

Inductive Tool := SELECT | PANEL | TEXT | SPEECH.

Record PanelStyle := mkPanelStyle {
  border_width : Z;
  border_color : string;
  fill_color : string;
  corner_radius : Z;
  shadow : bool;
  shadow_offset : Z * Z;
  shadow_color : string
}.

Definition default_style : PanelStyle :=
  mkPanelStyle 2 "#000000" "#FFFFFF" 0 false (2%Z, 2%Z) "#888888".

(** The float that [math.pi / 2] denotes (0x3FF921FB54442D18). *)
Definition pi_over_2 : Q := 884279719003555 # 562949953421312.

Record Panel := mkPanel {
  id : string;
  x : Q;
  y : Q;
  width : Q;
  height : Q;
  panel_type : PanelType;
  style : PanelStyle;
  rotation : Q;
  layer : Z;
  visible : bool;
  locked : bool;
  content_image : option string;
  content_text : string;
  selected : bool;
  tail_dx : Q;
  tail_dy : Q;
  tail_root_offset : Q;
  tail_root_angle : Q;
  custom_points : list (Q * Q);
  image_offset_x : Q;
  image_offset_y : Q;
  image_scale : Q;
  _image_content_updated_flag : bool
}.

(** [Panel(id=i, x=.., y=.., width=.., height=.., panel_type=..,
    layer=..)] with the dataclass defaults for the other fields. *)
Definition new_Panel (i : string) (px py w h : Q) (t : PanelType) (l : Z)
  : Panel :=
  mkPanel i px py w h t default_style 0 l true false None "" false
          10 20 0 pi_over_2 [] 0 0 1 false.

Definition set_x (p : Panel) (v : Q) : Panel :=
  let 'mkPanel i _ py w h t st rot l vis lk img txt sel tdx tdy tro tra pts
      iox ioy isc flag := p in
  mkPanel i v py w h t st rot l vis lk img txt sel tdx tdy tro tra pts iox
    ioy isc flag.

Definition set_y (p : Panel) (v : Q) : Panel :=
  let 'mkPanel i px _ w h t st rot l vis lk img txt sel tdx tdy tro tra pts
      iox ioy isc flag := p in
  mkPanel i px v w h t st rot l vis lk img txt sel tdx tdy tro tra pts iox
    ioy isc flag.

Definition set_width (p : Panel) (v : Q) : Panel :=
  let 'mkPanel i px py _ h t st rot l vis lk img txt sel tdx tdy tro tra
      pts iox ioy isc flag := p in
  mkPanel i px py v h t st rot l vis lk img txt sel tdx tdy tro tra pts iox
    ioy isc flag.

Definition set_height (p : Panel) (v : Q) : Panel :=
  let 'mkPanel i px py w _ t st rot l vis lk img txt sel tdx tdy tro tra
      pts iox ioy isc flag := p in
  mkPanel i px py w v t st rot l vis lk img txt sel tdx tdy tro tra pts iox
    ioy isc flag.

Definition set_content_text (p : Panel) (v : string) : Panel :=
  let 'mkPanel i px py w h t st rot l vis lk img _ sel tdx tdy tro tra pts
      iox ioy isc flag := p in
  mkPanel i px py w h t st rot l vis lk img v sel tdx tdy tro tra pts iox
    ioy isc flag.

Definition set_selected (p : Panel) (v : bool) : Panel :=
  let 'mkPanel i px py w h t st rot l vis lk img txt _ tdx tdy tro tra pts
      iox ioy isc flag := p in
  mkPanel i px py w h t st rot l vis lk img txt v tdx tdy tro tra pts iox
    ioy isc flag.

Definition set_image_content_updated_flag (p : Panel) (v : bool) : Panel :=
  let 'mkPanel i px py w h t st rot l vis lk img txt sel tdx tdy tro tra pts
      iox ioy isc _ := p in
  mkPanel i px py w h t st rot l vis lk img txt sel tdx tdy tro tra pts iox
    ioy isc v.

Definition set_image_transform (p : Panel) (ox oy sc : Q) : Panel :=
  let 'mkPanel i px py w h t st rot l vis lk img txt sel tdx tdy tro tra
      pts _ _ _ flag := p in
  mkPanel i px py w h t st rot l vis lk img txt sel tdx tdy tro tra pts ox
    oy sc flag.

(** [Panel.mark_visuals_for_update] *)
Definition mark_visuals_for_update (p : Panel) : Panel :=
  let 'mkPanel i px py w h t st rot l vis lk img txt sel tdx tdy tro tra
      pts iox ioy isc _ := p in
  mkPanel i px py w h t st rot l vis lk img txt sel tdx tdy tro tra pts iox
    ioy isc true.

(** [Panel.get_bounds] *)
Definition get_bounds (p : Panel) : Q * Q * Q * Q :=
  (x p, y p, x p + width p, y p + height p).

(** [Panel.contains_point] *)
Definition contains_point (p : Panel) (px py : Q) : bool :=
  let '(x1, y1, x2, y2) := get_bounds p in
  Py.leb x1 px && Py.leb px x2 && Py.leb y1 py && Py.leb py y2.

(** [Panel.move] *)
Definition move (p : Panel) (dx dy : Q) : Panel :=
  set_y (set_x p (x p + dx)) (y p + dy).

(** [Panel.resize] *)
Definition resize (p : Panel) (new_width new_height : Q) : Panel :=
  set_height (set_width p (Py.max 10 new_width)) (Py.max 10 new_height).

(** [Panel.reset_image_transform] *)
Definition reset_image_transform (p : Panel) : Panel :=
  mark_visuals_for_update (set_image_transform p 0 0 1).

Definition set_tail (p : Panel) (dx dy : Q) : Panel :=
  let 'mkPanel i px py w h t st rot l vis lk img txt sel _ _ tro tra pts
      iox ioy isc flag := p in
  mkPanel i px py w h t st rot l vis lk img txt sel dx dy tro tra pts iox
    ioy isc flag.

Definition set_tail_root_angle (p : Panel) (v : Q) : Panel :=
  let 'mkPanel i px py w h t st rot l vis lk img txt sel tdx tdy tro _ pts
      iox ioy isc flag := p in
  mkPanel i px py w h t st rot l vis lk img txt sel tdx tdy tro v pts iox
    ioy isc flag.

(** The [__eq__] that [@dataclass] generates: field by field. *)
Definition PanelStyle_eqb (a b : PanelStyle) : bool :=
  Z.eqb (border_width a) (border_width b)
  && String.eqb (border_color a) (border_color b)
  && String.eqb (fill_color a) (fill_color b)
  && Z.eqb (corner_radius a) (corner_radius b)
  && Bool.eqb (shadow a) (shadow b)
  && Z.eqb (fst (shadow_offset a)) (fst (shadow_offset b))
  && Z.eqb (snd (shadow_offset a)) (snd (shadow_offset b))
  && String.eqb (shadow_color a) (shadow_color b).

Definition option_string_eqb (a b : option string) : bool :=
  match a, b with
  | Some s, Some t => String.eqb s t
  | None, None => true
  | _, _ => false
  end.

Fixpoint points_eqb (a b : list (Q * Q)) : bool :=
  match a, b with
  | [], [] => true
  | (ax, ay) :: a', (bx, by_) :: b' =>
      Qeq_bool ax bx && Qeq_bool ay by_ && points_eqb a' b'
  | _, _ => false
  end.

Definition Panel_eqb (a b : Panel) : bool :=
  String.eqb (id a) (id b)
  && Qeq_bool (x a) (x b) && Qeq_bool (y a) (y b)
  && Qeq_bool (width a) (width b) && Qeq_bool (height a) (height b)
  && PanelType_eqb (panel_type a) (panel_type b)
  && PanelStyle_eqb (style a) (style b)
  && Qeq_bool (rotation a) (rotation b)
  && Z.eqb (layer a) (layer b)
  && Bool.eqb (visible a) (visible b)
  && Bool.eqb (locked a) (locked b)
  && option_string_eqb (content_image a) (content_image b)
  && String.eqb (content_text a) (content_text b)
  && Bool.eqb (selected a) (selected b)
  && Qeq_bool (tail_dx a) (tail_dx b) && Qeq_bool (tail_dy a) (tail_dy b)
  && Qeq_bool (tail_root_offset a) (tail_root_offset b)
  && Qeq_bool (tail_root_angle a) (tail_root_angle b)
  && points_eqb (custom_points a) (custom_points b)
  && Qeq_bool (image_offset_x a) (image_offset_x b)
  && Qeq_bool (image_offset_y a) (image_offset_y b)
  && Qeq_bool (image_scale a) (image_scale b)
  && Bool.eqb (_image_content_updated_flag a) (_image_content_updated_flag b).

(** ** Exceptions *)

Inductive exn :=
| NameError (name : string)
| ZeroDivisionError
| KeyError (key : string)
| ValueError (msg : string).

Inductive result (A : Type) :=
| Ok (a : A)
| Raise (e : exn).
Arguments Ok {A} a.
Arguments Raise {A} e.

Definition bind {A B} (c : result A) (k : A -> result B) : result B :=
  match c with
  | Ok a => k a
  | Raise e => Raise e
  end.

Notation "x <- c ;; k" := (bind c (fun x => k))
  (at level 61, c at next level, right associativity).
Notation "' pat <- c ;; k" := (bind c (fun x => match x with pat => k end))
  (at level 61, pat pattern, c at next level, right associativity).

(** Float division [a / b]. *)
Definition py_div (a b : Q) : result Q :=
  if Qeq_bool b 0 then Raise ZeroDivisionError else Ok (a / b).

(** ** The page constructor (page_constructor.py) *)

(** [SelectionHandle]: a resize marker, in canvas coordinates. *)
Record SelectionHandle := mkSelectionHandle {
  screen_x : Q;
  screen_y : Q;
  cursor : string;
  handle_type : string
}.

(** What the handlers read from a Tk event. *)
Record Event := mkEvent {
  ev_x : Z;
  ev_y : Z;
  ev_num : Z;
  ev_delta : Z;
  ev_state : Z
}.

(** Panels are mutable objects shared between the page's list, the
    selection and the gesture state. [objects] is the store of the panel
    objects allocated so far and an [addr] is a reference into it; the
    history stacks hold deep copies, that is plain values. *)
Definition addr := nat.

Record PageConstructor := mkPageConstructor {
  page_width : Z;
  page_height : Z;
  margin : Z;
  current_tool : Tool;
  zoom : Q;
  grid_size : Z;
  snap_to_grid : bool;
  canvas_xorigin : Q;
  canvas_yorigin : Q;
  temp_panel_rect_coords : option (Q * Q * Q * Q);
  creation_panel_type : option PanelType;
  tail_move_panel : option addr;
  tail_root_move_panel : option addr;
  tail_root_drag_end_x : Q;
  tail_root_drag_end_y : Q;
  objects : list Panel;
  panels : list addr;
  selected_panels : list addr;
  selection_handles : list SelectionHandle;
  panel_drag_initial_states : list (string * (Q * Q * Q * Q));
  page_drag_start_coords : Q * Q;
  drag_start_x : Z;
  drag_start_y : Z;
  dragging : bool;
  drag_mode : option string;
  resize_handle : option SelectionHandle;
  image_editing_panel : option addr;
  image_pan_start_offset_x : Q;
  image_pan_start_offset_y : Q;
  image_pan_mouse_start_page_x : Q;
  image_pan_mouse_start_page_y : Q;
  undo_stack : list (list Panel);
  redo_stack : list (list Panel);
  project_modified : bool
}.

Definition set_temp_panel_rect_coords (self : PageConstructor)
  (v : option (Q * Q * Q * Q)) : PageConstructor :=
  mkPageConstructor (page_width self) (page_height self) (margin self)
    (current_tool self) (zoom self) (grid_size self) (snap_to_grid self)
    (canvas_xorigin self) (canvas_yorigin self) v
    (creation_panel_type self) (tail_move_panel self)
    (tail_root_move_panel self) (tail_root_drag_end_x self)
    (tail_root_drag_end_y self) (objects self) (panels self)
    (selected_panels self) (selection_handles self)
    (panel_drag_initial_states self) (page_drag_start_coords self)
    (drag_start_x self) (drag_start_y self) (dragging self)
    (drag_mode self) (resize_handle self) (image_editing_panel self)
    (image_pan_start_offset_x self) (image_pan_start_offset_y self)
    (image_pan_mouse_start_page_x self) (image_pan_mouse_start_page_y self)
    (undo_stack self) (redo_stack self) (project_modified self).

Definition set_creation_panel_type (self : PageConstructor)
  (v : option PanelType) : PageConstructor :=
  mkPageConstructor (page_width self) (page_height self) (margin self)
    (current_tool self) (zoom self) (grid_size self) (snap_to_grid self)
    (canvas_xorigin self) (canvas_yorigin self)
    (temp_panel_rect_coords self) v (tail_move_panel self)
    (tail_root_move_panel self) (tail_root_drag_end_x self)
    (tail_root_drag_end_y self) (objects self) (panels self)
    (selected_panels self) (selection_handles self)
    (panel_drag_initial_states self) (page_drag_start_coords self)
    (drag_start_x self) (drag_start_y self) (dragging self)
    (drag_mode self) (resize_handle self) (image_editing_panel self)
    (image_pan_start_offset_x self) (image_pan_start_offset_y self)
    (image_pan_mouse_start_page_x self) (image_pan_mouse_start_page_y self)
    (undo_stack self) (redo_stack self) (project_modified self).

Definition set_tail_move_panel (self : PageConstructor)
  (v : option addr) : PageConstructor :=
  mkPageConstructor (page_width self) (page_height self) (margin self)
    (current_tool self) (zoom self) (grid_size self) (snap_to_grid self)
    (canvas_xorigin self) (canvas_yorigin self)
    (temp_panel_rect_coords self) (creation_panel_type self) v
    (tail_root_move_panel self) (tail_root_drag_end_x self)
    (tail_root_drag_end_y self) (objects self) (panels self)
    (selected_panels self) (selection_handles self)
    (panel_drag_initial_states self) (page_drag_start_coords self)
    (drag_start_x self) (drag_start_y self) (dragging self)
    (drag_mode self) (resize_handle self) (image_editing_panel self)
    (image_pan_start_offset_x self) (image_pan_start_offset_y self)
    (image_pan_mouse_start_page_x self) (image_pan_mouse_start_page_y self)
    (undo_stack self) (redo_stack self) (project_modified self).

Definition set_tail_root_move_panel (self : PageConstructor)
  (v : option addr) : PageConstructor :=
  mkPageConstructor (page_width self) (page_height self) (margin self)
    (current_tool self) (zoom self) (grid_size self) (snap_to_grid self)
    (canvas_xorigin self) (canvas_yorigin self)
    (temp_panel_rect_coords self) (creation_panel_type self)
    (tail_move_panel self) v (tail_root_drag_end_x self)
    (tail_root_drag_end_y self) (objects self) (panels self)
    (selected_panels self) (selection_handles self)
    (panel_drag_initial_states self) (page_drag_start_coords self)
    (drag_start_x self) (drag_start_y self) (dragging self)
    (drag_mode self) (resize_handle self) (image_editing_panel self)
    (image_pan_start_offset_x self) (image_pan_start_offset_y self)
    (image_pan_mouse_start_page_x self) (image_pan_mouse_start_page_y self)
    (undo_stack self) (redo_stack self) (project_modified self).

Definition set_objects (self : PageConstructor)
  (v : list Panel) : PageConstructor :=
  mkPageConstructor (page_width self) (page_height self) (margin self)
    (current_tool self) (zoom self) (grid_size self) (snap_to_grid self)
    (canvas_xorigin self) (canvas_yorigin self)
    (temp_panel_rect_coords self) (creation_panel_type self)
    (tail_move_panel self) (tail_root_move_panel self)
    (tail_root_drag_end_x self) (tail_root_drag_end_y self) v (panels self)
    (selected_panels self) (selection_handles self)
    (panel_drag_initial_states self) (page_drag_start_coords self)
    (drag_start_x self) (drag_start_y self) (dragging self)
    (drag_mode self) (resize_handle self) (image_editing_panel self)
    (image_pan_start_offset_x self) (image_pan_start_offset_y self)
    (image_pan_mouse_start_page_x self) (image_pan_mouse_start_page_y self)
    (undo_stack self) (redo_stack self) (project_modified self).

Definition set_panels (self : PageConstructor)
  (v : list addr) : PageConstructor :=
  mkPageConstructor (page_width self) (page_height self) (margin self)
    (current_tool self) (zoom self) (grid_size self) (snap_to_grid self)
    (canvas_xorigin self) (canvas_yorigin self)
    (temp_panel_rect_coords self) (creation_panel_type self)
    (tail_move_panel self) (tail_root_move_panel self)
    (tail_root_drag_end_x self) (tail_root_drag_end_y self) (objects self)
    v (selected_panels self) (selection_handles self)
    (panel_drag_initial_states self) (page_drag_start_coords self)
    (drag_start_x self) (drag_start_y self) (dragging self)
    (drag_mode self) (resize_handle self) (image_editing_panel self)
    (image_pan_start_offset_x self) (image_pan_start_offset_y self)
    (image_pan_mouse_start_page_x self) (image_pan_mouse_start_page_y self)
    (undo_stack self) (redo_stack self) (project_modified self).

Definition set_selected_panels (self : PageConstructor)
  (v : list addr) : PageConstructor :=
  mkPageConstructor (page_width self) (page_height self) (margin self)
    (current_tool self) (zoom self) (grid_size self) (snap_to_grid self)
    (canvas_xorigin self) (canvas_yorigin self)
    (temp_panel_rect_coords self) (creation_panel_type self)
    (tail_move_panel self) (tail_root_move_panel self)
    (tail_root_drag_end_x self) (tail_root_drag_end_y self) (objects self)
    (panels self) v (selection_handles self)
    (panel_drag_initial_states self) (page_drag_start_coords self)
    (drag_start_x self) (drag_start_y self) (dragging self)
    (drag_mode self) (resize_handle self) (image_editing_panel self)
    (image_pan_start_offset_x self) (image_pan_start_offset_y self)
    (image_pan_mouse_start_page_x self) (image_pan_mouse_start_page_y self)
    (undo_stack self) (redo_stack self) (project_modified self).

Definition set_selection_handles (self : PageConstructor)
  (v : list SelectionHandle) : PageConstructor :=
  mkPageConstructor (page_width self) (page_height self) (margin self)
    (current_tool self) (zoom self) (grid_size self) (snap_to_grid self)
    (canvas_xorigin self) (canvas_yorigin self)
    (temp_panel_rect_coords self) (creation_panel_type self)
    (tail_move_panel self) (tail_root_move_panel self)
    (tail_root_drag_end_x self) (tail_root_drag_end_y self) (objects self)
    (panels self) (selected_panels self) v (panel_drag_initial_states self)
    (page_drag_start_coords self) (drag_start_x self) (drag_start_y self)
    (dragging self) (drag_mode self) (resize_handle self)
    (image_editing_panel self) (image_pan_start_offset_x self)
    (image_pan_start_offset_y self) (image_pan_mouse_start_page_x self)
    (image_pan_mouse_start_page_y self) (undo_stack self) (redo_stack self)
    (project_modified self).

Definition set_panel_drag_initial_states (self : PageConstructor)
  (v : list (string * (Q * Q * Q * Q))) : PageConstructor :=
  mkPageConstructor (page_width self) (page_height self) (margin self)
    (current_tool self) (zoom self) (grid_size self) (snap_to_grid self)
    (canvas_xorigin self) (canvas_yorigin self)
    (temp_panel_rect_coords self) (creation_panel_type self)
    (tail_move_panel self) (tail_root_move_panel self)
    (tail_root_drag_end_x self) (tail_root_drag_end_y self) (objects self)
    (panels self) (selected_panels self) (selection_handles self) v
    (page_drag_start_coords self) (drag_start_x self) (drag_start_y self)
    (dragging self) (drag_mode self) (resize_handle self)
    (image_editing_panel self) (image_pan_start_offset_x self)
    (image_pan_start_offset_y self) (image_pan_mouse_start_page_x self)
    (image_pan_mouse_start_page_y self) (undo_stack self) (redo_stack self)
    (project_modified self).

Definition set_dragging (self : PageConstructor)
  (v : bool) : PageConstructor :=
  mkPageConstructor (page_width self) (page_height self) (margin self)
    (current_tool self) (zoom self) (grid_size self) (snap_to_grid self)
    (canvas_xorigin self) (canvas_yorigin self)
    (temp_panel_rect_coords self) (creation_panel_type self)
    (tail_move_panel self) (tail_root_move_panel self)
    (tail_root_drag_end_x self) (tail_root_drag_end_y self) (objects self)
    (panels self) (selected_panels self) (selection_handles self)
    (panel_drag_initial_states self) (page_drag_start_coords self)
    (drag_start_x self) (drag_start_y self) v (drag_mode self)
    (resize_handle self) (image_editing_panel self)
    (image_pan_start_offset_x self) (image_pan_start_offset_y self)
    (image_pan_mouse_start_page_x self) (image_pan_mouse_start_page_y self)
    (undo_stack self) (redo_stack self) (project_modified self).

Definition set_drag_mode (self : PageConstructor)
  (v : option string) : PageConstructor :=
  mkPageConstructor (page_width self) (page_height self) (margin self)
    (current_tool self) (zoom self) (grid_size self) (snap_to_grid self)
    (canvas_xorigin self) (canvas_yorigin self)
    (temp_panel_rect_coords self) (creation_panel_type self)
    (tail_move_panel self) (tail_root_move_panel self)
    (tail_root_drag_end_x self) (tail_root_drag_end_y self) (objects self)
    (panels self) (selected_panels self) (selection_handles self)
    (panel_drag_initial_states self) (page_drag_start_coords self)
    (drag_start_x self) (drag_start_y self) (dragging self) v
    (resize_handle self) (image_editing_panel self)
    (image_pan_start_offset_x self) (image_pan_start_offset_y self)
    (image_pan_mouse_start_page_x self) (image_pan_mouse_start_page_y self)
    (undo_stack self) (redo_stack self) (project_modified self).

Definition set_resize_handle (self : PageConstructor)
  (v : option SelectionHandle) : PageConstructor :=
  mkPageConstructor (page_width self) (page_height self) (margin self)
    (current_tool self) (zoom self) (grid_size self) (snap_to_grid self)
    (canvas_xorigin self) (canvas_yorigin self)
    (temp_panel_rect_coords self) (creation_panel_type self)
    (tail_move_panel self) (tail_root_move_panel self)
    (tail_root_drag_end_x self) (tail_root_drag_end_y self) (objects self)
    (panels self) (selected_panels self) (selection_handles self)
    (panel_drag_initial_states self) (page_drag_start_coords self)
    (drag_start_x self) (drag_start_y self) (dragging self)
    (drag_mode self) v (image_editing_panel self)
    (image_pan_start_offset_x self) (image_pan_start_offset_y self)
    (image_pan_mouse_start_page_x self) (image_pan_mouse_start_page_y self)
    (undo_stack self) (redo_stack self) (project_modified self).

Definition set_image_editing_panel (self : PageConstructor)
  (v : option addr) : PageConstructor :=
  mkPageConstructor (page_width self) (page_height self) (margin self)
    (current_tool self) (zoom self) (grid_size self) (snap_to_grid self)
    (canvas_xorigin self) (canvas_yorigin self)
    (temp_panel_rect_coords self) (creation_panel_type self)
    (tail_move_panel self) (tail_root_move_panel self)
    (tail_root_drag_end_x self) (tail_root_drag_end_y self) (objects self)
    (panels self) (selected_panels self) (selection_handles self)
    (panel_drag_initial_states self) (page_drag_start_coords self)
    (drag_start_x self) (drag_start_y self) (dragging self)
    (drag_mode self) (resize_handle self) v (image_pan_start_offset_x self)
    (image_pan_start_offset_y self) (image_pan_mouse_start_page_x self)
    (image_pan_mouse_start_page_y self) (undo_stack self) (redo_stack self)
    (project_modified self).

Definition set_undo_stack (self : PageConstructor)
  (v : list (list Panel)) : PageConstructor :=
  mkPageConstructor (page_width self) (page_height self) (margin self)
    (current_tool self) (zoom self) (grid_size self) (snap_to_grid self)
    (canvas_xorigin self) (canvas_yorigin self)
    (temp_panel_rect_coords self) (creation_panel_type self)
    (tail_move_panel self) (tail_root_move_panel self)
    (tail_root_drag_end_x self) (tail_root_drag_end_y self) (objects self)
    (panels self) (selected_panels self) (selection_handles self)
    (panel_drag_initial_states self) (page_drag_start_coords self)
    (drag_start_x self) (drag_start_y self) (dragging self)
    (drag_mode self) (resize_handle self) (image_editing_panel self)
    (image_pan_start_offset_x self) (image_pan_start_offset_y self)
    (image_pan_mouse_start_page_x self) (image_pan_mouse_start_page_y self)
    v (redo_stack self) (project_modified self).

Definition set_redo_stack (self : PageConstructor)
  (v : list (list Panel)) : PageConstructor :=
  mkPageConstructor (page_width self) (page_height self) (margin self)
    (current_tool self) (zoom self) (grid_size self) (snap_to_grid self)
    (canvas_xorigin self) (canvas_yorigin self)
    (temp_panel_rect_coords self) (creation_panel_type self)
    (tail_move_panel self) (tail_root_move_panel self)
    (tail_root_drag_end_x self) (tail_root_drag_end_y self) (objects self)
    (panels self) (selected_panels self) (selection_handles self)
    (panel_drag_initial_states self) (page_drag_start_coords self)
    (drag_start_x self) (drag_start_y self) (dragging self)
    (drag_mode self) (resize_handle self) (image_editing_panel self)
    (image_pan_start_offset_x self) (image_pan_start_offset_y self)
    (image_pan_mouse_start_page_x self) (image_pan_mouse_start_page_y self)
    (undo_stack self) v (project_modified self).

Definition set_project_modified (self : PageConstructor)
  (v : bool) : PageConstructor :=
  mkPageConstructor (page_width self) (page_height self) (margin self)
    (current_tool self) (zoom self) (grid_size self) (snap_to_grid self)
    (canvas_xorigin self) (canvas_yorigin self)
    (temp_panel_rect_coords self) (creation_panel_type self)
    (tail_move_panel self) (tail_root_move_panel self)
    (tail_root_drag_end_x self) (tail_root_drag_end_y self) (objects self)
    (panels self) (selected_panels self) (selection_handles self)
    (panel_drag_initial_states self) (page_drag_start_coords self)
    (drag_start_x self) (drag_start_y self) (dragging self)
    (drag_mode self) (resize_handle self) (image_editing_panel self)
    (image_pan_start_offset_x self) (image_pan_start_offset_y self)
    (image_pan_mouse_start_page_x self) (image_pan_mouse_start_page_y self)
    (undo_stack self) (redo_stack self) v.

Definition set_zoom (self : PageConstructor)
  (v : Q) : PageConstructor :=
  mkPageConstructor (page_width self) (page_height self) (margin self)
    (current_tool self) v (grid_size self) (snap_to_grid self)
    (canvas_xorigin self) (canvas_yorigin self)
    (temp_panel_rect_coords self) (creation_panel_type self)
    (tail_move_panel self) (tail_root_move_panel self)
    (tail_root_drag_end_x self) (tail_root_drag_end_y self) (objects self)
    (panels self) (selected_panels self) (selection_handles self)
    (panel_drag_initial_states self) (page_drag_start_coords self)
    (drag_start_x self) (drag_start_y self) (dragging self)
    (drag_mode self) (resize_handle self) (image_editing_panel self)
    (image_pan_start_offset_x self) (image_pan_start_offset_y self)
    (image_pan_mouse_start_page_x self) (image_pan_mouse_start_page_y self)
    (undo_stack self) (redo_stack self) (project_modified self).

Definition set_page_width (self : PageConstructor)
  (v : Z) : PageConstructor :=
  mkPageConstructor v (page_height self) (margin self) (current_tool self)
    (zoom self) (grid_size self) (snap_to_grid self) (canvas_xorigin self)
    (canvas_yorigin self) (temp_panel_rect_coords self)
    (creation_panel_type self) (tail_move_panel self)
    (tail_root_move_panel self) (tail_root_drag_end_x self)
    (tail_root_drag_end_y self) (objects self) (panels self)
    (selected_panels self) (selection_handles self)
    (panel_drag_initial_states self) (page_drag_start_coords self)
    (drag_start_x self) (drag_start_y self) (dragging self)
    (drag_mode self) (resize_handle self) (image_editing_panel self)
    (image_pan_start_offset_x self) (image_pan_start_offset_y self)
    (image_pan_mouse_start_page_x self) (image_pan_mouse_start_page_y self)
    (undo_stack self) (redo_stack self) (project_modified self).

Definition set_page_height (self : PageConstructor)
  (v : Z) : PageConstructor :=
  mkPageConstructor (page_width self) v (margin self) (current_tool self)
    (zoom self) (grid_size self) (snap_to_grid self) (canvas_xorigin self)
    (canvas_yorigin self) (temp_panel_rect_coords self)
    (creation_panel_type self) (tail_move_panel self)
    (tail_root_move_panel self) (tail_root_drag_end_x self)
    (tail_root_drag_end_y self) (objects self) (panels self)
    (selected_panels self) (selection_handles self)
    (panel_drag_initial_states self) (page_drag_start_coords self)
    (drag_start_x self) (drag_start_y self) (dragging self)
    (drag_mode self) (resize_handle self) (image_editing_panel self)
    (image_pan_start_offset_x self) (image_pan_start_offset_y self)
    (image_pan_mouse_start_page_x self) (image_pan_mouse_start_page_y self)
    (undo_stack self) (redo_stack self) (project_modified self).

Definition set_snap_to_grid (self : PageConstructor)
  (v : bool) : PageConstructor :=
  mkPageConstructor (page_width self) (page_height self) (margin self)
    (current_tool self) (zoom self) (grid_size self) v
    (canvas_xorigin self) (canvas_yorigin self)
    (temp_panel_rect_coords self) (creation_panel_type self)
    (tail_move_panel self) (tail_root_move_panel self)
    (tail_root_drag_end_x self) (tail_root_drag_end_y self) (objects self)
    (panels self) (selected_panels self) (selection_handles self)
    (panel_drag_initial_states self) (page_drag_start_coords self)
    (drag_start_x self) (drag_start_y self) (dragging self)
    (drag_mode self) (resize_handle self) (image_editing_panel self)
    (image_pan_start_offset_x self) (image_pan_start_offset_y self)
    (image_pan_mouse_start_page_x self) (image_pan_mouse_start_page_y self)
    (undo_stack self) (redo_stack self) (project_modified self).

Definition set_grid_size (self : PageConstructor)
  (v : Z) : PageConstructor :=
  mkPageConstructor (page_width self) (page_height self) (margin self)
    (current_tool self) (zoom self) v (snap_to_grid self)
    (canvas_xorigin self) (canvas_yorigin self)
    (temp_panel_rect_coords self) (creation_panel_type self)
    (tail_move_panel self) (tail_root_move_panel self)
    (tail_root_drag_end_x self) (tail_root_drag_end_y self) (objects self)
    (panels self) (selected_panels self) (selection_handles self)
    (panel_drag_initial_states self) (page_drag_start_coords self)
    (drag_start_x self) (drag_start_y self) (dragging self)
    (drag_mode self) (resize_handle self) (image_editing_panel self)
    (image_pan_start_offset_x self) (image_pan_start_offset_y self)
    (image_pan_mouse_start_page_x self) (image_pan_mouse_start_page_y self)
    (undo_stack self) (redo_stack self) (project_modified self).

Definition set_canvas_xorigin (self : PageConstructor)
  (v : Q) : PageConstructor :=
  mkPageConstructor (page_width self) (page_height self) (margin self)
    (current_tool self) (zoom self) (grid_size self) (snap_to_grid self) v
    (canvas_yorigin self) (temp_panel_rect_coords self)
    (creation_panel_type self) (tail_move_panel self)
    (tail_root_move_panel self) (tail_root_drag_end_x self)
    (tail_root_drag_end_y self) (objects self) (panels self)
    (selected_panels self) (selection_handles self)
    (panel_drag_initial_states self) (page_drag_start_coords self)
    (drag_start_x self) (drag_start_y self) (dragging self)
    (drag_mode self) (resize_handle self) (image_editing_panel self)
    (image_pan_start_offset_x self) (image_pan_start_offset_y self)
    (image_pan_mouse_start_page_x self) (image_pan_mouse_start_page_y self)
    (undo_stack self) (redo_stack self) (project_modified self).

Definition set_canvas_yorigin (self : PageConstructor)
  (v : Q) : PageConstructor :=
  mkPageConstructor (page_width self) (page_height self) (margin self)
    (current_tool self) (zoom self) (grid_size self) (snap_to_grid self)
    (canvas_xorigin self) v (temp_panel_rect_coords self)
    (creation_panel_type self) (tail_move_panel self)
    (tail_root_move_panel self) (tail_root_drag_end_x self)
    (tail_root_drag_end_y self) (objects self) (panels self)
    (selected_panels self) (selection_handles self)
    (panel_drag_initial_states self) (page_drag_start_coords self)
    (drag_start_x self) (drag_start_y self) (dragging self)
    (drag_mode self) (resize_handle self) (image_editing_panel self)
    (image_pan_start_offset_x self) (image_pan_start_offset_y self)
    (image_pan_mouse_start_page_x self) (image_pan_mouse_start_page_y self)
    (undo_stack self) (redo_stack self) (project_modified self).

Definition set_drag_start_x (self : PageConstructor)
  (v : Z) : PageConstructor :=
  mkPageConstructor (page_width self) (page_height self) (margin self)
    (current_tool self) (zoom self) (grid_size self) (snap_to_grid self)
    (canvas_xorigin self) (canvas_yorigin self)
    (temp_panel_rect_coords self) (creation_panel_type self)
    (tail_move_panel self) (tail_root_move_panel self)
    (tail_root_drag_end_x self) (tail_root_drag_end_y self) (objects self)
    (panels self) (selected_panels self) (selection_handles self)
    (panel_drag_initial_states self) (page_drag_start_coords self) v
    (drag_start_y self) (dragging self) (drag_mode self)
    (resize_handle self) (image_editing_panel self)
    (image_pan_start_offset_x self) (image_pan_start_offset_y self)
    (image_pan_mouse_start_page_x self) (image_pan_mouse_start_page_y self)
    (undo_stack self) (redo_stack self) (project_modified self).

Definition set_drag_start_y (self : PageConstructor)
  (v : Z) : PageConstructor :=
  mkPageConstructor (page_width self) (page_height self) (margin self)
    (current_tool self) (zoom self) (grid_size self) (snap_to_grid self)
    (canvas_xorigin self) (canvas_yorigin self)
    (temp_panel_rect_coords self) (creation_panel_type self)
    (tail_move_panel self) (tail_root_move_panel self)
    (tail_root_drag_end_x self) (tail_root_drag_end_y self) (objects self)
    (panels self) (selected_panels self) (selection_handles self)
    (panel_drag_initial_states self) (page_drag_start_coords self)
    (drag_start_x self) v (dragging self) (drag_mode self)
    (resize_handle self) (image_editing_panel self)
    (image_pan_start_offset_x self) (image_pan_start_offset_y self)
    (image_pan_mouse_start_page_x self) (image_pan_mouse_start_page_y self)
    (undo_stack self) (redo_stack self) (project_modified self).

Definition set_current_tool (self : PageConstructor)
  (v : Tool) : PageConstructor :=
  mkPageConstructor (page_width self) (page_height self) (margin self) v
    (zoom self) (grid_size self) (snap_to_grid self) (canvas_xorigin self)
    (canvas_yorigin self) (temp_panel_rect_coords self)
    (creation_panel_type self) (tail_move_panel self)
    (tail_root_move_panel self) (tail_root_drag_end_x self)
    (tail_root_drag_end_y self) (objects self) (panels self)
    (selected_panels self) (selection_handles self)
    (panel_drag_initial_states self) (page_drag_start_coords self)
    (drag_start_x self) (drag_start_y self) (dragging self)
    (drag_mode self) (resize_handle self) (image_editing_panel self)
    (image_pan_start_offset_x self) (image_pan_start_offset_y self)
    (image_pan_mouse_start_page_x self) (image_pan_mouse_start_page_y self)
    (undo_stack self) (redo_stack self) (project_modified self).

(** [PageConstructor.set_page_dimensions] *)
Definition set_page_dimensions (self : PageConstructor) (width height : Z)
  : PageConstructor :=
  set_page_height (set_page_width self width) height.

Definition MAX_HISTORY_SIZE : nat := 50.

(** *** The object store *)

(** Every address held by a state denotes an allocated object, so the
    default below is never read. *)
Definition panel_at (self : PageConstructor) (a : addr) : Panel :=
  nth a (objects self) (new_Panel "" 0 0 100 100 RECTANGULAR 0).

Fixpoint update_at (a : addr) (f : Panel -> Panel) (objs : list Panel)
  : list Panel :=
  match objs, a with
  | [], _ => []
  | p :: rest, O => f p :: rest
  | p :: rest, S a' => p :: update_at a' f rest
  end.

(** Assignment to fields of the object at [a]. *)
Definition store (self : PageConstructor) (a : addr) (f : Panel -> Panel)
  : PageConstructor :=
  set_objects self (update_at a f (objects self)).

(** A new object. *)
Definition alloc (self : PageConstructor) (p : Panel)
  : addr * PageConstructor :=
  (List.length (objects self), set_objects self (objects self ++ [p])).

(** [self.panels] read as a list of panel values; this is also what
    [copy.deepcopy(self.panels)] returns. *)
Definition panel_list (self : PageConstructor) : list Panel :=
  map (panel_at self) (panels self).

(** [self.panels = copy.deepcopy(state)]: fresh objects, one per panel of
    the snapshot. *)
Definition rebind_panels (self : PageConstructor) (state : list Panel)
  : PageConstructor :=
  let base := List.length (objects self) in
  let self := set_objects self (objects self ++ state) in
  set_panels self (seq base (List.length state)).

(** [panel in refs], with the dataclass equality. *)
Definition panel_in (self : PageConstructor) (a : addr) (refs : list addr)
  : bool :=
  existsb (fun b => Nat.eqb a b || Panel_eqb (panel_at self a) (panel_at self b))
          refs.

(** *** Coordinates *)

(** How Tk reads a screen distance given as a number
    ([Tk_GetPixelsFromObj]): in whole pixels, the nearest one, a half
    going away from 0. *)
Definition Tk_GetPixels (d : Q) : Z :=
  if Py.ltb d 0 then Py.int (d - (1 # 2)) else Py.int (d + (1 # 2)).

(** [Canvas.canvasx] / [Canvas.canvasy]: the canvas coordinate shown at a
    window coordinate, that is the window coordinate, read in whole
    pixels, shifted by the origin of the view (scrolling, or a scroll
    region that starts left of 0). *)
Definition canvasx (self : PageConstructor) (screenx : Q) : Q :=
  inject_Z (Tk_GetPixels screenx) + canvas_xorigin self.
Definition canvasy (self : PageConstructor) (screeny : Q) : Q :=
  inject_Z (Tk_GetPixels screeny) + canvas_yorigin self.

Definition screen_to_page (self : PageConstructor) (screen_x screen_y : Q)
  : result (Q * Q) :=
  let canvas_x := canvasx self screen_x in
  let canvas_y := canvasy self screen_y in
  page_x <- py_div (canvas_x - inject_Z (margin self)) (zoom self) ;;
  page_y <- py_div (canvas_y - inject_Z (margin self)) (zoom self) ;;
  Ok (page_x, page_y).

Definition page_to_screen (self : PageConstructor) (page_x page_y : Q)
  : Q * Q :=
  let canvas_x := page_x * zoom self + inject_Z (margin self) in
  let canvas_y := page_y * zoom self + inject_Z (margin self) in
  (canvas_x, canvas_y).

Definition snap_to_grid_coords (self : PageConstructor) (x y : Q) : Q * Q :=
  if snap_to_grid self && (0 <? grid_size self)%Z then
    let g := inject_Z (grid_size self) in
    (inject_Z (Py.round (x / g)) * g, inject_Z (Py.round (y / g)) * g)
  else (x, y).

(** *** Redrawing *)

(** [sorted(self.panels, key=lambda p: p.layer)], on references. *)
Fixpoint insert_ref_by_layer (self : PageConstructor) (a : addr)
  (l : list addr) : list addr :=
  match l with
  | [] => [a]
  | b :: rest =>
      if (layer (panel_at self a) <=? layer (panel_at self b))%Z
      then a :: b :: rest
      else b :: insert_ref_by_layer self a rest
  end.

Definition sorted_refs_by_layer (self : PageConstructor) (l : list addr)
  : list addr :=
  fold_right (insert_ref_by_layer self) [] l.

(** [panel.content_image and os.path.exists(panel.content_image)];
    [os_path_exists] is what the file system answers. *)
Definition image_on_disk (os_path_exists : string -> bool) (panel : Panel)
  : bool :=
  match content_image panel with
  | Some EmptyString | None => false
  | Some path => os_path_exists path
  end.

(** What [draw_rectangular_panel] writes to the panel it draws: a panel
    that has a size on the screen and an image on disk has its cache flag
    cleared. The canvas items and the image caches are not modelled. *)
Definition draw_rectangular_panel (os_path_exists : string -> bool)
  (self : PageConstructor) (panel : Panel) : Panel :=
  let '(x1_s, y1_s) := page_to_screen self (x panel) (y panel) in
  let '(x2_s, y2_s) :=
    page_to_screen self (x panel + width panel) (y panel + height panel) in
  let panel_screen_width := Py.int (x2_s - x1_s) in
  let panel_screen_height := Py.int (y2_s - y1_s) in
  if (panel_screen_width <=? 0)%Z || (panel_screen_height <=? 0)%Z then panel
  else if image_on_disk os_path_exists panel then
    if _image_content_updated_flag panel
    then set_image_content_updated_flag panel false
    else panel
  else panel.

(** [draw_round_panel] writes the same. *)
Definition draw_round_panel (os_path_exists : string -> bool)
  (self : PageConstructor) (panel : Panel) : Panel :=
  let '(x1_s, y1_s) := page_to_screen self (x panel) (y panel) in
  let '(x2_s, y2_s) :=
    page_to_screen self (x panel + width panel) (y panel + height panel) in
  let panel_screen_width := Py.int (x2_s - x1_s) in
  let panel_screen_height := Py.int (y2_s - y1_s) in
  if (panel_screen_width <=? 0)%Z || (panel_screen_height <=? 0)%Z then panel
  else if image_on_disk os_path_exists panel then
    if _image_content_updated_flag panel
    then set_image_content_updated_flag panel false
    else panel
  else panel.

(** [draw_panel]: the drawing of the other panel types writes nothing to
    the panel. *)
Definition draw_panel (os_path_exists : string -> bool)
  (self : PageConstructor) (panel : Panel) : Panel :=
  match panel_type panel with
  | RECTANGULAR => draw_rectangular_panel os_path_exists self panel
  | ROUND => draw_round_panel os_path_exists self panel
  | _ => panel
  end.

(** The eight markers [draw_selection] makes for one selected panel. *)
Definition selection_markers (self : PageConstructor) (panel : Panel)
  : list SelectionHandle :=
  let '(x1, y1) := page_to_screen self (x panel) (y panel) in
  let '(x2, y2) :=
    page_to_screen self (x panel + width panel) (y panel + height panel) in
  [ mkSelectionHandle x1 y1 "top_left_corner" "nw";
    mkSelectionHandle ((x1 + x2) / 2) y1 "top_side" "n";
    mkSelectionHandle x2 y1 "top_right_corner" "ne";
    mkSelectionHandle x2 ((y1 + y2) / 2) "right_side" "e";
    mkSelectionHandle x2 y2 "bottom_right_corner" "se";
    mkSelectionHandle ((x1 + x2) / 2) y2 "bottom_side" "s";
    mkSelectionHandle x1 y2 "bottom_left_corner" "sw";
    mkSelectionHandle x1 ((y1 + y2) / 2) "left_side" "w" ].

Definition draw_selection (self : PageConstructor) : PageConstructor :=
  set_selection_handles self
    (flat_map (fun panel => selection_markers self (panel_at self panel))
       (selected_panels self)).

(** [PageConstructor.redraw], as far as it writes to the model: the
    visible panels are drawn from the lowest layer up, then the selection.
    The page background, the grid, the guides and the rectangle of a
    create gesture only make canvas items. (The grid divides by the zoom,
    which is never 0: it is 1.0 at first and [set_zoom] keeps it at 0.01
    or more.) *)
Definition redraw (os_path_exists : string -> bool) (self : PageConstructor)
  : PageConstructor :=
  let self :=
    fold_left
      (fun s panel =>
         if visible (panel_at s panel)
         then store s panel (draw_panel os_path_exists s)
         else s)
      (sorted_refs_by_layer self (panels self)) self in
  draw_selection self.

(** [update_scroll_region] gives the canvas a new scroll region, and Tk
    then fits the view into it. The region itself is not modelled;
    [view_origin] is the origin of the view (in whole pixels) that Tk
    settles on. *)
Definition update_scroll_region (view_origin : Z * Z)
  (self : PageConstructor) : PageConstructor :=
  set_canvas_yorigin
    (set_canvas_xorigin self (inject_Z (fst view_origin)))
    (inject_Z (snd view_origin)).

(** [PageConstructor.set_zoom] *)
Definition set_zoom_level (os_path_exists : string -> bool)
  (view_origin : Z * Z) (self : PageConstructor) (zoom_level : Q)
  : PageConstructor :=
  let new_zoom := Py.max (1 # 100) (Py.min 10 zoom_level) in
  if Py.ltb (1 # 1000) (Py.abs (zoom self - new_zoom)) then
    let self := set_zoom self new_zoom in
    let self := update_scroll_region view_origin self in
    redraw os_path_exists self
  else if Py.leb (zoom self) (1 # 100) && Py.ltb (1 # 100) zoom_level then
    let self := set_zoom self new_zoom in
    let self := update_scroll_region view_origin self in
    redraw os_path_exists self
  else self.

(** *** Selection *)

Definition select_panel (self : PageConstructor) (panel : addr)
  : PageConstructor :=
  if panel_in self panel (selected_panels self) then self
  else
    let self := store self panel (fun p => set_selected p true) in
    set_selected_panels self (selected_panels self ++ [panel]).

Definition clear_selection (self : PageConstructor) : PageConstructor :=
  let self := fold_left
                (fun s panel => store s panel (fun p => set_selected p false))
                (selected_panels self) self in
  let self := set_selected_panels self [] in
  set_selection_handles self [].

(** *** History *)

(** [if len(stack) > MAX_HISTORY_SIZE: stack.pop(0)] *)
Definition trim_history (stack : list (list Panel)) : list (list Panel) :=
  if (MAX_HISTORY_SIZE <? List.length stack)%nat then tl stack else stack.

Definition save_history_state (self : PageConstructor) : PageConstructor :=
  let self := set_redo_stack self [] in
  let current_panels_copy := panel_list self in
  let self := set_undo_stack self (undo_stack self ++ [current_panels_copy]) in
  set_undo_stack self (trim_history (undo_stack self)).

Definition _post_history_change_update (os_path_exists : string -> bool)
  (self : PageConstructor) : PageConstructor :=
  let self := match image_editing_panel self with
              | Some _ => set_image_editing_panel self None
              | None => self
              end in
  let self := clear_selection self in
  redraw os_path_exists self.

Definition undo_action (os_path_exists : string -> bool)
  (self : PageConstructor) : bool * PageConstructor :=
  if (1 <? List.length (undo_stack self))%nat then
    let current_state_for_redo := last (undo_stack self) [] in
    let self := set_undo_stack self (removelast (undo_stack self)) in
    let self := set_redo_stack self
                  (redo_stack self ++ [current_state_for_redo]) in
    let previous_state := last (undo_stack self) [] in
    let self := rebind_panels self previous_state in
    (true, _post_history_change_update os_path_exists self)
  else (false, self).

Definition redo_action (os_path_exists : string -> bool)
  (self : PageConstructor) : bool * PageConstructor :=
  match redo_stack self with
  | [] => (false, self)
  | _ :: _ =>
      let state_to_restore := last (redo_stack self) [] in
      let self := set_redo_stack self (removelast (redo_stack self)) in
      let self := set_undo_stack self (undo_stack self ++ [state_to_restore]) in
      let self := set_undo_stack self (trim_history (undo_stack self)) in
      let self := rebind_panels self state_to_restore in
      (true, _post_history_change_update os_path_exists self)
  end.

(** [PageConstructor.__init__], as far as the modelled state goes. *)
Definition init : PageConstructor :=
  save_history_state
    (mkPageConstructor 595 842 20 SELECT 1 50 false 0 0 None None None None
       0 0 [] [] [] [] [] (0, 0) 0 0 false None None None 0 0 0 0 [] []
       false).

(** *** Creating a panel *)

(** [max((p.layer for p in self.panels), default=-1) + 1 if self.panels
    else 0] *)
Definition next_layer (ps : list Panel) : Z :=
  match ps with
  | [] => 0%Z
  | p :: rest => (fold_left Z.max (map layer rest) (layer p) + 1)%Z
  end.

(** [uuid] is the value [uuid.uuid4()] yields for the new panel. *)
Definition create_panel (uuid : string) (self : PageConstructor)
  (x y width height : Q) (panel_type : PanelType) : addr * PageConstructor :=
  let panel := new_Panel uuid x y width height panel_type
                 (next_layer (panel_list self)) in
  let panel := mark_visuals_for_update panel in
  let '(a, self) := alloc self panel in
  let self := set_panels self (panels self ++ [a]) in
  let self := clear_selection self in
  let self := select_panel self a in
  let self := save_history_state self in
  (a, self).

(** *** Resizing by a handle *)

(** The handle names [draw_selection] gives to the eight markers. *)
Definition handle_types : list string :=
  ["nw"; "n"; "ne"; "e"; "se"; "s"; "sw"; "w"]%string.

Definition resize_panel_with_handle (self : PageConstructor) (panel : Panel)
  (handle : SelectionHandle) (current_page_x current_page_y : Q) : Panel :=
  let has c := Py.contains c (handle_type handle) in
  let orig_x1 := x panel in
  let orig_y1 := y panel in
  let orig_x2 := x panel + width panel in
  let orig_y2 := y panel + height panel in
  let snapped := snap_to_grid_coords self current_page_x current_page_y in
  let new_y1 := if has "n"%char then snd snapped else orig_y1 in
  let new_y2 := if has "s"%char then snd snapped else orig_y2 in
  let new_x1 := if has "w"%char then fst snapped else orig_x1 in
  let new_x2 := if has "e"%char then fst snapped else orig_x2 in
  let min_page_size := 20 in
  let '(new_x1, new_x2) :=
    if Py.ltb (new_x2 - new_x1) min_page_size then
      if has "w"%char && Py.ltb (orig_x2 - min_page_size) new_x1 then
        (orig_x2 - min_page_size, new_x2)
      else if has "e"%char && Py.ltb new_x2 (orig_x1 + min_page_size) then
        (new_x1, orig_x1 + min_page_size)
      else if has "w"%char then (new_x2 - min_page_size, new_x2)
      else (new_x1, new_x1 + min_page_size)
    else (new_x1, new_x2) in
  let '(new_y1, new_y2) :=
    if Py.ltb (new_y2 - new_y1) min_page_size then
      if has "n"%char && Py.ltb (orig_y2 - min_page_size) new_y1 then
        (orig_y2 - min_page_size, new_y2)
      else if has "s"%char && Py.ltb new_y2 (orig_y1 + min_page_size) then
        (new_y1, orig_y1 + min_page_size)
      else if has "n"%char then (new_y2 - min_page_size, new_y2)
      else (new_y1, new_y1 + min_page_size)
    else (new_y1, new_y2) in
  let panel := set_x panel new_x1 in
  let panel := set_y panel new_y1 in
  let panel := set_width panel (new_x2 - new_x1) in
  let panel := set_height panel (new_y2 - new_y1) in
  let panel := set_x panel (Py.max 0 (x panel)) in
  let panel := set_y panel (Py.max 0 (y panel)) in
  let panel :=
    if Py.ltb (inject_Z (page_width self)) (x panel + width panel)
    then set_width panel (inject_Z (page_width self) - x panel)
    else panel in
  let panel :=
    if Py.ltb (inject_Z (page_height self)) (y panel + height panel)
    then set_height panel (inject_Z (page_height self) - y panel)
    else panel in
  let panel := set_width panel (Py.max min_page_size (width panel)) in
  let panel := set_height panel (Py.max min_page_size (height panel)) in
  mark_visuals_for_update panel.

(** *** Pointer gestures *)

Definition drag_mode_is (self : PageConstructor) (mode : string) : bool :=
  match drag_mode self with
  | Some m => String.eqb m mode
  | None => false
  end.

(** [dict] lookup by key. *)
Fixpoint dict_get {V} (k : string) (d : list (string * V)) : option V :=
  match d with
  | [] => None
  | (k', v) :: rest => if String.eqb k' k then Some v else dict_get k rest
  end.

(** The body of the loop of the "move" branch of [on_mouse_drag]. *)
Definition drag_move_panel (self : PageConstructor) (dx dy : Q) (p : Panel)
  : Panel :=
  match dict_get (id p) (panel_drag_initial_states self) with
  | Some (ix, iy, pw, ph) =>
      let nx := Py.max 0 (Py.min (inject_Z (page_width self) - pw) (ix + dx)) in
      let ny := Py.max 0 (Py.min (inject_Z (page_height self) - ph) (iy + dy)) in
      let '(nx, ny) := snap_to_grid_coords self nx ny in
      set_y (set_x p nx) ny
  | None => p
  end.

Section Gestures.

(** [math.cos], [math.sin] and [math.atan2] on floats. *)
Variables math_cos math_sin : Q -> Q.
Variable math_atan2 : Q -> Q -> Q.

Definition on_mouse_drag (self : PageConstructor) (event : Event)
  : result PageConstructor :=
  if negb (dragging self) then Ok self
  else
    '(current_page_x, current_page_y) <-
      screen_to_page self (inject_Z (ev_x event)) (inject_Z (ev_y event)) ;;
    match drag_mode_is self "move_tail", tail_move_panel self,
          drag_mode_is self "move_tail_root", tail_root_move_panel self with
    | true, Some a, _, _ =>
        let p := panel_at self a in
        let root_angle := tail_root_angle p in
        let cx := x p + width p / 2 in
        let cy := y p + height p / 2 in
        let root_px := cx + (width p / 2) * math_cos root_angle in
        let root_py := cy + (height p / 2) * math_sin root_angle in
        '(cur_page_x, cur_page_y) <-
          screen_to_page self (inject_Z (ev_x event)) (inject_Z (ev_y event)) ;;
        Ok (store self a
              (fun p => mark_visuals_for_update
                          (set_tail p (cur_page_x - root_px)
                                      (cur_page_y - root_py))))
    | _, _, true, Some a =>
        let p := panel_at self a in
        '(cur_page_x, cur_page_y) <-
          screen_to_page self (inject_Z (ev_x event)) (inject_Z (ev_y event)) ;;
        let cx := x p + width p / 2 in
        let cy := y p + height p / 2 in
        let angle := math_atan2 ((cur_page_y - cy) * width p)
                                ((cur_page_x - cx) * height p) in
        let root_px := cx + (width p / 2) * math_cos angle in
        let root_py := cy + (height p / 2) * math_sin angle in
        Ok (store self a
              (fun p => mark_visuals_for_update
                          (set_tail (set_tail_root_angle p angle)
                             (tail_root_drag_end_x self - root_px)
                             (tail_root_drag_end_y self - root_py))))
    | _, _, _, _ =>
        match drag_mode_is self "pan_image", image_editing_panel self with
        | true, Some a =>
            let dx := current_page_x - image_pan_mouse_start_page_x self in
            let dy := current_page_y - image_pan_mouse_start_page_y self in
            Ok (store self a
                  (fun p => mark_visuals_for_update
                              (set_image_transform p
                                 (image_pan_start_offset_x self + dx)
                                 (image_pan_start_offset_y self + dy)
                                 (image_scale p))))
        | _, _ =>
            if drag_mode_is self "move" then
              let dx := current_page_x - fst (page_drag_start_coords self) in
              let dy := current_page_y - snd (page_drag_start_coords self) in
              Ok (fold_left
                    (fun s a => store s a (drag_move_panel self dx dy))
                    (selected_panels self) self)
            else
              match drag_mode_is self "resize", resize_handle self,
                    selected_panels self with
              | true, Some handle, a :: _ =>
                  Ok (store self a
                        (fun p => mark_visuals_for_update
                                    (resize_panel_with_handle self p handle
                                       current_page_x current_page_y)))
              | _, _, _ =>
                  if drag_mode_is self "create" then
                    '(sx, sy) <-
                      screen_to_page self (inject_Z (drag_start_x self))
                                          (inject_Z (drag_start_y self)) ;;
                    let '(sx, sy) := snap_to_grid_coords self sx sy in
                    let '(cx, cy) :=
                      snap_to_grid_coords self current_page_x current_page_y in
                    let '(x1_s, y1_s) :=
                      page_to_screen self (Py.min sx cx) (Py.min sy cy) in
                    let '(x2_s, y2_s) :=
                      page_to_screen self (Py.max sx cx) (Py.max sy cy) in
                    Ok (set_temp_panel_rect_coords self
                          (Some (x1_s, y1_s, x2_s, y2_s)))
                  else Ok self
              end
        end
    end.

End Gestures.

(** The rectangle of a create gesture, as [on_mouse_up] computes it
    (step 4-2): both corners snapped, then ordered by [min]/[max];
    returned as [(x1, y1, w, h)]. *)
Definition create_rectangle (self : PageConstructor)
  (start_px start_py cur_x cur_y : Q) : Q * Q * Q * Q :=
  let '(spx, spy) := snap_to_grid_coords self start_px start_py in
  let '(cpx, cpy) := snap_to_grid_coords self cur_x cur_y in
  let x1 := Py.min spx cpx in
  let y1 := Py.min spy cpy in
  let x2 := Py.max spx cpx in
  let y2 := Py.max spy cpy in
  (x1, y1, x2 - x1, y2 - y1).

(** Step 4-4 of [on_mouse_up]. *)
Definition release_cleanup (self : PageConstructor) : PageConstructor :=
  let self := set_temp_panel_rect_coords self None in
  let self := set_dragging self false in
  let self := match image_editing_panel self with
              | None => set_drag_mode self None
              | Some _ => self
              end in
  let self := set_resize_handle self None in
  let self := set_panel_drag_initial_states self [] in
  let self := set_tail_move_panel self None in
  set_tail_root_move_panel self None.

Definition on_mouse_up (uuid : string) (self : PageConstructor)
  (event : Event) : result PageConstructor :=
  if negb (dragging self) then
    match image_editing_panel self with
    | Some a =>
        '(px, py) <-
          screen_to_page self (inject_Z (ev_x event)) (inject_Z (ev_y event)) ;;
        if negb (contains_point (panel_at self a) px py) then
          let self := save_history_state self in
          let self := set_project_modified self true in
          Ok (set_image_editing_panel self None)
        else Ok self
    | None => Ok self
    end
  else
    '(cur_x, cur_y) <-
      screen_to_page self (inject_Z (ev_x event)) (inject_Z (ev_y event)) ;;
    '(start_px, start_py) <-
      screen_to_page self (inject_Z (drag_start_x self))
                          (inject_Z (drag_start_y self)) ;;
    if drag_mode_is self "move_tail" then
      let self := save_history_state self in
      let self := set_project_modified self true in
      let self := set_tail_move_panel self None in
      let self := set_dragging self false in
      Ok (set_drag_mode self None)
    else if drag_mode_is self "move_tail_root" then
      let self := save_history_state self in
      let self := set_project_modified self true in
      let self := set_tail_root_move_panel self None in
      let self := set_dragging self false in
      Ok (set_drag_mode self None)
    else
      let self :=
        if drag_mode_is self "create" then
          let '(x1, y1, w, h) :=
            create_rectangle self start_px start_py cur_x cur_y in
          let self :=
            if Py.leb 10 w && Py.leb 10 h then
              let ptype := match creation_panel_type self with
                           | Some t => t
                           | None => RECTANGULAR
                           end in
              let '(new_panel, self) := create_panel uuid self x1 y1 w h ptype in
              let self :=
                if PanelType_eqb ptype SPEECH_BUBBLE then
                  store self new_panel
                        (fun p => set_content_text p "Текст")
                else self in
              set_project_modified self true
            else self in
          set_creation_panel_type self None
        else if drag_mode_is self "move" || drag_mode_is self "resize"
                || drag_mode_is self "pan_image" then
          let self := save_history_state self in
          set_project_modified self true
        else self in
      Ok (release_cleanup self).

(** *** The scroll wheel *)

(** Calls the handler delegates to the application shell. *)
Inductive AppCall := app_zoom_in | app_zoom_out.

Inductive ZoomDirection := zoom_in_dir | zoom_out_dir.

Definition zoom_direction (event : Event) : option ZoomDirection :=
  if (ev_num event =? 5)%Z || (ev_delta event <? 0)%Z then Some zoom_out_dir
  else if (ev_num event =? 4)%Z || (0 <? ev_delta event)%Z then Some zoom_in_dir
  else None.

Definition ctrl_pressed (event : Event) : bool :=
  negb (Z.land (ev_state event) 4 =? 0)%Z.

(** Truth value of an [Optional[str]]. *)
Definition truthy (s : option string) : bool :=
  match s with
  | Some EmptyString | None => false
  | Some _ => true
  end.

Definition canvas_zoom (d : ZoomDirection) : AppCall :=
  match d with
  | zoom_out_dir => app_zoom_out
  | zoom_in_dir => app_zoom_in
  end.

(** The result is the new state and the call made to the application, if
    any. *)
Definition on_mouse_wheel (self : PageConstructor) (event : Event)
  : result (PageConstructor * option AppCall) :=
  match zoom_direction event with
  | None => Ok (self, None)
  | Some direction =>
      match image_editing_panel self with
      | Some a =>
          if truthy (content_image (panel_at self a)) then
            if ctrl_pressed event then Ok (self, Some (canvas_zoom direction))
            else
              let panel := panel_at self a in
              let scale_factor := match direction with
                                  | zoom_out_dir => 1 / (11 # 10)
                                  | zoom_in_dir => 11 # 10
                                  end in
              let old_scale := image_scale panel in
              let new_scale :=
                Py.max (1 # 10) (Py.min 10 (old_scale * scale_factor)) in
              if Py.ltb (Py.abs (new_scale - old_scale)) (1 # 1000) then
                Ok (self, None)
              else
                '(mouse_page_x, mouse_page_y) <-
                  screen_to_page self (inject_Z (ev_x event))
                                      (inject_Z (ev_y event)) ;;
                let mouse_in_panel_x := mouse_page_x - x panel in
                let mouse_in_panel_y := mouse_page_y - y panel in
                ratio <- py_div new_scale old_scale ;;
                let new_offset_x :=
                  mouse_in_panel_x
                  - (mouse_in_panel_x - image_offset_x panel) * ratio in
                let new_offset_y :=
                  mouse_in_panel_y
                  - (mouse_in_panel_y - image_offset_y panel) * ratio in
                Ok (store self a
                      (fun p => mark_visuals_for_update
                                  (set_image_transform p new_offset_x
                                     new_offset_y new_scale)),
                    None)
          else Ok (self, Some (canvas_zoom direction))
      | None => Ok (self, Some (canvas_zoom direction))
      end
  end.

(** ** The export rasteriser (export_manager.py) *)

(** The names bound in the module namespace of export_manager.py: its
    imports, its constant and its classes. *)
Definition export_manager_globals : list string :=
  ["tk"; "ttk"; "filedialog"; "messagebox"; "os"; "copy"; "zipfile";
   "threading"; "time"; "Path"; "List"; "Dict"; "Tuple"; "Optional"; "Any";
   "Union"; "dataclass"; "field"; "Enum"; "json"; "Image"; "ImageDraw";
   "ImageFont"; "ImageFilter"; "ImageEnhance"; "io"; "pdf_canvas"; "letter";
   "A4"; "legal"; "mm"; "inch"; "HAS_REPORTLAB"; "logger"; "get_temp_dir";
   "safe_filename"; "mm_to_pixels"; "pixels_to_mm"; "center_window";
   "create_tooltip"; "PAGE_SIZES"; "ORIENTATIONS"; "Panel"; "PanelType";
   "REFERENCE_DPI_FOR_PAGE_SIZES"; "ExportFormat"; "ExportQuality";
   "ExportSettings"; "ExportProgress"; "ExportManager"]%string.

(** Evaluation of a global name in export_manager.py. *)
Definition load_global (name : string) : result unit :=
  if existsb (String.eqb name) export_manager_globals then Ok tt
  else Raise (NameError name).

Definition REFERENCE_DPI_FOR_PAGE_SIZES : Q := 300.

(** utils.py *)
Definition PAGE_SIZES : list (string * (Z * Z)) :=
  [("A4", (2480, 3508)); ("A5", (1748, 2480)); ("B4", (2953, 4169));
   ("B5", (2079, 2953)); ("Letter", (2550, 3300)); ("Tabloid", (3300, 5100));
   ("Пользовательский", (2079, 2953))]%string%Z.

Definition ORIENTATIONS : list (string * string) :=
  [("Портретный", "portrait"); ("Альбомный", "landscape")]%string.

Definition mm_to_pixels (mm dpi : Q) : Q :=
  let inches := mm / (254 # 10) in
  inches * dpi.

Inductive ExportFormat := PNG | JPEG | PDF | CBZ | CBR | TIFF | BMP | WEBP.

Definition is_PNG (f : ExportFormat) : bool :=
  match f with PNG => true | _ => false end.

Record ExportSettings := mkExportSettings {
  format : ExportFormat;
  dpi : Z;
  include_bleed : bool;
  bleed_size : Q;
  include_crop_marks : bool;
  include_registration_marks : bool;
  background_color : string;
  transparent_background : bool;
  export_page_size_name : string;
  export_orientation_name : string;
  custom_export_width_px : option Z;
  custom_export_height_px : option Z
}.

(** A panel composited onto the export canvas: which panel, the pixel box
    it was pasted at, and the placement of the panel body inside the box;
    for a speech bubble also the tail polygon. *)
Record PanelLayer := mkPanelLayer {
  pl_panel : string;
  pl_bounds : Z * Z * Z * Z;
  pl_offset_px : Z * Z;
  pl_size_px : Z * Z;
  pl_tail : option (Q * Q * Q * Q * Q * Q)
}.

Inductive DrawOp :=
| PastePanel (l : PanelLayer)
| CropMarks
| RegistrationMarks.

(** A pixel buffer: its mode, its size and what has been drawn on it. *)
Record Image := mkImage {
  img_mode : string;
  img_width : Z;
  img_height : Z;
  img_ops : list DrawOp
}.

(** [Image.new(mode, (w, h), color)]; PIL refuses a negative size. *)
Definition Image_new (mode : string) (w h : Z) : result Image :=
  if (w <? 0)%Z || (h <? 0)%Z
  then Raise (ValueError "Width and height must be >= 0")
  else Ok (mkImage mode w h []).

Definition draw_on (image : Image) (op : DrawOp) : Image :=
  mkImage (img_mode image) (img_width image) (img_height image)
          (img_ops image ++ [op]).

(** [sorted(panels, key=lambda p: p.layer)]: stable. *)
Fixpoint insert_by_layer (p : Panel) (l : list Panel) : list Panel :=
  match l with
  | [] => [p]
  | q :: rest =>
      if (layer p <=? layer q)%Z then p :: q :: rest
      else q :: insert_by_layer p rest
  end.

Definition sorted_by_layer (l : list Panel) : list Panel :=
  fold_right insert_by_layer [] l.

(** Step 1 of [render_page_to_image]: the pixel size of the page, without
    bleed. *)
Definition export_page_size (settings : ExportSettings)
  (pc : PageConstructor) : result (Z * Z) :=
  let target_dpi := inject_Z (dpi settings) in
  let to_px (v : Z) :=
    Py.int (inject_Z v * (target_dpi / REFERENCE_DPI_FOR_PAGE_SIZES)) in
  let B5 := match dict_get "B5" PAGE_SIZES with
            | Some v => Ok v
            | None => Raise (KeyError "B5")
            end in
  if String.eqb (export_page_size_name settings) "Текущий холст" then
    Ok (to_px (page_width pc), to_px (page_height pc))
  else if String.eqb (export_page_size_name settings) "Пользовательский" then
    match custom_export_width_px settings, custom_export_height_px settings with
    | Some w, Some h => Ok (w, h)
    | _, _ =>
        '(base_w, base_h) <- B5 ;;
        Ok (to_px base_w, to_px base_h)
    end
  else
    default <- B5 ;;
    let '(base_w, base_h) :=
      match dict_get (export_page_size_name settings) PAGE_SIZES with
      | Some v => v
      | None => default
      end in
    let orientation_val :=
      if String.eqb (export_orientation_name settings) "Текущий холст" then
        if (page_height pc <? page_width pc)%Z then "landscape"%string
        else "portrait"%string
      else match dict_get (export_orientation_name settings) ORIENTATIONS with
           | Some v => v
           | None => "portrait"%string
           end in
    let '(base_w_final, base_h_final) :=
      if String.eqb orientation_val "landscape" then (base_h, base_w)
      else (base_w, base_h) in
    Ok (to_px base_w_final, to_px base_h_final).

(** The bleed offset in pixels (0 without bleed). *)
Definition bleed_offset_px (settings : ExportSettings) : Z :=
  if include_bleed settings then
    Py.int (mm_to_pixels (bleed_size settings) (inject_Z (dpi settings)))
  else 0%Z.

(** Step 2: the size of the whole canvas, bleed included. *)
Definition total_canvas_size (settings : ExportSettings)
  (export_page_width_px export_page_height_px : Z) : Z * Z :=
  if include_bleed settings then
    let bleed_pixels := bleed_offset_px settings in
    ((export_page_width_px + bleed_pixels * 2)%Z,
     (export_page_height_px + bleed_pixels * 2)%Z)
  else (export_page_width_px, export_page_height_px).

Section Rasteriser.

(** What [math.cos], [math.sin] and [math.hypot] would denote. *)
Variables math_cos math_sin : Q -> Q.
Variable math_hypot : Q -> Q -> Q.

(** The compositing of one panel. Decoding and resampling of the content
    image, text and border drawing are PIL work on the pixels of the
    layer and are not modelled further. *)
Definition render_panel_to_image (image : Image) (panel : Panel)
  (bounds : Z * Z * Z * Z) (scale_factor : Q) (scale_x scale_y : Q)
  (offset_x_px offset_y_px : Z) : result Image :=
  let '(x1_panel, y1_panel, x2_panel, y2_panel) := bounds in
  let buf_w := (x2_panel - x1_panel)%Z in
  let buf_h := (y2_panel - y1_panel)%Z in
  if (buf_w <=? 0)%Z || (buf_h <=? 0)%Z then Ok image
  else
    let panel_w_px := Py.int (width panel * scale_x) in
    let panel_h_px := Py.int (height panel * scale_y) in
    tail <-
      (if PanelType_eqb (panel_type panel) SPEECH_BUBBLE then
         _ <- load_global "math" ;;
         let angle := tail_root_angle panel in
         let cx := inject_Z offset_x_px + inject_Z panel_w_px / 2 in
         let cy := inject_Z offset_y_px + inject_Z panel_h_px / 2 in
         let root_x_px := cx + (inject_Z panel_w_px / 2) * math_cos angle in
         let root_y_px := cy + (inject_Z panel_h_px / 2) * math_sin angle in
         let end_x_px := root_x_px + tail_dx panel * scale_x in
         let end_y_px := root_y_px + tail_dy panel * scale_y in
         let tang_dx := - math_sin angle * inject_Z panel_w_px in
         let tang_dy := math_cos angle * inject_Z panel_h_px in
         let norm := math_hypot tang_dx tang_dy in
         '(tang_dx, tang_dy) <-
           (if Qeq_bool norm 0 then Ok (1, 0)
            else Ok (tang_dx / norm, tang_dy / norm)) ;;
         let base_px := inject_Z (Py.int (6 * Py.max scale_x scale_y)) in
         let bx1 := root_x_px + tang_dx * base_px in
         let by1 := root_y_px + tang_dy * base_px in
         let bx2 := root_x_px - tang_dx * base_px in
         let by2 := root_y_px - tang_dy * base_px in
         Ok (Some (bx1, by1, bx2, by2, end_x_px, end_y_px))
       else Ok None) ;;
    Ok (draw_on image
          (PastePanel
             (mkPanelLayer (id panel) bounds (offset_x_px, offset_y_px)
                (panel_w_px, panel_h_px) tail))).

(** The body of the panel loop of [render_page_to_image] for a visible
    panel. *)
Definition render_visible_panel (settings : ExportSettings)
  (export_page_width_px export_page_height_px : Z) (pc : PageConstructor)
  (image : Image) (panel : Panel) : result Image :=
  let offset_x_bleed_px := bleed_offset_px settings in
  let offset_y_bleed_px := bleed_offset_px settings in
  let scale_content_x :=
    inject_Z export_page_width_px / inject_Z (page_width pc) in
  let scale_content_y :=
    inject_Z export_page_height_px / inject_Z (page_height pc) in
  let px1 := x panel in
  let py1 := y panel in
  let px2 := x panel + width panel in
  let py2 := y panel + height panel in
  '(px1, py1, px2, py2) <-
    (if PanelType_eqb (panel_type panel) SPEECH_BUBBLE then
       let cx := x panel + width panel / 2 in
       let cy := y panel + height panel / 2 in
       _ <- load_global "math" ;;
       let angle := tail_root_angle panel in
       let rx := cx + (width panel / 2) * math_cos angle + tail_dx panel in
       let ry := cy + (height panel / 2) * math_sin angle + tail_dy panel in
       Ok (Py.min px1 rx, Py.min py1 ry, Py.max px2 rx, Py.max py2 ry)
     else Ok (px1, py1, px2, py2)) ;;
  let panel_export_x := (Py.int (px1 * scale_content_x) + offset_x_bleed_px)%Z in
  let panel_export_y := (Py.int (py1 * scale_content_y) + offset_y_bleed_px)%Z in
  let panel_export_w := Py.int ((px2 - px1) * scale_content_x) in
  let panel_export_h := Py.int ((py2 - py1) * scale_content_y) in
  let offset_inside_x := Py.int ((x panel - px1) * scale_content_x) in
  let offset_inside_y := Py.int ((y panel - py1) * scale_content_y) in
  if (panel_export_w <=? 0)%Z || (panel_export_h <=? 0)%Z then Ok image
  else
    let detail_scale_factor :=
      inject_Z (dpi settings) / REFERENCE_DPI_FOR_PAGE_SIZES in
    render_panel_to_image image panel
      (panel_export_x, panel_export_y,
       (panel_export_x + panel_export_w)%Z,
       (panel_export_y + panel_export_h)%Z)
      detail_scale_factor scale_content_x scale_content_y
      offset_inside_x offset_inside_y.

(** [for panel in panels: if not panel.visible: continue ...] *)
Fixpoint render_panels (settings : ExportSettings)
  (export_page_width_px export_page_height_px : Z) (pc : PageConstructor)
  (image : Image) (panels : list Panel) : result Image :=
  match panels with
  | [] => Ok image
  | panel :: rest =>
      if negb (visible panel) then
        render_panels settings export_page_width_px export_page_height_px
                      pc image rest
      else
        image <- render_visible_panel settings export_page_width_px
                   export_page_height_px pc image panel ;;
        render_panels settings export_page_width_px export_page_height_px
                      pc image rest
  end.

(** The [try] block of [render_page_to_image]: what it returns, or the
    exception that leaves it. *)
Definition render_page_body (settings : ExportSettings)
  (pc : PageConstructor) : result (option Image) :=
  '(export_page_width_px, export_page_height_px) <-
    export_page_size settings pc ;;
  if (export_page_width_px <=? 0)%Z || (export_page_height_px <=? 0)%Z
  then Ok None
  else
    let '(total_img_width, total_img_height) :=
      total_canvas_size settings export_page_width_px export_page_height_px in
    image <-
      (if transparent_background settings && is_PNG (format settings)
       then Image_new "RGBA" total_img_width total_img_height
       else Image_new "RGB" total_img_width total_img_height) ;;
    if (page_width pc =? 0)%Z || (page_height pc =? 0)%Z then Ok (Some image)
    else
      image <- render_panels settings export_page_width_px
                 export_page_height_px pc image
                 (sorted_by_layer (panel_list pc)) ;;
      let image := if include_crop_marks settings
                   then draw_on image CropMarks else image in
      let image := if include_registration_marks settings
                   then draw_on image RegistrationMarks else image in
      Ok (Some image).

(** [except Exception: ... return None] *)
Definition render_page_to_image (settings : ExportSettings)
  (pc : PageConstructor) : option Image :=
  match render_page_body settings pc with
  | Ok r => r
  | Raise _ => None
  end.

(** [export_current_page]: [False] is how a failed export is reported to
    [export_worker]. [save_image] stands for the post-processing and the
    encoder, which answer whether the file was written. *)
Definition export_current_page (save_image : Image -> bool)
  (settings : ExportSettings) (pc : PageConstructor) : bool :=
  match render_page_to_image settings pc with
  | None => false
  | Some page_image => save_image page_image
  end.

End Rasteriser.


(** ** Notions used in the statements *)

(** The geometric invariant the specification gives for a panel. *)
Definition panel_invariant (self : PageConstructor) (p : Panel) : Prop :=
  0 <= x p /\ 0 <= y p
  /\ x p + width p <= inject_Z (page_width self)
  /\ y p + height p <= inject_Z (page_height self)
  /\ 20 <= width p /\ 20 <= height p.

Definition undo (os_path_exists : string -> bool) (self : PageConstructor)
  : PageConstructor :=
  snd (undo_action os_path_exists self).

Definition redo (os_path_exists : string -> bool) (self : PageConstructor)
  : PageConstructor :=
  snd (redo_action os_path_exists self).

(** The references of the selection denote allocated objects. *)
Definition selection_allocated (self : PageConstructor) : Prop :=
  Forall (fun a => (a < List.length (objects self))%nat) (selected_panels self).

(** Page coordinates sent to the screen and back. *)
Definition round_trip (self : PageConstructor) (x y : Q) : result (Q * Q) :=
  let '(sx, sy) := page_to_screen self x y in
  screen_to_page self sx sy.

Definition visible_speech_bubble (p : Panel) : bool :=
  visible p && PanelType_eqb (panel_type p) SPEECH_BUBBLE.

Definition east (p : Panel) : Q := x p + width p.

Definition handle (t : string) : SelectionHandle :=
  mkSelectionHandle 0 0 "" t.

(** One axis of [resize_panel_with_handle]: the two axes are treated alike
    and independently. [lo] and [hi] tell whether the handle moves the low
    (west, north) and the high (east, south) edge, [orig1] and [orig2] are
    the edges before, [s] the snapped pointer coordinate and [page] the
    page extent. The result is the new position and size. *)
Definition resize_axis (lo hi : bool) (orig1 orig2 s page : Q) : Q * Q :=
  let new1 := if lo then s else orig1 in
  let new2 := if hi then s else orig2 in
  let '(new1, new2) :=
    if Py.ltb (new2 - new1) 20 then
      if lo && Py.ltb (orig2 - 20) new1 then (orig2 - 20, new2)
      else if hi && Py.ltb new2 (orig1 + 20) then (new1, orig1 + 20)
      else if lo then (new2 - 20, new2)
      else (new1, new1 + 20)
    else (new1, new2) in
  let pos := Py.max 0 new1 in
  let size := new2 - new1 in
  let size := if Py.ltb page (pos + size) then page - pos else size in
  (pos, Py.max 20 size).

(** The state right after a commit: the top of the undo stack is the live
    list, and the selection refers to allocated objects. *)
Definition committed (self : PageConstructor) : Prop :=
  undo_stack self <> []
  /\ last (undo_stack self) [] = panel_list self
  /\ selection_allocated self.

(** The factor one wheel notch applies to [image_scale]. *)
Definition notch_factor (d : ZoomDirection) : Q :=
  match d with
  | zoom_out_dir => 1 / (11 # 10)
  | zoom_in_dir => 11 # 10
  end.

(** The pixel size of the box of a panel that is not a speech bubble, as
    the panel loop of [render_page_to_image] computes it. *)
Definition panel_export_size (export_page_width_px export_page_height_px : Z)
  (pc : PageConstructor) (panel : Panel) : Z * Z :=
  let scale_content_x :=
    inject_Z export_page_width_px / inject_Z (page_width pc) in
  let scale_content_y :=
    inject_Z export_page_height_px / inject_Z (page_height pc) in
  (Py.int ((x panel + width panel - x panel) * scale_content_x),
   Py.int ((y panel + height panel - y panel) * scale_content_y)).

(** ** Example data *)

(** A rectangular panel on layer 0. *)
Definition rect (i : string) (px py w h : Q) : Panel :=
  new_Panel i px py w h RECTANGULAR 0.

(** The page of a fresh constructor (595 x 842) with grid snapping on
    (grid 50). *)
Definition snapping_page : PageConstructor := set_snap_to_grid init true.

(** A move gesture on [snapping_page] that started on a 100 x 100 panel at
    (400, 100). *)
Definition snapping_move : PageConstructor :=
  set_panel_drag_initial_states snapping_page
    [("p1"%string, (400, 100, 100, 100))].

(** A move gesture on the fresh page that started on the same panel. *)
Definition plain_move : PageConstructor :=
  set_panel_drag_initial_states init [("p1"%string, (400, 100, 100, 100))].

(** A page on which one 400 x 300 panel has been created at (100, 100). *)
Definition one_panel_page : PageConstructor :=
  snd (create_panel "p1" init 100 100 400 300 RECTANGULAR).

(** A fresh page whose canvas view starts 10 pixels right of and below the
    canvas origin (scrolled, or centred by a scroll region that starts at
    negative coordinates). *)
Definition scrolled_page : PageConstructor :=
  set_canvas_yorigin (set_canvas_xorigin init 10) 10.

(** A create gesture with the panel tool on a fresh page, pressed at the
    page corner (window point (20, 20): the margin is 20 and the zoom 1). *)
Definition create_gesture : PageConstructor :=
  set_creation_panel_type
    (set_drag_mode
       (set_dragging (set_drag_start_y (set_drag_start_x init 20) 20) true)
       (Some "create"%string))
    (Some RECTANGULAR).

(** A plain pointer event at a window point. *)
Definition pointer_at (ex ey : Z) : Event := mkEvent ex ey 0 0 0.

(** A content-pan session on a page with one panel that shows an image at
    scale 1 and offset (5, 7). *)
Definition pan_session : PageConstructor :=
  mkPageConstructor 595 842 20 SELECT 1 50 false 0 0 None None None None 0 0
    [mkPanel "p1" 100 100 400 300 RECTANGULAR default_style 0 0 true false
       (Some "photo.png"%string) "" true 10 20 0 pi_over_2 [] 5 7 1 false]
    [0%nat] [0%nat] [] [] (0, 0) 0 0 false None None (Some 0%nat)
    0 0 0 0 [[]] [] false.

(** One wheel notch up at a window point, without and with Ctrl. *)
Definition wheel_up (ex ey : Z) : Event := mkEvent ex ey 0 120 0.
Definition ctrl_wheel_up (ex ey : Z) : Event := mkEvent ex ey 0 120 4.

(** [ExportSettings()] *)
Definition default_settings : ExportSettings :=
  mkExportSettings PNG 300 false 3 false false "#FFFFFF" false
    "Текущий холст" "Текущий холст" None None.

(** Export to explicit pixel dimensions. *)
Definition custom_size_settings (w h : Z) : ExportSettings :=
  mkExportSettings PNG 300 false 3 false false "#FFFFFF" false
    "Пользовательский" "Текущий холст" (Some w) (Some h).

(** A page with one speech bubble, 200 x 150 at (100, 100). *)
Definition bubble_page : PageConstructor :=
  snd (create_panel "b1" init 100 100 200 150 SPEECH_BUBBLE).

(** A page with a 10 x 10 panel and a 300 x 300 panel above it. *)
Definition two_panel_page : PageConstructor :=
  snd (create_panel "big"
         (snd (create_panel "small" init 20 20 10 10 RECTANGULAR))
         100 100 300 300 RECTANGULAR).

(** No path of the rasteriser reaches a call of [math.cos], [math.sin] or
    [math.hypot] (the name [math] is unbound), so the examples may take any
    functions for them. *)
Definition some_unary : Q -> Q := fun v => v.
Definition some_binary : Q -> Q -> Q := fun v _ => v.

(** The same gesture with the speech-bubble tool. *)
Definition bubble_gesture : PageConstructor :=
  set_creation_panel_type create_gesture (Some SPEECH_BUBBLE).

(** ** More of the page constructor *)

Definition set_layer (p : Panel) (v : Z) : Panel :=
  let 'mkPanel i px py w h t st rot _ vis lk img txt sel tdx tdy tro tra
      pts iox ioy isc flag := p in
  mkPanel i px py w h t st rot v vis lk img txt sel tdx tdy tro tra pts iox
    ioy isc flag.

Definition set_id (p : Panel) (v : string) : Panel :=
  let 'mkPanel _ px py w h t st rot l vis lk img txt sel tdx tdy tro tra
      pts iox ioy isc flag := p in
  mkPanel v px py w h t st rot l vis lk img txt sel tdx tdy tro tra pts iox
    ioy isc flag.

(** *** Hit testing *)

(** [sorted(self.panels, key=lambda p: p.layer, reverse=True)], on
    references: descending, and stable like every Python sort. *)
Fixpoint insert_by_layer_desc (self : PageConstructor) (a : addr)
  (l : list addr) : list addr :=
  match l with
  | [] => [a]
  | b :: rest =>
      if (layer (panel_at self b) <=? layer (panel_at self a))%Z
      then a :: b :: rest
      else b :: insert_by_layer_desc self a rest
  end.

Definition sorted_by_layer_desc (self : PageConstructor) (l : list addr)
  : list addr :=
  fold_right (insert_by_layer_desc self) [] l.

Definition find_panel_at_point (self : PageConstructor) (x y : Q)
  : option addr :=
  let sorted_panels := sorted_by_layer_desc self (panels self) in
  find (fun panel => visible (panel_at self panel)
                     && contains_point (panel_at self panel) x y)
       sorted_panels.

(** *** Selecting all, deleting, clearing *)

Definition select_all (self : PageConstructor) : PageConstructor :=
  let self := clear_selection self in
  fold_left select_panel (panels self) self.

(** [list.remove(panel)]: the first element that is the panel or equals
    it. The callers test membership first. *)
Fixpoint remove_panel (self : PageConstructor) (a : addr) (l : list addr)
  : list addr :=
  match l with
  | [] => []
  | b :: rest =>
      if Nat.eqb a b || Panel_eqb (panel_at self a) (panel_at self b)
      then rest
      else b :: remove_panel self a rest
  end.

(** The loop of [delete_selected]: the panel list that is left and the ids
    of the panels taken out. *)
Fixpoint delete_loop (self : PageConstructor) (refs : list addr)
  (ids_to_clear : list string) : PageConstructor * list string :=
  match refs with
  | [] => (self, ids_to_clear)
  | panel :: rest =>
      if panel_in self panel (panels self) then
        delete_loop
          (set_panels self (remove_panel self panel (panels self)))
          rest (ids_to_clear ++ [id (panel_at self panel)])
      else delete_loop self rest ids_to_clear
  end.

Definition delete_selected (self : PageConstructor) : PageConstructor :=
  match selected_panels self with
  | [] => self
  | _ :: _ =>
      let '(self, ids_to_clear) :=
        delete_loop self (selected_panels self) [] in
      let self :=
        match image_editing_panel self with
        | Some a =>
            if existsb (String.eqb (id (panel_at self a))) ids_to_clear
            then set_image_editing_panel self None
            else self
        | None => self
        end in
      let self := clear_selection self in
      let self := save_history_state self in
      set_project_modified self true
  end.

Definition clear_page (self : PageConstructor) : PageConstructor :=
  let self := set_panels self [] in
  let self := set_selected_panels self [] in
  let self := set_selection_handles self [] in
  let self := set_undo_stack self [] in
  let self := set_redo_stack self [] in
  let self := save_history_state self in
  set_image_editing_panel self None.

(** *** Copy, paste, duplicate *)

(** [copy_selected]: the new clipboard of the application. *)
Definition copy_selected (self : PageConstructor)
  (clipboard : option (list Panel)) : option (list Panel) :=
  match selected_panels self with
  | [] => clipboard
  | _ :: _ => Some (map (panel_at self) (selected_panels self))
  end.

(** The panel [paste_panels] makes of a clipboard panel; [uuid] is the id
    drawn for it. *)
Definition paste_place (self : PageConstructor) (uuid : string)
  (panel : Panel) : Panel :=
  let offset_x := 20 in
  let offset_y := 20 in
  let new_panel := set_id panel uuid in
  let new_panel := set_x new_panel (x new_panel + offset_x) in
  let new_panel := set_y new_panel (y new_panel + offset_y) in
  let new_panel := set_selected new_panel false in
  let new_panel :=
    if Py.ltb (inject_Z (page_width self)) (x new_panel + width new_panel)
    then set_x new_panel (inject_Z (page_width self) - width new_panel)
    else new_panel in
  let new_panel :=
    if Py.ltb (inject_Z (page_height self)) (y new_panel + height new_panel)
    then set_y new_panel (inject_Z (page_height self) - height new_panel)
    else new_panel in
  let new_panel := set_x new_panel (Py.max 0 (x new_panel)) in
  set_y new_panel (Py.max 0 (y new_panel)).

(** The loop of [paste_panels]; [uuid n] is the [n]-th id drawn. *)
Fixpoint paste_loop (uuid : nat -> string) (n : nat)
  (self : PageConstructor) (clipboard : list Panel) : PageConstructor :=
  match clipboard with
  | [] => self
  | panel :: rest =>
      let new_panel := paste_place self (uuid n) panel in
      let '(a, self) := alloc self new_panel in
      let self := set_panels self (panels self ++ [a]) in
      let self := select_panel self a in
      paste_loop uuid (S n) self rest
  end.

(** [clipboard] is [None] while the application has no
    [clipboard_panels] attribute. *)
Definition paste_panels (uuid : nat -> string) (self : PageConstructor)
  (clipboard : option (list Panel)) : PageConstructor :=
  match clipboard with
  | None | Some [] => self
  | Some clipboard_panels =>
      let self := clear_selection self in
      let self := paste_loop uuid 0 self clipboard_panels in
      let self := save_history_state self in
      set_project_modified self true
  end.

(** [max(p.layer for p in self.panels)] and [min(...)]. *)
Definition max_layer (ps : list Panel) : result Z :=
  match ps with
  | [] => Raise (ValueError "max() iterable argument is empty")
  | p :: rest => Ok (fold_left Z.max (map layer rest) (layer p))
  end.

Definition min_layer (ps : list Panel) : result Z :=
  match ps with
  | [] => Raise (ValueError "min() iterable argument is empty")
  | p :: rest => Ok (fold_left Z.min (map layer rest) (layer p))
  end.

(** The copy [duplicate_panel] makes, before its layer is set. *)
Definition duplicate_place (self : PageConstructor) (uuid : string)
  (panel : Panel) : Panel :=
  let new_panel := set_id panel uuid in
  let offset := 20 in
  let new_panel := set_x new_panel (x new_panel + offset) in
  let new_panel := set_y new_panel (y new_panel + offset) in
  let new_panel :=
    if Py.ltb (inject_Z (page_width self)) (x new_panel + width new_panel)
    then set_x new_panel (x panel - offset)
    else new_panel in
  let new_panel :=
    if Py.ltb (inject_Z (page_height self)) (y new_panel + height new_panel)
    then set_y new_panel (y panel - offset)
    else new_panel in
  let new_panel := set_x new_panel (Py.max 0 (x new_panel)) in
  set_y new_panel (Py.max 0 (y new_panel)).

Definition duplicate_panel (uuid : string) (self : PageConstructor)
  (panel : addr) : result PageConstructor :=
  let new_panel := duplicate_place self uuid (panel_at self panel) in
  top <- max_layer (panel_list self) ;;
  let new_panel := set_layer new_panel (top + 1) in
  let new_panel := set_selected new_panel false in
  let '(a, self) := alloc self new_panel in
  let self := set_panels self (panels self ++ [a]) in
  let self := clear_selection self in
  let self := select_panel self a in
  let self := save_history_state self in
  Ok (set_project_modified self true).

(** *** Layers *)

(** [for new_layer, p in enumerate(ordered): p.layer = new_layer],
    counting from [new_layer]. *)
Fixpoint assign_layers (self : PageConstructor) (new_layer : Z)
  (ordered : list addr) : PageConstructor :=
  match ordered with
  | [] => self
  | p :: rest =>
      assign_layers (store self p (fun q => set_layer q new_layer))
                    (new_layer + 1) rest
  end.

Definition _normalize_layers (self : PageConstructor) : PageConstructor :=
  let ordered := sorted_refs_by_layer self (panels self) in
  assign_layers self 0 ordered.

Definition bring_to_front (self : PageConstructor) (panel : addr)
  : result PageConstructor :=
  let self := _normalize_layers self in
  top <- max_layer (panel_list self) ;;
  if (layer (panel_at self panel) <? top)%Z then
    let self := store self panel (fun p => set_layer p (top + 1)) in
    let self := save_history_state self in
    Ok (set_project_modified self true)
  else Ok self.

Definition send_to_back (self : PageConstructor) (panel : addr)
  : result PageConstructor :=
  let self := _normalize_layers self in
  bottom <- min_layer (panel_list self) ;;
  if (bottom <? layer (panel_at self panel))%Z then
    let self := store self panel (fun p => set_layer p (bottom - 1)) in
    let self := save_history_state self in
    Ok (set_project_modified self true)
  else Ok self.

(** *** Alignment *)






(** *** Notions used in the further statements *)

(** No element of the list has a higher layer than an element before it. *)
Fixpoint descending (self : PageConstructor) (l : list addr) : Prop :=
  match l with
  | [] => True
  | a :: rest =>
      (forall b, In b rest ->
                 (layer (panel_at self b) <= layer (panel_at self a))%Z)
      /\ descending self rest
  end.

(** Every reference of the panel list denotes an allocated object. *)
Definition panels_allocated (self : PageConstructor) : Prop :=
  Forall (fun a => (a < List.length (objects self))%nat) (panels self).



(** No element of the list has a lower layer than an element before it. *)
Fixpoint ascending (self : PageConstructor) (l : list addr) : Prop :=
  match l with
  | [] => True
  | a :: rest =>
      (forall b, In b rest ->
                 (layer (panel_at self a) <= layer (panel_at self b))%Z)
      /\ ascending self rest
  end.

(** The references of the panel list are distinct objects. *)
Definition panels_distinct (self : PageConstructor) : Prop :=
  NoDup (panels self).

(** The panels at the given references have pairwise different ids, as
    panels with ids drawn by [uuid.uuid4()] have. *)
Definition ids_distinct (self : PageConstructor) (l : list addr) : Prop :=
  forall a b, In a l -> In b l ->
              id (panel_at self a) = id (panel_at self b) -> a = b.

(** [b] is none of the references [refs]. *)
Definition not_among (refs : list addr) (b : addr) : bool :=
  negb (existsb (Nat.eqb b) refs).

(** A move gesture on [one_panel_page]: the button went down on the panel,
    at the page origin of the drag coordinates. *)
Definition move_session : PageConstructor :=
  set_panel_drag_initial_states
    (set_drag_mode (set_dragging one_panel_page true) (Some "move"%string))
    [("p1"%string, (100, 100, 400, 300))].

(** [move_session] after one drag event at window point (60, 70). *)
Definition moved_once : PageConstructor :=
  match on_mouse_drag some_unary some_unary some_binary move_session
          (pointer_at 60 70) with
  | Ok s => s
  | Raise _ => move_session
  end.

(** *** Units, marks and the watermark (utils.py, export_manager.py) *)

(** [pixels_to_mm] of utils.py. *)
Definition pixels_to_mm (pixels dpi : Q) : result Q :=
  inches <- py_div pixels dpi ;;
  Ok (inches * (254 # 10)).

(** A line [draw.line([x1, y1, x2, y2], ...)]. *)
Definition Segment : Type := Z * Z * Z * Z.

(** The eight lines of [add_crop_marks], in the order they are drawn. *)
Definition add_crop_marks (settings : ExportSettings)
  (page_width_px page_height_px offset_x_bleed_px offset_y_bleed_px : Z)
  : list Segment :=
  let mark_length := Py.int (mm_to_pixels 5 (inject_Z (dpi settings))) in
  let mark_offset := Py.int (mm_to_pixels 2 (inject_Z (dpi settings))) in
  let page_x1 := offset_x_bleed_px in
  let page_y1 := offset_y_bleed_px in
  let page_x2 := (offset_x_bleed_px + page_width_px)%Z in
  let page_y2 := (offset_y_bleed_px + page_height_px)%Z in
  [ (page_x1 - mark_offset, page_y1,
     page_x1 - mark_offset - mark_length, page_y1);
    (page_x1, page_y1 - mark_offset,
     page_x1, page_y1 - mark_offset - mark_length);
    (page_x2 + mark_offset, page_y1,
     page_x2 + mark_offset + mark_length, page_y1);
    (page_x2, page_y1 - mark_offset,
     page_x2, page_y1 - mark_offset - mark_length);
    (page_x1 - mark_offset, page_y2,
     page_x1 - mark_offset - mark_length, page_y2);
    (page_x1, page_y2 + mark_offset,
     page_x1, page_y2 + mark_offset + mark_length);
    (page_x2 + mark_offset, page_y2,
     page_x2 + mark_offset + mark_length, page_y2);
    (page_x2, page_y2 + mark_offset,
     page_x2, page_y2 + mark_offset + mark_length) ]%Z.

(** The crop marks as [render_page_to_image] asks for them. *)
Definition page_crop_marks (settings : ExportSettings)
  (export_page_width_px export_page_height_px : Z) : list Segment :=
  add_crop_marks settings export_page_width_px export_page_height_px
    (bleed_offset_px settings) (bleed_offset_px settings).

(** The placement of the text in [add_watermark]: where the text of
    measured size [text_width] x [text_height] (the differences of the
    corners [textbbox] gives, whole numbers or floats) is drawn on an
    image of size [image_width] x [image_height]. [//] is the floor
    division. *)
Definition watermark_origin (watermark_position : string)
  (image_width image_height : Z) (text_width text_height : Q) : Q * Q :=
  let floor_div2 v := inject_Z (Qfloor (v / 2)) in
  if String.eqb watermark_position "top_left" then (10, 10)
  else if String.eqb watermark_position "top_right" then
    (inject_Z image_width - text_width - 10, 10)
  else if String.eqb watermark_position "bottom_left" then
    (10, inject_Z image_height - text_height - 10)
  else if String.eqb watermark_position "bottom_right" then
    (inject_Z image_width - text_width - 10,
     inject_Z image_height - text_height - 10)
  else (floor_div2 (inject_Z image_width - text_width),
        floor_div2 (inject_Z image_height - text_height)).

(** A segment has no point on the image of the given size. The segments
    of the marks are parallel to an axis, so it is enough that both ends
    lie beyond the same edge. *)
Definition off_image (image_width image_height : Z) (s : Segment) : Prop :=
  let '(x1, y1, x2, y2) := s in
  (x1 < 0 /\ x2 < 0)%Z \/ (y1 < 0 /\ y2 < 0)%Z
  \/ (image_width <= x1 /\ image_width <= x2)%Z
  \/ (image_height <= y1 /\ image_height <= y2)%Z.


(** The export settings ask for the landscape orientation of a named page
    size: "Альбомный", or the orientation of the canvas when the canvas is
    wider than high. *)
Definition landscape_chosen (settings : ExportSettings)
  (pc : PageConstructor) : bool :=
  if String.eqb (export_orientation_name settings) "Текущий холст"
  then (page_height pc <? page_width pc)%Z
  else String.eqb (export_orientation_name settings) "Альбомный".

(** Export of an A4 page in landscape orientation at 300 dpi, with a bleed
    of 3 mm and crop marks. *)
Definition a4_landscape_settings : ExportSettings :=
  mkExportSettings PNG 300 true 3 true false "#FFFFFF" false
    "A4" "Альбомный" None None.

(** The same without bleed. *)
Definition a4_no_bleed_settings : ExportSettings :=
  mkExportSettings PNG 300 false 3 true false "#FFFFFF" false
    "A4" "Альбомный" None None.

(** The ids of the panels composited onto an image, in the order of the
    compositing. *)
Definition pasted_panels (image : Image) : list string :=
  flat_map (fun op => match op with
                      | PastePanel l => [pl_panel l]
                      | _ => []
                      end)
           (img_ops image).

(** A panel that is not a speech bubble gets pixels on the export: it is
    visible and its pixel box is not empty. *)
Definition is_drawn (export_page_width_px export_page_height_px : Z)
  (pc : PageConstructor) (p : Panel) : bool :=
  visible p
  && (0 <? fst (panel_export_size export_page_width_px export_page_height_px
                  pc p))%Z
  && (0 <? snd (panel_export_size export_page_width_px export_page_height_px
                  pc p))%Z.

(** No panel of the list has a lower layer than a panel before it. *)
Fixpoint bottom_up (l : list Panel) : Prop :=
  match l with
  | [] => True
  | p :: rest =>
      (forall q, In q rest -> (layer p <= layer q)%Z) /\ bottom_up rest
  end.

(** The export of [two_panel_page] with the default settings. *)
Definition two_panel_export : Image :=
  match render_page_to_image some_unary some_unary some_binary
          default_settings two_panel_page with
  | Some image => image
  | None => mkImage "" 0 0 []
  end.

(** A panel as a redraw leaves it. *)
Definition as_drawn (os_path_exists : string -> bool)
  (self : PageConstructor) (p : Panel) : Panel :=
  if visible p then draw_panel os_path_exists self p else p.

(** A panel but for its cache flag. *)
Definition without_flag (p : Panel) : Panel :=
  set_image_content_updated_flag p false.

(** * Properties *)

(** ** Float comparisons *)

Lemma Py_ltb_lt a b : Py.ltb a b = true <-> a < b.
Proof.
  unfold Py.ltb. rewrite negb_true_iff.
  split; intro H.
  - apply Qnot_le_lt. intro Hle. apply Qle_bool_iff in Hle. congruence.
  - destruct (Qle_bool b a) eqn:E; [|reflexivity].
    apply Qle_bool_iff in E. exfalso. eapply Qlt_not_le; eauto.
Qed.

Lemma Py_ltb_ge a b : Py.ltb a b = false <-> b <= a.
Proof.
  unfold Py.ltb. rewrite negb_false_iff. apply Qle_bool_iff.
Qed.

Lemma Py_leb_le a b : Py.leb a b = true <-> a <= b.
Proof. apply Qle_bool_iff. Qed.

Lemma Py_leb_gt a b : Py.leb a b = false <-> b < a.
Proof.
  unfold Py.leb. split; intro H.
  - apply Qnot_le_lt. intro Hle. apply Qle_bool_iff in Hle. congruence.
  - destruct (Qle_bool a b) eqn:E; [|reflexivity].
    apply Qle_bool_iff in E. exfalso. eapply Qlt_not_le; eauto.
Qed.

(** Case analysis on every float comparison of the goal, turning the
    boolean tests into order facts. *)
Ltac py_free t :=
  lazymatch t with
  | context [Py.ltb _ _] => fail
  | context [Py.leb _ _] => fail
  | _ => idtac
  end.

Ltac py_cases :=
  repeat match goal with
    | |- context [Py.ltb ?a ?b] =>
        py_free a; py_free b;
        let E := fresh "E" in
        destruct (Py.ltb a b) eqn:E;
        [apply Py_ltb_lt in E | apply Py_ltb_ge in E]
    | |- context [Py.leb ?a ?b] =>
        py_free a; py_free b;
        let E := fresh "E" in
        destruct (Py.leb a b) eqn:E;
        [apply Py_leb_le in E | apply Py_leb_gt in E]
    end.

Ltac panel_simpl :=
  cbv beta iota zeta delta
    [set_x set_y set_width set_height mark_visuals_for_update
     x y width height fst snd].

Ltac axis_simpl :=
  cbv beta iota zeta delta [fst snd andb Py.max Py.min].

Ltac axis_solve :=
  axis_simpl; py_cases; axis_simpl; py_cases; axis_simpl; py_cases;
  axis_simpl; try lra.

(** ** Resizing by a handle *)

(** [resize_panel_with_handle] is [resize_axis] on each axis. *)
Lemma resize_panel_axes self panel h cx cy :
  let p' := resize_panel_with_handle self panel h cx cy in
  let s := snap_to_grid_coords self cx cy in
  let has c := Py.contains c (handle_type h) in
  (x p', width p') =
    resize_axis (has "w"%char) (has "e"%char) (x panel) (x panel + width panel)
      (fst s) (inject_Z (page_width self))
  /\ (y p', height p') =
    resize_axis (has "n"%char) (has "s"%char) (y panel) (y panel + height panel)
      (snd s) (inject_Z (page_height self)).
Proof.
  unfold resize_panel_with_handle, resize_axis.
  destruct (snap_to_grid_coords self cx cy) as [sx sy].
  destruct panel as [? px py pw ph ? ? ? ? ? ? ? ? ? ? ? ? ? ? ? ? ? ?].
  cbn [x y width height fst snd].
  match goal with
  | |- context [let '(a, b) := ?E in let '(c, d) := ?F in _] =>
      destruct E as [nx1 nx2]; destruct F as [ny1 ny2]
  end.
  panel_simpl.
  destruct (Py.ltb (inject_Z (page_width self)) _); panel_simpl;
    destruct (Py.ltb (inject_Z (page_height self)) _);
    split; reflexivity.
Qed.

Lemma resize_axis_origin_size lo hi o1 o2 s page :
  0 <= fst (resize_axis lo hi o1 o2 s page)
  /\ 20 <= snd (resize_axis lo hi o1 o2 s page).
Proof.
  unfold resize_axis. destruct lo, hi; axis_solve.
Qed.

Lemma resize_axis_in_page lo hi o1 o2 s page :
  0 <= o1 -> o2 <= page -> 20 <= o2 - o1 ->
  fst (resize_axis lo hi o1 o2 s page) + snd (resize_axis lo hi o1 o2 s page)
  <= page.
Proof.
  intros H1 H2 H3. unfold resize_axis. destruct lo, hi; axis_solve.
Qed.



(** Closed order facts on rationals, by computation. *)
Ltac q_compute :=
  repeat split;
  match goal with
  | |- _ <= _ => apply Qle_bool_iff; vm_compute; reflexivity
  | |- _ < _ => apply Qlt_alt; vm_compute; reflexivity
  | |- _ == _ => apply Qeq_bool_iff; vm_compute; reflexivity
  | |- ~ _ == _ => apply Qeq_bool_neq; vm_compute; reflexivity
  | |- ~ _ <= _ => apply Qlt_not_le, Qlt_alt; vm_compute; reflexivity
  | |- ~ _ < _ => apply Qle_not_lt, Qle_bool_iff; vm_compute; reflexivity
  | |- _ = _ => vm_compute; reflexivity
  end.

Lemma resize_handle_origin_and_size self panel h cx cy :
  let p' := resize_panel_with_handle self panel h cx cy in
  0 <= x p' /\ 0 <= y p' /\ 20 <= width p' /\ 20 <= height p'.
Proof.
  destruct (resize_panel_axes self panel h cx cy) as [Hx Hy].
  cbv zeta.
  pose proof (resize_axis_origin_size
                (Py.contains "w" (handle_type h)) (Py.contains "e" (handle_type h))
                (x panel) (x panel + width panel)
                (fst (snap_to_grid_coords self cx cy))
                (inject_Z (page_width self))) as Ax.
  pose proof (resize_axis_origin_size
                (Py.contains "n" (handle_type h)) (Py.contains "s" (handle_type h))
                (y panel) (y panel + height panel)
                (snd (snap_to_grid_coords self cx cy))
                (inject_Z (page_height self))) as Ay.
  rewrite <- Hx in Ax. rewrite <- Hy in Ay. cbn [fst snd] in Ax, Ay.
  tauto.
Qed.

Lemma resize_handle_keeps_invariant self panel h cx cy :
  panel_invariant self panel ->
  panel_invariant self (resize_panel_with_handle self panel h cx cy).
Proof.
  intros (H1 & H2 & H3 & H4 & H5 & H6).
  destruct (resize_panel_axes self panel h cx cy) as [Hx Hy].
  pose proof (resize_handle_origin_and_size self panel h cx cy) as Hos.
  cbv zeta in Hos.
  pose proof (resize_axis_in_page
                (Py.contains "w" (handle_type h)) (Py.contains "e" (handle_type h))
                (x panel) (x panel + width panel)
                (fst (snap_to_grid_coords self cx cy))
                (inject_Z (page_width self))) as Ax.
  pose proof (resize_axis_in_page
                (Py.contains "n" (handle_type h)) (Py.contains "s" (handle_type h))
                (y panel) (y panel + height panel)
                (snd (snap_to_grid_coords self cx cy))
                (inject_Z (page_height self))) as Ay.
  rewrite <- Hx in Ax. rewrite <- Hy in Ay. cbn [fst snd] in Ax, Ay.
  unfold panel_invariant.
  repeat split; try tauto.
  - apply Ax; lra.
  - apply Ay; lra.
Qed.

(** ** Moving by a drag *)

Lemma snap_off self a b :
  snap_to_grid self = false -> snap_to_grid_coords self a b = (a, b).
Proof. intros H. unfold snap_to_grid_coords. rewrite H. reflexivity. Qed.

Lemma drag_move_in_page self dx dy p ix iy pw ph :
  snap_to_grid self = false ->
  dict_get (id p) (panel_drag_initial_states self) = Some (ix, iy, pw, ph) ->
  pw == width p -> ph == height p ->
  width p <= inject_Z (page_width self) ->
  height p <= inject_Z (page_height self) ->
  let p' := drag_move_panel self dx dy p in
  0 <= x p' /\ 0 <= y p'
  /\ x p' + width p' <= inject_Z (page_width self)
  /\ y p' + height p' <= inject_Z (page_height self)
  /\ width p' = width p /\ height p' = height p.
Proof.
  intros Hs Hd Hw Hh Hpw Hph. unfold drag_move_panel.
  rewrite Hd, (snap_off _ _ _ Hs).
  destruct p as [? px py w h ? ? ? ? ? ? ? ? ? ? ? ? ? ? ? ? ? ?].
  cbn [x y width height] in *.
  cbv beta iota zeta delta
    [set_x set_y x y width height Py.max Py.min].
  py_cases; repeat split; try reflexivity; lra.
Qed.

Lemma Panel_resize_minimum p w h :
  10 <= width (resize p w h) /\ 10 <= height (resize p w h).
Proof.
  destruct p as [? px py pw ph ? ? ? ? ? ? ? ? ? ? ? ? ? ? ? ? ? ?].
  unfold resize.
  cbv beta iota zeta delta [set_width set_height width height Py.max].
  py_cases; split; lra.
Qed.

(** C1 (as amended). After [resize_panel_with_handle] a panel always has
    [0 <= x], [0 <= y], [width >= 20] and [height >= 20], and a panel that
    satisfied the whole invariant before (inside the page, at least the
    minimum size) satisfies it afterwards. A step of a move drag with grid
    snapping off keeps a panel that is not larger than the page inside the
    page and leaves its size alone. [Panel.resize] guarantees a width and a
    height of at least 10. *)
Theorem panel_bounds_after_resize_and_move :
  (forall self panel h cx cy,
      let p' := resize_panel_with_handle self panel h cx cy in
      (0 <= x p' /\ 0 <= y p' /\ 20 <= width p' /\ 20 <= height p')
      /\ (panel_invariant self panel -> panel_invariant self p'))
  /\ (forall self dx dy p ix iy pw ph,
         snap_to_grid self = false ->
         dict_get (id p) (panel_drag_initial_states self)
         = Some (ix, iy, pw, ph) ->
         pw == width p -> ph == height p ->
         width p <= inject_Z (page_width self) ->
         height p <= inject_Z (page_height self) ->
         let p' := drag_move_panel self dx dy p in
         0 <= x p' /\ 0 <= y p'
         /\ x p' + width p' <= inject_Z (page_width self)
         /\ y p' + height p' <= inject_Z (page_height self)
         /\ width p' = width p /\ height p' = height p)
  /\ (forall p w h, 10 <= width (resize p w h) /\ 10 <= height (resize p w h)).
Proof.
  split; [|split].
  - intros. split.
    + apply resize_handle_origin_and_size.
    + apply resize_handle_keeps_invariant.
  - intros. eapply drag_move_in_page; eassumption.
  - apply Panel_resize_minimum.
Qed.

Lemma panel_bounds_after_resize_and_move_witness :
  panel_invariant init
    (resize_panel_with_handle init (rect "p1" 100 100 400 300) (handle "se")
       600 500)
  /\ (let p' := drag_move_panel plain_move 300 (-200) (rect "p1" 400 100 100 100) in
      0 <= x p' /\ 0 <= y p'
      /\ x p' + width p' <= inject_Z (page_width plain_move)
      /\ y p' + height p' <= inject_Z (page_height plain_move)
      /\ width p' = width (rect "p1" 400 100 100 100)
      /\ height p' = height (rect "p1" 400 100 100 100)).
Proof.
  split.
  - apply (proj1 panel_bounds_after_resize_and_move).
    unfold panel_invariant. q_compute.
  - apply (proj1 (proj2 panel_bounds_after_resize_and_move)
             plain_move 300 (-200) (rect "p1" 400 100 100 100)
             400 100 100 100).
    + reflexivity.
    + reflexivity.
    + q_compute.
    + q_compute.
    + q_compute.
    + q_compute.
Defined.

(** C1, as the specification states it, fails: [Panel.resize] stops at 10,
    not 20; [Panel.move] does not clamp; a panel that starts right of the
    page keeps sticking out after a resize; and a move drag snaps after it
    clamps, which can push the panel over the page edge. *)
Lemma panel_bounds_counterexample :
  ~ panel_invariant init (resize (rect "p1" 100 100 100 100) 5 5)
  /\ ~ panel_invariant init (move (rect "p1" 100 100 100 100) (-200) 0)
  /\ (In "s"%string handle_types
      /\ ~ panel_invariant init
            (resize_panel_with_handle init (rect "p1" 590 100 100 100)
               (handle "s") 600 300))
  /\ ~ panel_invariant snapping_move
        (drag_move_panel snapping_move 300 0 (rect "p1" 400 100 100 100)).
Proof.
  repeat split; try (cbv [handle_types]; cbn; tauto);
    unfold panel_invariant; intros (H1 & H2 & H3 & H4 & H5 & H6).
  - apply Qle_bool_iff in H5. vm_compute in H5. discriminate.
  - apply Qle_bool_iff in H1. vm_compute in H1. discriminate.
  - apply Qle_bool_iff in H3. vm_compute in H3. discriminate.
  - apply Qle_bool_iff in H3. vm_compute in H3. discriminate.
Qed.

(** ** Which edges a handle moves *)




(** The clamp to the page keeps the width when it pulls a negative origin
    back to 0: dragging the west handle of a panel at (100, 100), 100 wide,
    to x = -50 leaves the panel at x = 0 with width 250, so that its east
    edge goes from 200 to 250. *)
Lemma resize_west_handle_left_of_page :
  let panel := rect "p1" 100 100 100 100 in
  let p' := resize_panel_with_handle init panel (handle "w") (-50) 150 in
  panel_invariant init panel
  /\ x p' == 0 /\ width p' == 250 /\ east panel == 200 /\ east p' == 250.
Proof.
  cbv zeta. unfold panel_invariant. q_compute.
Qed.

(** ** The object store *)

Lemma update_at_length a f objs :
  List.length (update_at a f objs) = List.length objs.
Proof.
  revert a. induction objs as [|p rest IH]; intros [|a]; cbn; auto.
Qed.

Lemma update_at_nth_other a f objs i d :
  i <> a -> nth i (update_at a f objs) d = nth i objs d.
Proof.
  revert a i. induction objs as [|p rest IH]; intros [|a] [|i] H; cbn; auto;
    congruence.
Qed.

Lemma update_at_nth_same a f objs d :
  (a < List.length objs)%nat -> nth a (update_at a f objs) d = f (nth a objs d).
Proof.
  revert a. induction objs as [|p rest IH]; intros [|a] H; cbn in *;
    try lia; auto.
  apply IH. lia.
Qed.

(** A run of stores, as [clear_selection] makes, only touches the store. *)
Lemma fold_store self g refs :
  fold_left (fun s a => store s a g) refs self
  = set_objects self
      (fold_left (fun objs a => update_at a g objs) refs (objects self)).
Proof.
  revert self. induction refs as [|a refs IH]; intros self; cbn.
  - destruct self; reflexivity.
  - rewrite IH. reflexivity.
Qed.

Lemma fold_update_length g refs objs :
  List.length (fold_left (fun objs a => update_at a g objs) refs objs)
  = List.length objs.
Proof.
  revert objs. induction refs as [|a refs IH]; intros objs; cbn; auto.
  rewrite IH. apply update_at_length.
Qed.

Lemma fold_update_nth_above g refs objs base i d :
  Forall (fun a => (a < base)%nat) refs -> (base <= i)%nat ->
  nth i (fold_left (fun objs a => update_at a g objs) refs objs) d
  = nth i objs d.
Proof.
  intros H Hi. revert objs.
  induction H as [|a refs Ha Hrefs IH]; intros objs; cbn; auto.
  rewrite IH. apply update_at_nth_other. lia.
Qed.

Lemma map_nth_seq_app (l1 l2 : list Panel) d :
  map (fun a => nth a (l1 ++ l2) d) (seq (List.length l1) (List.length l2))
  = l2.
Proof.
  revert l1. induction l2 as [|p l2 IH]; intros l1; cbn [List.length seq map].
  - reflexivity.
  - f_equal.
    + apply nth_middle.
    + specialize (IH (l1 ++ [p])).
      rewrite <- app_assoc, length_app in IH. cbn in IH.
      replace (List.length l1 + 1)%nat with (S (List.length l1)) in IH by lia.
      exact IH.
Qed.

(** ** Selection and history: what each operation touches *)

Lemma clear_selection_spec self :
  clear_selection self
  = set_selection_handles
      (set_selected_panels
         (set_objects self
            (fold_left (fun objs a => update_at a (fun p => set_selected p false) objs)
               (selected_panels self) (objects self)))
         [])
      [].
Proof.
  unfold clear_selection. rewrite fold_store. reflexivity.
Qed.

(** *** What a redraw writes *)

Lemma set_flag_twice p b c :
  set_image_content_updated_flag (set_image_content_updated_flag p b) c
  = set_image_content_updated_flag p c.
Proof. destruct p; reflexivity. Qed.

Lemma set_flag_same p :
  set_image_content_updated_flag p (_image_content_updated_flag p) = p.
Proof. destruct p; reflexivity. Qed.

(** Drawing a panel changes at most its cache flag. *)
Lemma draw_panel_flag os_path_exists self p :
  set_image_content_updated_flag (draw_panel os_path_exists self p) false
  = set_image_content_updated_flag p false.
Proof.
  unfold draw_panel, draw_rectangular_panel, draw_round_panel, page_to_screen.
  destruct (panel_type p); try reflexivity;
    repeat match goal with
           | |- context [if ?c then _ else _] => destruct c
           end; try reflexivity; apply set_flag_twice.
Qed.

(** The drawing reads the zoom and the margin of the state only. *)
Lemma draw_panel_state os_path_exists self objs p :
  draw_panel os_path_exists (set_objects self objs) p
  = draw_panel os_path_exists self p.
Proof. reflexivity. Qed.

Lemma set_objects_twice self o o' :
  set_objects (set_objects self o) o' = set_objects self o'.
Proof. reflexivity. Qed.

Lemma set_objects_same self : set_objects self (objects self) = self.
Proof. destruct self; reflexivity. Qed.

(** The panel loop of [redraw] writes to the store only, and there only
    to cache flags. *)
Lemma redraw_loop_spec os_path_exists refs : forall self,
  let s' :=
    fold_left
      (fun s panel =>
         if visible (panel_at s panel)
         then store s panel (draw_panel os_path_exists s)
         else s)
      refs self in
  s' = set_objects self (objects s')
  /\ List.length (objects s') = List.length (objects self)
  /\ forall a, set_image_content_updated_flag (panel_at s' a) false
               = set_image_content_updated_flag (panel_at self a) false.
Proof.
  induction refs as [|b refs IH]; intros self; cbv zeta; cbn [fold_left].
  - split; [symmetry; apply set_objects_same|]. split; reflexivity.
  - set (s1 := if visible (panel_at self b)
               then store self b (draw_panel os_path_exists self)
               else self).
    assert (H1 : s1 = set_objects self (objects s1)
                 /\ List.length (objects s1) = List.length (objects self)
                 /\ forall a,
                      set_image_content_updated_flag (panel_at s1 a) false
                      = set_image_content_updated_flag (panel_at self a)
                          false).
    { unfold s1. destruct (visible (panel_at self b)).
      - split; [reflexivity|]. split; [apply update_at_length|].
        intros a. unfold panel_at, store. cbn [objects set_objects].
        destruct (Nat.eq_dec a b) as [->|Hne].
        + destruct (Nat.lt_ge_cases b (List.length (objects self))) as [H|H].
          * rewrite update_at_nth_same by exact H. apply draw_panel_flag.
          * rewrite !nth_overflow; auto. rewrite update_at_length. exact H.
        + rewrite update_at_nth_other by exact Hne. reflexivity.
      - split; [symmetry; apply set_objects_same|]. split; reflexivity. }
    destruct H1 as (E1 & L1 & F1).
    destruct (IH s1) as (E & L & F). cbv zeta in E, L, F.
    split; [|split].
    + rewrite E at 1. rewrite E1 at 1. apply set_objects_twice.
    + rewrite L. exact L1.
    + intros a. rewrite F. apply F1.
Qed.

(** [redraw] leaves every field of the state alone except the cache flags
    of panels and the selection markers, which it makes anew. *)
Lemma redraw_spec os_path_exists self :
  let s' := redraw os_path_exists self in
  s' = set_selection_handles (set_objects self (objects s'))
         (selection_handles s')
  /\ List.length (objects s') = List.length (objects self)
  /\ (forall a, set_image_content_updated_flag (panel_at s' a) false
                = set_image_content_updated_flag (panel_at self a) false)
  /\ (selected_panels self = [] -> selection_handles s' = []).
Proof.
  cbv zeta. unfold redraw.
  destruct (redraw_loop_spec os_path_exists
              (sorted_refs_by_layer self (panels self)) self) as (E & L & F).
  cbv zeta in E, L, F.
  set (s1 := fold_left _ _ self) in *.
  unfold draw_selection.
  split; [|split; [exact L|split; [exact F|]]].
  - cbn [objects selection_handles set_selection_handles].
    rewrite E at 1. reflexivity.
  - intros Hsel. cbn [selection_handles set_selection_handles].
    rewrite E. cbn [selected_panels set_objects]. rewrite Hsel. reflexivity.
Qed.

Lemma post_history_spec os_path_exists self :
  let s' := _post_history_change_update os_path_exists self in
  undo_stack s' = undo_stack self
  /\ redo_stack s' = redo_stack self
  /\ panels s' = panels self
  /\ selected_panels s' = []
  /\ image_editing_panel s' = None
  /\ selection_handles s' = []
  /\ List.length (objects s') = List.length (objects self).
Proof.
  cbv zeta. unfold _post_history_change_update.
  set (s0 := match image_editing_panel self with
             | Some _ => set_image_editing_panel self None
             | None => self
             end).
  assert (H0 : undo_stack s0 = undo_stack self
               /\ redo_stack s0 = redo_stack self
               /\ panels s0 = panels self
               /\ image_editing_panel s0 = None
               /\ objects s0 = objects self).
  { unfold s0. destruct (image_editing_panel self) eqn:E;
      repeat split; try reflexivity; exact E. }
  destruct H0 as (Hu & Hr & Hp & Hi & Ho).
  destruct (redraw_spec os_path_exists (clear_selection s0))
    as (E & L & _ & Hh).
  cbv zeta in E, L, Hh.
  set (s' := redraw os_path_exists (clear_selection s0)) in *.
  rewrite clear_selection_spec in E, L, Hh.
  specialize (Hh eq_refl).
  assert (Pu : undo_stack s' = undo_stack s0) by (rewrite E; reflexivity).
  assert (Pr : redo_stack s' = redo_stack s0) by (rewrite E; reflexivity).
  assert (Pp : panels s' = panels s0) by (rewrite E; reflexivity).
  assert (Ps : selected_panels s' = []) by (rewrite E; reflexivity).
  assert (Pi : image_editing_panel s' = image_editing_panel s0)
    by (rewrite E; reflexivity).
  rewrite Pu, Pr, Pp, Ps, Pi, Hu, Hr, Hp, Hi, Hh, L.
  cbn [objects set_selection_handles set_selected_panels set_objects].
  rewrite fold_update_length, Ho.
  split; [reflexivity|]. split; [reflexivity|]. split; [reflexivity|].
  split; [reflexivity|]. split; [reflexivity|]. split; reflexivity.
Qed.

(** ** Undo and redo *)

Lemma undo_action_noop os_path_exists self :
  (List.length (undo_stack self) < 2)%nat ->
  undo_action os_path_exists self = (false, self).
Proof.
  intros H. unfold undo_action.
  destruct (1 <? List.length (undo_stack self))%nat eqn:E; [|reflexivity].
  apply Nat.ltb_lt in E. lia.
Qed.

Lemma redo_action_noop os_path_exists self :
  redo_stack self = [] -> redo_action os_path_exists self = (false, self).
Proof. intros H. unfold redo_action. rewrite H. reflexivity. Qed.

Lemma undo_action_step os_path_exists self :
  (1 < List.length (undo_stack self))%nat ->
  undo_action os_path_exists self
  = (true,
     _post_history_change_update os_path_exists
       (rebind_panels
          (set_redo_stack
             (set_undo_stack self (removelast (undo_stack self)))
             (redo_stack self ++ [last (undo_stack self) []]))
          (last (removelast (undo_stack self)) []))).
Proof.
  intros H. unfold undo_action.
  apply Nat.ltb_lt in H. rewrite H. reflexivity.
Qed.

Lemma hd_error_removelast {A} (l : list A) :
  (1 < List.length l)%nat -> hd_error (removelast l) = hd_error l.
Proof.
  destruct l as [|a [|b l]]; cbn; intros H; try lia. reflexivity.
Qed.

Lemma removelast_nonempty {A} (l : list A) :
  (1 < List.length l)%nat -> removelast l <> [].
Proof.
  destruct l as [|a [|b l]]; cbn; intros H; try lia. discriminate.
Qed.

(** C10. [undo_action] returns [False] and changes nothing when the undo
    stack holds fewer than two entries, [redo_action] returns [False] and
    changes nothing when the redo stack is empty, and an undo never removes
    the oldest entry of the undo stack. Neither function can raise. *)
Theorem undo_redo_boundaries os_path_exists self :
  ((List.length (undo_stack self) < 2)%nat ->
   undo_action os_path_exists self = (false, self))
  /\ (redo_stack self = [] -> redo_action os_path_exists self = (false, self))
  /\ (undo_stack self <> [] ->
      hd_error (undo_stack (undo os_path_exists self))
      = hd_error (undo_stack self)).
Proof.
  split; [apply undo_action_noop | split; [apply redo_action_noop|]].
  intros Hne. unfold undo.
  destruct (Nat.lt_ge_cases 1 (List.length (undo_stack self))) as [H|H].
  - rewrite (undo_action_step _ _ H). cbn [snd].
    match goal with
    | |- context [_post_history_change_update _ ?s] =>
        destruct (post_history_spec os_path_exists s) as (Hu & _)
    end.
    rewrite Hu. cbn. apply hd_error_removelast. exact H.
  - rewrite undo_action_noop by lia. reflexivity.
Qed.

Lemma undo_redo_boundaries_witness :
  undo_action (fun _ => true) init = (false, init)
  /\ redo_action (fun _ => true) init = (false, init)
  /\ hd_error (undo_stack (undo (fun _ => true) init))
     = hd_error (undo_stack init).
Proof.
  destruct (undo_redo_boundaries (fun _ => true) init) as (Hu & Hr & Hf).
  split; [|split].
  - apply Hu. vm_compute. lia.
  - apply Hr. reflexivity.
  - apply Hf. vm_compute. discriminate.
Defined.

Lemma selection_allocated_nil self :
  selected_panels self = [] -> selection_allocated self.
Proof. intros H. unfold selection_allocated. rewrite H. constructor. Qed.

Lemma last_tl {A} (l : list A) d :
  (1 < List.length l)%nat -> last (tl l) d = last l d.
Proof.
  destruct l as [|a [|b l]]; cbn; intros H; try lia. reflexivity.
Qed.

Lemma trim_history_last stack d :
  stack <> [] -> last (trim_history stack) d = last stack d
                 /\ trim_history stack <> [].
Proof.
  intros H. unfold trim_history.
  destruct (MAX_HISTORY_SIZE <? List.length stack)%nat eqn:E; [|tauto].
  apply Nat.ltb_lt in E. unfold MAX_HISTORY_SIZE in E. split.
  - apply last_tl. lia.
  - destruct stack as [|a [|b l]]; cbn in *; try lia. discriminate.
Qed.

Lemma save_history_state_committed self :
  selection_allocated self ->
  committed (save_history_state self)
  /\ redo_stack (save_history_state self) = []
  /\ panel_list (save_history_state self) = panel_list self.
Proof.
  intros Hsel. unfold save_history_state, committed.
  cbn [undo_stack redo_stack set_undo_stack set_redo_stack].
  destruct (trim_history_last (undo_stack self ++ [panel_list self]) [])
    as (Hl & Hn); [destruct (undo_stack self); discriminate|].
  repeat match goal with
         | |- context [panel_list ?s] =>
             progress change (panel_list s) with (panel_list self)
         end.
  repeat split; auto.
  rewrite Hl. rewrite last_last. reflexivity.
Qed.

(** C2 (the code falls short of it). The release of a create gesture with
    the speech-bubble tool sets the default text of the new bubble after
    [create_panel] has committed, so the snapshot on top of the undo stack
    lacks the text: the list before the undo holds a bubble with the text,
    and an undo followed by a redo brings the bubble back without it,
    whatever files exist. *)
Theorem speech_bubble_text_is_set_after_commit os_path_exists :
  exists s',
    on_mouse_up "b1" bubble_gesture (pointer_at 220 170) = Ok s'
    /\ map content_text (panel_list s') = ["Текст"%string]
    /\ map content_text (last (undo_stack s') []) = [""%string]
    /\ map content_text
         (panel_list (redo os_path_exists (undo os_path_exists s')))
       = [""%string]
    /\ panel_list (redo os_path_exists (undo os_path_exists s'))
       <> panel_list s'.
Proof.
  eexists. split; [vm_compute; reflexivity|].
  split; [vm_compute; reflexivity|].
  split; [vm_compute; reflexivity|].
  split; [vm_compute; reflexivity|].
  vm_compute. discriminate.
Qed.

(** ** Page and screen coordinates *)

Lemma py_div_ok a b : ~ b == 0 -> py_div a b = Ok (a / b).
Proof.
  intros H. unfold py_div.
  destruct (Qeq_bool b 0) eqn:E; [|reflexivity].
  apply Qeq_bool_iff in E. contradiction.
Qed.

Lemma screen_to_page_ok self sx sy :
  ~ zoom self == 0 ->
  screen_to_page self sx sy
  = Ok ((canvasx self sx - inject_Z (margin self)) / zoom self,
        (canvasy self sy - inject_Z (margin self)) / zoom self).
Proof.
  intros H. unfold screen_to_page. rewrite !py_div_ok by exact H. reflexivity.
Qed.

(** Tk reads a distance in whole pixels: the nearest one. *)
Lemma Tk_GetPixels_near d :
  - (1 # 2) <= inject_Z (Tk_GetPixels d) - d <= 1 # 2.
Proof.
  unfold Tk_GetPixels, Py.int.
  destruct (Py.ltb d 0) eqn:E.
  - apply Py_ltb_lt in E.
    replace (Py.ltb (d - (1 # 2)) 0) with true
      by (symmetry; apply Py_ltb_lt; lra).
    pose proof (Qle_ceiling (d - (1 # 2))) as H1.
    pose proof (Qceiling_lt (d - (1 # 2))) as H2.
    unfold Z.sub in H2. rewrite inject_Z_plus in H2.
    change (inject_Z (- (1))) with (- (1)) in H2. split; lra.
  - apply Py_ltb_ge in E.
    replace (Py.ltb (d + (1 # 2)) 0) with false
      by (symmetry; apply Py_ltb_ge; lra).
    pose proof (Qfloor_le (d + (1 # 2))) as H1.
    pose proof (Qlt_floor (d + (1 # 2))) as H2.
    rewrite inject_Z_plus in H2. change (inject_Z 1) with 1 in H2.
    split; lra.
Qed.

(** A whole number of pixels is read as it is; this is the case of the
    coordinates of an event. *)
Lemma Tk_GetPixels_whole d k : d == inject_Z k -> Tk_GetPixels d = k.
Proof.
  intros E. destruct (Tk_GetPixels_near d) as (H1 & H2).
  assert (Hlo : inject_Z (k - 1) < inject_Z (Tk_GetPixels d)).
  { unfold Z.sub. rewrite inject_Z_plus.
    change (inject_Z (- (1))) with (- (1)). lra. }
  assert (Hhi : inject_Z (Tk_GetPixels d) < inject_Z (k + 1)).
  { rewrite inject_Z_plus. change (inject_Z 1) with 1. lra. }
  rewrite <- Zlt_Qlt in Hlo, Hhi. lia.
Qed.

(** C9 (as amended). For a zoom in [0.01, 10], sending page coordinates to
    the screen and back succeeds and yields the page coordinates of the
    whole pixel nearest to the screen point, shifted by the view origin of
    the canvas: on the screen scale each coordinate that comes back is
    within half a pixel of the coordinate given plus the view origin. The
    coordinate comes back shifted by the view origin over the zoom and no
    more when the screen coordinate is a whole number, and so comes back
    as it was when, besides, the view is at the canvas origin; this holds
    for every margin. *)
Theorem round_trip_up_to_view_origin self px py :
  1 # 100 <= zoom self -> zoom self <= 10 ->
  exists qx qy,
    round_trip self px py = Ok (qx, qy)
    /\ - (1 # 2) <= (qx - px) * zoom self - canvas_xorigin self <= 1 # 2
    /\ - (1 # 2) <= (qy - py) * zoom self - canvas_yorigin self <= 1 # 2
    /\ (forall k, px * zoom self + inject_Z (margin self) == inject_Z k ->
        qx == px + canvas_xorigin self / zoom self
        /\ (canvas_xorigin self == 0 -> qx == px))
    /\ (forall k, py * zoom self + inject_Z (margin self) == inject_Z k ->
        qy == py + canvas_yorigin self / zoom self
        /\ (canvas_yorigin self == 0 -> qy == py)).
Proof.
  intros Hlo Hhi.
  assert (Hz : ~ zoom self == 0) by (intro E; rewrite E in Hlo; lra).
  unfold round_trip, page_to_screen.
  rewrite screen_to_page_ok by exact Hz.
  eexists. eexists. split; [reflexivity|].
  unfold canvasx, canvasy.
  set (sx := px * zoom self + inject_Z (margin self)).
  set (sy := py * zoom self + inject_Z (margin self)).
  pose proof (Tk_GetPixels_near sx) as Hx.
  pose proof (Tk_GetPixels_near sy) as Hy.
  assert (Ex : ((inject_Z (Tk_GetPixels sx) + canvas_xorigin self
                 - inject_Z (margin self)) / zoom self - px) * zoom self
               - canvas_xorigin self
               == inject_Z (Tk_GetPixels sx) - sx)
    by (unfold sx; field; exact Hz).
  assert (Ey : ((inject_Z (Tk_GetPixels sy) + canvas_yorigin self
                 - inject_Z (margin self)) / zoom self - py) * zoom self
               - canvas_yorigin self
               == inject_Z (Tk_GetPixels sy) - sy)
    by (unfold sy; field; exact Hz).
  split; [rewrite Ex; exact Hx|]. split; [rewrite Ey; exact Hy|].
  split.
  - intros k Hk. rewrite (Tk_GetPixels_whole sx k Hk).
    assert (E : (inject_Z k + canvas_xorigin self - inject_Z (margin self))
                / zoom self
                == px + canvas_xorigin self / zoom self).
    { rewrite <- Hk. unfold sx. field. exact Hz. }
    split; [exact E|]. intros H0. rewrite E, H0. field. exact Hz.
  - intros k Hk. rewrite (Tk_GetPixels_whole sy k Hk).
    assert (E : (inject_Z k + canvas_yorigin self - inject_Z (margin self))
                / zoom self
                == py + canvas_yorigin self / zoom self).
    { rewrite <- Hk. unfold sy. field. exact Hz. }
    split; [exact E|]. intros H0. rewrite E, H0. field. exact Hz.
Qed.

Lemma round_trip_up_to_view_origin_witness :
  exists qx qy,
    round_trip init 100 200 = Ok (qx, qy)
    /\ - (1 # 2) <= (qx - 100) * zoom init - canvas_xorigin init <= 1 # 2
    /\ - (1 # 2) <= (qy - 200) * zoom init - canvas_yorigin init <= 1 # 2
    /\ (forall k, 100 * zoom init + inject_Z (margin init) == inject_Z k ->
        qx == 100 + canvas_xorigin init / zoom init
        /\ (canvas_xorigin init == 0 -> qx == 100))
    /\ (forall k, 200 * zoom init + inject_Z (margin init) == inject_Z k ->
        qy == 200 + canvas_yorigin init / zoom init
        /\ (canvas_yorigin init == 0 -> qy == 200)).
Proof.
  apply (round_trip_up_to_view_origin init 100 200); q_compute.
Defined.

(** C9, as the specification states it, fails in two ways.
    [screen_to_page] reads its argument through [canvasx]/[canvasy], which
    take a window coordinate in whole pixels: on a fresh page (zoom 1,
    margin 20, view at the canvas origin) the page point (0.5, 0.5) goes
    to the screen point (20.5, 20.5) and comes back as (1, 1). And they
    add the view origin, while [page_to_screen] yields canvas coordinates:
    with the view 10 pixels off the canvas origin the page point (0, 0)
    comes back as (10, 10). *)
Lemma round_trip_counterexample :
  (1 # 100 <= zoom init /\ zoom init <= 10
   /\ exists qx qy,
        round_trip init (1 # 2) (1 # 2) = Ok (qx, qy)
        /\ qx - (1 # 2) == 1 # 2 /\ qy - (1 # 2) == 1 # 2)
  /\ (1 # 100 <= zoom scrolled_page /\ zoom scrolled_page <= 10
      /\ exists qx qy,
           round_trip scrolled_page 0 0 = Ok (qx, qy)
           /\ qx - 0 == 10 /\ qy - 0 == 10).
Proof.
  split.
  - split; [q_compute|split; [q_compute|]].
    eexists. eexists. split; [vm_compute; reflexivity|]. q_compute.
  - split; [q_compute|split; [q_compute|]].
    eexists. eexists. split; [vm_compute; reflexivity|]. q_compute.
Qed.

(** ** Releasing a create gesture *)

Lemma small_rectangle_test w h :
  w < 10 \/ h < 10 -> Py.leb 10 w && Py.leb 10 h = false.
Proof.
  intros H. apply andb_false_iff.
  destruct H as [H|H]; [left|right]; apply Py_leb_gt; exact H.
Qed.

(** C3 (as amended). When a create gesture is released and the snapped,
    ordered rectangle is less than 10 page units wide or high, the release
    adds no panel and commits nothing: the panel list, its objects, the
    selection and both history stacks are unchanged. *)
Theorem small_create_rectangle_is_discarded
  uuid self event cur_x cur_y start_px start_py x1 y1 w h :
  dragging self = true ->
  drag_mode self = Some "create"%string ->
  screen_to_page self (inject_Z (ev_x event)) (inject_Z (ev_y event))
  = Ok (cur_x, cur_y) ->
  screen_to_page self (inject_Z (drag_start_x self))
                      (inject_Z (drag_start_y self))
  = Ok (start_px, start_py) ->
  create_rectangle self start_px start_py cur_x cur_y = (x1, y1, w, h) ->
  w < 10 \/ h < 10 ->
  exists s',
    on_mouse_up uuid self event = Ok s'
    /\ panel_list s' = panel_list self
    /\ panels s' = panels self
    /\ objects s' = objects self
    /\ selected_panels s' = selected_panels self
    /\ undo_stack s' = undo_stack self
    /\ redo_stack s' = redo_stack self.
Proof.
  intros Hd Hm Hcur Hstart Hrect Hsmall.
  unfold on_mouse_up, drag_mode_is.
  rewrite Hd, Hm, Hcur, Hstart. cbn [negb bind String.eqb Ascii.eqb Bool.eqb].
  cbn -[create_rectangle release_cleanup create_panel Py.leb].
  rewrite Hrect, (small_rectangle_test _ _ Hsmall).
  eexists. split; [reflexivity|].
  unfold release_cleanup, panel_list, panel_at.
  destruct (image_editing_panel self) eqn:E; cbn; rewrite ?E; cbn;
    repeat split; reflexivity.
Qed.

Lemma small_create_rectangle_is_discarded_witness :
  exists s',
    on_mouse_up "p1" create_gesture (pointer_at 29 200) = Ok s'
    /\ panel_list s' = panel_list create_gesture
    /\ panels s' = panels create_gesture
    /\ objects s' = objects create_gesture
    /\ selected_panels s' = selected_panels create_gesture
    /\ undo_stack s' = undo_stack create_gesture
    /\ redo_stack s' = redo_stack create_gesture.
Proof.
  apply (small_create_rectangle_is_discarded "p1" create_gesture
           (pointer_at 29 200) (9 / 1) (180 / 1) (0 / 1) (0 / 1)
           (0 / 1) (0 / 1) (9 / 1 - 0 / 1) (180 / 1 - 0 / 1)).
  - reflexivity.
  - reflexivity.
  - vm_compute. reflexivity.
  - vm_compute. reflexivity.
  - vm_compute. reflexivity.
  - left. q_compute.
Defined.

(** C3, as the specification states it (minimum size 20), fails: the
    release keeps every rectangle of at least 10 x 10. A 15 x 15 rectangle
    becomes a panel and a history entry. *)
Lemma small_create_rectangle_counterexample :
  exists s' start_px start_py cur_x cur_y x1 y1 w h,
    dragging create_gesture = true
    /\ drag_mode create_gesture = Some "create"%string
    /\ screen_to_page create_gesture
         (inject_Z (drag_start_x create_gesture))
         (inject_Z (drag_start_y create_gesture)) = Ok (start_px, start_py)
    /\ screen_to_page create_gesture (inject_Z 35) (inject_Z 35)
       = Ok (cur_x, cur_y)
    /\ create_rectangle create_gesture start_px start_py cur_x cur_y
       = (x1, y1, w, h)
    /\ w == 15 /\ h == 15
    /\ on_mouse_up "p1" create_gesture (pointer_at 35 35) = Ok s'
    /\ List.length (panel_list create_gesture) = 0%nat
    /\ List.length (panel_list s') = 1%nat
    /\ List.length (undo_stack create_gesture) = 1%nat
    /\ List.length (undo_stack s') = 2%nat.
Proof.
  do 9 eexists.
  split; [reflexivity|]. split; [reflexivity|].
  split; [vm_compute; reflexivity|].
  split; [vm_compute; reflexivity|].
  split; [vm_compute; reflexivity|].
  split; [q_compute|]. split; [q_compute|].
  split; [vm_compute; reflexivity|].
  repeat split; vm_compute; reflexivity.
Qed.

(** ** Zooming the content with the wheel *)

Lemma clamp_inside v :
  1 # 10 < v -> v < 10 -> Py.max (1 # 10) (Py.min 10 v) = v.
Proof.
  intros H1 H2. unfold Py.max, Py.min.
  py_cases; try reflexivity; lra.
Qed.

Lemma notch_factor_positive d : 0 < notch_factor d.
Proof. destruct d; q_compute. Qed.

Lemma notch_changes_scale d old :
  1 # 10 < old * notch_factor d ->
  Py.ltb (Py.abs (old * notch_factor d - old)) (1 # 1000) = false.
Proof.
  intros H. apply Py_ltb_ge. unfold Py.abs.
  destruct d; unfold notch_factor in *.
  - py_cases; lra.
  - assert (E : old * (1 / (11 # 10)) == old * (10 # 11)) by field.
    revert H E. generalize (old * (1 / (11 # 10))). intros v H E.
    py_cases; lra.
Qed.

Lemma image_transform_fields p ox oy sc :
  let p' := mark_visuals_for_update (set_image_transform p ox oy sc) in
  image_offset_x p' = ox /\ image_offset_y p' = oy /\ image_scale p' = sc
  /\ x p' = x p /\ y p' = y p.
Proof. destruct p; cbn. repeat split; reflexivity. Qed.

(** C8 (as amended). In a content-pan session (the session panel has an
    image), a wheel notch without Ctrl whose new scale lies strictly inside
    the clamp range (0.1, 10) multiplies [image_scale] by 1.1 (up) or 1/1.1
    (down) and sets each offset to
    [cursor - (cursor - old_offset) * (new_scale / old_scale)], where
    [cursor] is the pointer position relative to the panel; the content
    point under the cursor is the same before and after. *)
Theorem wheel_notch_zooms_about_cursor self event a direction mx my :
  image_editing_panel self = Some a ->
  (a < List.length (objects self))%nat ->
  truthy (content_image (panel_at self a)) = true ->
  zoom_direction event = Some direction ->
  ctrl_pressed event = false ->
  screen_to_page self (inject_Z (ev_x event)) (inject_Z (ev_y event))
  = Ok (mx, my) ->
  let panel := panel_at self a in
  1 # 10 < image_scale panel * notch_factor direction ->
  image_scale panel * notch_factor direction < 10 ->
  exists s',
    on_mouse_wheel self event = Ok (s', None)
    /\ let panel' := panel_at s' a in
       let cursor_x := mx - x panel in
       let cursor_y := my - y panel in
       image_scale panel' == image_scale panel * notch_factor direction
       /\ image_offset_x panel'
          == cursor_x - (cursor_x - image_offset_x panel)
                        * (image_scale panel' / image_scale panel)
       /\ image_offset_y panel'
          == cursor_y - (cursor_y - image_offset_y panel)
                        * (image_scale panel' / image_scale panel)
       /\ (cursor_x - image_offset_x panel') / image_scale panel'
          == (cursor_x - image_offset_x panel) / image_scale panel
       /\ (cursor_y - image_offset_y panel') / image_scale panel'
          == (cursor_y - image_offset_y panel) / image_scale panel.
Proof.
  intros He Ha Himg Hdir Hctrl Hpos panel Hlo Hhi.
  assert (Hf := notch_factor_positive direction).
  assert (Hold : ~ image_scale panel == 0).
  { intro E. rewrite E in Hlo. lra. }
  assert (Hfne : ~ notch_factor direction == 0) by lra.
  unfold on_mouse_wheel. rewrite Hdir, He, Himg, Hctrl.
  fold panel.
  replace (match direction with
           | zoom_in_dir => 11 # 10
           | zoom_out_dir => 1 / (11 # 10)
           end) with (notch_factor direction) by (destruct direction; reflexivity).
  cbv zeta.
  rewrite (clamp_inside _ Hlo Hhi).
  rewrite (notch_changes_scale _ _ Hlo).
  rewrite Hpos. cbn [bind].
  rewrite (py_div_ok _ _ Hold). cbn [bind].
  eexists. split; [reflexivity|].
  match goal with
  | |- context [panel_at (store self a ?f) a] =>
      assert (Hp' : panel_at (store self a f) a = f panel)
        by (unfold panel, panel_at, store; cbn [objects set_objects];
            apply update_at_nth_same; exact Ha)
  end.
  cbv zeta. rewrite Hp'. cbv beta.
  match goal with
  | |- context [mark_visuals_for_update (set_image_transform panel ?ox ?oy ?sc)] =>
      destruct (image_transform_fields panel ox oy sc) as (Ex & Ey & Es & _)
  end.
  cbv zeta in Ex, Ey, Es. rewrite Ex, Ey, Es.
  repeat split; try reflexivity; field; auto.
Qed.

Lemma wheel_notch_zooms_about_cursor_witness :
  exists s',
    on_mouse_wheel pan_session (wheel_up 220 320) = Ok (s', None)
    /\ image_scale (panel_at s' 0%nat) == 11 # 10
    /\ image_offset_x (panel_at s' 0%nat) == - (9 # 2)
    /\ image_offset_y (panel_at s' 0%nat) == - (123 # 10).
Proof.
  destruct (wheel_notch_zooms_about_cursor pan_session (wheel_up 220 320)
              0%nat zoom_in_dir 200 300)
    as (s' & Hs & Hscale & Hx & Hy & _).
  - reflexivity.
  - vm_compute. lia.
  - reflexivity.
  - reflexivity.
  - reflexivity.
  - vm_compute. reflexivity.
  - q_compute.
  - q_compute.
  - exists s'. split; [exact Hs|].
    cbv zeta in Hscale, Hx, Hy.
    split; [|split].
    + rewrite Hscale. q_compute.
    + rewrite Hx, Hscale. q_compute.
    + rewrite Hy, Hscale. q_compute.
Defined.

(** C8, as the specification states it, fails for a notch with Ctrl held:
    the handler passes it to the canvas zoom of the application and leaves
    the panel alone, although the session is open and the new scale (1.1)
    would lie inside the clamp range. *)
Lemma wheel_notch_counterexample :
  image_editing_panel pan_session = Some 0%nat
  /\ truthy (content_image (panel_at pan_session 0%nat)) = true
  /\ zoom_direction (ctrl_wheel_up 220 320) = Some zoom_in_dir
  /\ 1 # 10 < image_scale (panel_at pan_session 0%nat) * notch_factor zoom_in_dir
  /\ image_scale (panel_at pan_session 0%nat) * notch_factor zoom_in_dir < 10
  /\ on_mouse_wheel pan_session (ctrl_wheel_up 220 320)
     = Ok (pan_session, Some app_zoom_in)
  /\ ~ image_scale (panel_at pan_session 0%nat)
       == image_scale (panel_at pan_session 0%nat) * notch_factor zoom_in_dir.
Proof.
  repeat split; try reflexivity; q_compute.
Qed.

(** ** The export rasteriser *)

Section RasteriserFacts.

Variables math_cos math_sin : Q -> Q.
Variable math_hypot : Q -> Q -> Q.

Lemma math_is_unbound : load_global "math" = Raise (NameError "math").
Proof. reflexivity. Qed.

(** A visible speech bubble stops the panel loop: [math] is looked up
    before anything is drawn for it. *)
Lemma render_visible_bubble settings w h pc image panel :
  panel_type panel = SPEECH_BUBBLE ->
  render_visible_panel math_cos math_sin math_hypot settings w h pc image panel
  = Raise (NameError "math").
Proof.
  intros H. unfold render_visible_panel. rewrite H. reflexivity.
Qed.

Lemma render_panel_to_image_size image panel bounds sf sx sy ox oy :
  panel_type panel <> SPEECH_BUBBLE ->
  exists image',
    render_panel_to_image math_cos math_sin math_hypot image panel bounds
      sf sx sy ox oy = Ok image'
    /\ img_width image' = img_width image
    /\ img_height image' = img_height image.
Proof.
  intros H. unfold render_panel_to_image.
  destruct bounds as [[[x1 y1] x2] y2].
  destruct ((x2 - x1 <=? 0)%Z || (y2 - y1 <=? 0)%Z).
  - exists image. auto.
  - destruct (panel_type panel); try congruence; cbn; eexists; eauto.
Qed.

Lemma render_visible_other settings w h pc image panel :
  panel_type panel <> SPEECH_BUBBLE ->
  exists image',
    render_visible_panel math_cos math_sin math_hypot settings w h pc image panel = Ok image'
    /\ img_width image' = img_width image
    /\ img_height image' = img_height image.
Proof.
  intros H. unfold render_visible_panel.
  replace (PanelType_eqb (panel_type panel) SPEECH_BUBBLE) with false
    by (destruct (panel_type panel); try reflexivity; congruence).
  cbn [bind].
  match goal with
  | |- context [if ?c then Ok image else _] => destruct c
  end.
  - exists image. auto.
  - apply render_panel_to_image_size. exact H.
Qed.

(** A visible panel that is not a speech bubble and whose pixel box is
    empty is passed over. *)
Lemma render_visible_empty_box settings w h pc image panel :
  panel_type panel <> SPEECH_BUBBLE ->
  (fst (panel_export_size w h pc panel) <= 0
   \/ snd (panel_export_size w h pc panel) <= 0)%Z ->
  render_visible_panel math_cos math_sin math_hypot settings w h pc image panel = Ok image.
Proof.
  intros H Hbox. unfold render_visible_panel.
  replace (PanelType_eqb (panel_type panel) SPEECH_BUBBLE) with false
    by (destruct (panel_type panel); try reflexivity; congruence).
  cbn [bind]. unfold panel_export_size in Hbox. cbn [fst snd] in Hbox.
  match goal with
  | |- (if ?c then _ else _) = _ =>
      replace c with true; [reflexivity|]
  end.
  symmetry. apply orb_true_iff.
  destruct Hbox as [Hb|Hb]; [left|right]; apply Z.leb_le; exact Hb.
Qed.

Lemma visible_speech_bubble_false p :
  visible_speech_bubble p = false ->
  visible p = false \/ panel_type p <> SPEECH_BUBBLE.
Proof.
  unfold visible_speech_bubble. intros H.
  apply andb_false_iff in H. destruct H as [H|H]; [left; exact H|right].
  intro E. rewrite E in H. discriminate.
Qed.

Lemma render_panels_bubble settings w h pc : forall l image,
  existsb visible_speech_bubble l = true ->
  render_panels math_cos math_sin math_hypot settings w h pc image l = Raise (NameError "math").
Proof.
  induction l as [|p l IH]; intros image H; cbn in H; [discriminate|].
  cbn [render_panels].
  destruct (visible_speech_bubble p) eqn:E.
  - unfold visible_speech_bubble in E. apply andb_true_iff in E.
    destruct E as [Ev Et]. rewrite Ev. cbn [negb].
    rewrite render_visible_bubble; [reflexivity|].
    destruct (panel_type p); try discriminate. reflexivity.
  - cbn in H. destruct (visible p) eqn:Ev; cbn [negb].
    + destruct (visible_speech_bubble_false p E) as [Hv|Ht]; [congruence|].
      destruct (render_visible_other settings w h pc image p Ht)
        as (image' & Hr & _).
      rewrite Hr. cbn [bind]. apply IH. exact H.
    + apply IH. exact H.
Qed.

Lemma render_panels_no_bubble settings w h pc : forall l image,
  existsb visible_speech_bubble l = false ->
  exists image',
    render_panels math_cos math_sin math_hypot settings w h pc image l = Ok image'
    /\ img_width image' = img_width image
    /\ img_height image' = img_height image.
Proof.
  induction l as [|p l IH]; intros image H.
  - exists image. auto.
  - cbn in H. apply orb_false_iff in H. destruct H as [Hp Hl].
    cbn [render_panels].
    destruct (visible p) eqn:Ev; cbn [negb].
    + destruct (visible_speech_bubble_false p Hp) as [Hv|Ht]; [congruence|].
      destruct (render_visible_other settings w h pc image p Ht)
        as (image1 & Hr & Hw1 & Hh1).
      rewrite Hr. cbn [bind].
      destruct (IH image1 Hl) as (image' & Hr' & Hw' & Hh').
      exists image'. rewrite Hr', Hw', Hh', Hw1, Hh1. auto.
    + apply IH. exact Hl.
Qed.

Lemma existsb_insert_by_layer f p l :
  existsb f (insert_by_layer p l) = f p || existsb f l.
Proof.
  induction l as [|q l IH]; cbn; [reflexivity|].
  destruct (layer p <=? layer q)%Z; cbn; [reflexivity|].
  rewrite IH. destruct (f p), (f q); reflexivity.
Qed.

Lemma existsb_sorted_by_layer f l :
  existsb f (sorted_by_layer l) = existsb f l.
Proof.
  unfold sorted_by_layer.
  induction l as [|p l IH]; cbn [fold_right existsb]; [reflexivity|].
  rewrite existsb_insert_by_layer, IH. reflexivity.
Qed.

End RasteriserFacts.

Lemma Py_int_of_int q v : q == inject_Z v -> Py.int q = v.
Proof.
  intros E. unfold Py.int.
  destruct (Py.ltb q 0).
  - rewrite E. apply Qceiling_Z.
  - rewrite E. apply Qfloor_Z.
Qed.

Lemma Py_int_nonneg q : 0 <= q -> (0 <= Py.int q)%Z.
Proof.
  intros H. unfold Py.int.
  destruct (Py.ltb q 0) eqn:E.
  - apply Py_ltb_lt in E. lra.
  - change 0%Z with (Qfloor 0). apply Qfloor_resp_le. exact H.
Qed.

Lemma to_px_at_reference_dpi v :
  Py.int (inject_Z v * (inject_Z 300 / REFERENCE_DPI_FOR_PAGE_SIZES)) = v.
Proof.
  apply Py_int_of_int. unfold REFERENCE_DPI_FOR_PAGE_SIZES.
  change (inject_Z 300) with 300. field.
Qed.

Lemma bleed_offset_nonneg settings :
  include_bleed settings = false
  \/ (0 <= bleed_size settings /\ (0 <= dpi settings)%Z) ->
  (0 <= bleed_offset_px settings)%Z.
Proof.
  intros H. unfold bleed_offset_px.
  destruct (include_bleed settings); [|lia].
  destruct H as [H|[Hb Hd]]; [discriminate|].
  apply Py_int_nonneg. unfold mm_to_pixels.
  apply Qmult_le_0_compat.
  - apply Qle_shift_div_l; [reflexivity|]. lra.
  - change 0 with (inject_Z 0). rewrite <- Zle_Qle. exact Hd.
Qed.

Lemma Image_new_ok mode w h :
  (0 <= w)%Z -> (0 <= h)%Z -> Image_new mode w h = Ok (mkImage mode w h []).
Proof.
  intros Hw Hh. unfold Image_new.
  replace (w <? 0)%Z with false by (symmetry; apply Z.ltb_ge; exact Hw).
  replace (h <? 0)%Z with false by (symmetry; apply Z.ltb_ge; exact Hh).
  reflexivity.
Qed.

Lemma Image_new_size mode w h image :
  Image_new mode w h = Ok image -> img_width image = w /\ img_height image = h.
Proof.
  unfold Image_new. destruct ((w <? 0)%Z || (h <? 0)%Z); [discriminate|].
  intros E. injection E as <-. auto.
Qed.

Lemma draw_on_size image op :
  img_width (draw_on image op) = img_width image
  /\ img_height (draw_on image op) = img_height image.
Proof. split; reflexivity. Qed.

Section RasteriserClaims.

Variables math_cos math_sin : Q -> Q.
Variable math_hypot : Q -> Q -> Q.

(** The marks drawn after the panels. *)
Lemma marks_size settings image :
  let image1 := if include_crop_marks settings
                then draw_on image CropMarks else image in
  let image2 := if include_registration_marks settings
                then draw_on image1 RegistrationMarks else image1 in
  img_width image2 = img_width image /\ img_height image2 = img_height image.
Proof.
  cbv zeta.
  destruct (include_crop_marks settings),
    (include_registration_marks settings); split; reflexivity.
Qed.

(** Every image [render_page_body] returns has the size of the whole
    canvas, and no image is returned for an empty page size. *)
Lemma render_page_body_image settings pc w h image :
  export_page_size settings pc = Ok (w, h) ->
  render_page_body math_cos math_sin math_hypot settings pc = Ok (Some image) ->
  (0 < w)%Z /\ (0 < h)%Z
  /\ (img_width image, img_height image) = total_canvas_size settings w h.
Proof.
  intros Hsize. unfold render_page_body. rewrite Hsize. cbn [bind].
  destruct ((w <=? 0)%Z || (h <=? 0)%Z) eqn:Eg; [discriminate|].
  apply orb_false_iff in Eg. destruct Eg as [Ew Eh].
  apply Z.leb_gt in Ew, Eh.
  destruct (total_canvas_size settings w h) as [tw th].
  match goal with
  | |- bind ?c _ = _ -> _ =>
      assert (Hnew : forall im, c = Ok im ->
                                img_width im = tw /\ img_height im = th)
        by (intros im; destruct (transparent_background settings && is_PNG (format settings));
            apply Image_new_size);
      destruct c as [im|e]; [|discriminate]
  end.
  destruct (Hnew im eq_refl) as [Hw Hh]. cbn [bind].
  destruct ((page_width pc =? 0)%Z || (page_height pc =? 0)%Z).
  - intros E. injection E as <-. rewrite Hw, Hh. auto.
  - destruct (existsb visible_speech_bubble (sorted_by_layer (panel_list pc)))
      eqn:Eb.
    + rewrite (render_panels_bubble _ _ _ _ _ _ _ _ _ Eb). discriminate.
    + destruct (render_panels_no_bubble math_cos math_sin math_hypot
                  settings w h pc _ im Eb) as (im' & Hr & Hw' & Hh').
      rewrite Hr. cbn [bind]. intros E. injection E as <-.
      destruct (marks_size settings im') as [Mw Mh]. cbv zeta in Mw, Mh.
      rewrite Mw, Mh, Hw', Hh', Hw, Hh. auto.
Qed.

(** C5 (as amended). A page pixel size that is zero or negative in either
    dimension aborts the export: [render_page_to_image] returns [None] and
    [export_current_page] reports [False]. An image that is returned is
    never empty when bleed is off or neither the bleed size nor the DPI is
    negative. A visible panel (not a speech bubble) whose pixel box is zero
    or negative in either dimension is passed over and the loop goes on
    with the remaining panels. *)
Theorem export_zero_dimensions save_image settings pc w h :
  export_page_size settings pc = Ok (w, h) ->
  ((w <= 0 \/ h <= 0)%Z ->
   render_page_to_image math_cos math_sin math_hypot settings pc = None
   /\ export_current_page math_cos math_sin math_hypot save_image settings pc
      = false)
  /\ (forall image,
         render_page_to_image math_cos math_sin math_hypot settings pc
         = Some image ->
         include_bleed settings = false
         \/ (0 <= bleed_size settings /\ (0 <= dpi settings)%Z) ->
         (0 < img_width image)%Z /\ (0 < img_height image)%Z)
  /\ (forall image panel rest,
         visible panel = true ->
         panel_type panel <> SPEECH_BUBBLE ->
         (fst (panel_export_size w h pc panel) <= 0
          \/ snd (panel_export_size w h pc panel) <= 0)%Z ->
         render_panels math_cos math_sin math_hypot settings w h pc image
           (panel :: rest)
         = render_panels math_cos math_sin math_hypot settings w h pc image
             rest).
Proof.
  intros Hsize. split; [|split].
  - intros Hz.
    assert (Hn : render_page_to_image math_cos math_sin math_hypot settings pc
                 = None).
    { unfold render_page_to_image, render_page_body.
      rewrite Hsize. cbn [bind].
      replace ((w <=? 0)%Z || (h <=? 0)%Z) with true; [reflexivity|].
      symmetry. apply orb_true_iff.
      destruct Hz as [Hz|Hz]; [left|right]; apply Z.leb_le; exact Hz. }
    split; [exact Hn|]. unfold export_current_page. rewrite Hn. reflexivity.
  - intros image Hr Hbleed. unfold render_page_to_image in Hr.
    destruct (render_page_body math_cos math_sin math_hypot settings pc)
      as [[im|]|e] eqn:Eb; try discriminate.
    injection Hr as ->.
    destruct (render_page_body_image settings pc w h image Hsize Eb)
      as (Hw & Hh & Ht).
    pose proof (bleed_offset_nonneg settings Hbleed) as Hb.
    unfold total_canvas_size in Ht.
    destruct (include_bleed settings); injection Ht as -> ->; lia.
  - intros image panel rest Hv Ht Hbox.
    cbn [render_panels]. rewrite Hv. cbn [negb].
    rewrite (render_visible_empty_box _ _ _ _ _ _ _ _ _ Ht Hbox).
    reflexivity.
Qed.

(** C6 (as amended). On a page whose width and height are not zero, a
    visible speech bubble in the panel list makes [render_page_to_image]
    return [None] and the export fail. When the page pixel size is positive
    and the canvas can be allocated, what happens is a [NameError] on
    [math], raised when the loop reaches the first visible speech bubble
    and caught by the handler of the function. *)
Theorem speech_bubble_fails_export save_image settings pc :
  existsb visible_speech_bubble (panel_list pc) = true ->
  page_width pc <> 0%Z -> page_height pc <> 0%Z ->
  render_page_to_image math_cos math_sin math_hypot settings pc = None
  /\ export_current_page math_cos math_sin math_hypot save_image settings pc
     = false
  /\ (forall w h,
         export_page_size settings pc = Ok (w, h) ->
         (0 < w)%Z -> (0 < h)%Z ->
         (0 <= fst (total_canvas_size settings w h))%Z ->
         (0 <= snd (total_canvas_size settings w h))%Z ->
         render_page_body math_cos math_sin math_hypot settings pc
         = Raise (NameError "math")).
Proof.
  intros Hb Hpw Hph.
  assert (Hs : existsb visible_speech_bubble (sorted_by_layer (panel_list pc))
               = true) by (rewrite existsb_sorted_by_layer; exact Hb).
  assert (Hz : (page_width pc =? 0)%Z || (page_height pc =? 0)%Z = false).
  { apply orb_false_iff. split; apply Z.eqb_neq; assumption. }
  assert (Hn : render_page_to_image math_cos math_sin math_hypot settings pc
               = None).
  { unfold render_page_to_image.
    destruct (render_page_body math_cos math_sin math_hypot settings pc)
      as [[im|]|e] eqn:Eb; try reflexivity.
    exfalso. revert Eb. unfold render_page_body.
    destruct (export_page_size settings pc) as [[w h]|e]; [|discriminate].
    cbn [bind].
    destruct ((w <=? 0)%Z || (h <=? 0)%Z); [discriminate|].
    destruct (total_canvas_size settings w h) as [tw th].
    match goal with
    | |- bind ?c _ = _ -> _ => destruct c as [im0|e]; [|discriminate]
    end.
    cbn [bind]. rewrite Hz.
    rewrite (render_panels_bubble _ _ _ _ _ _ _ _ _ Hs). discriminate. }
  split; [exact Hn|]. split.
  - unfold export_current_page. rewrite Hn. reflexivity.
  - intros w h Hsize Hw Hh Htw Hth. unfold render_page_body.
    rewrite Hsize. cbn [bind].
    replace ((w <=? 0)%Z || (h <=? 0)%Z) with false
      by (symmetry; apply orb_false_iff; split; apply Z.leb_gt; assumption).
    destruct (total_canvas_size settings w h) as [tw th]. cbn [fst snd] in *.
    destruct (transparent_background settings && is_PNG (format settings));
      rewrite Image_new_ok by assumption; cbn [bind]; rewrite Hz;
      rewrite (render_panels_bubble _ _ _ _ _ _ _ _ _ Hs); reflexivity.
Qed.

(** C7 (as amended). At 300 DPI, with the page size "current canvas" and
    without bleed, a page of positive width and height without a visible
    speech bubble is rendered to an image of exactly the page's width and
    height in pixels. *)
Theorem export_at_reference_dpi_keeps_page_size settings pc :
  dpi settings = 300%Z ->
  export_page_size_name settings = "Текущий холст"%string ->
  include_bleed settings = false ->
  (0 < page_width pc)%Z -> (0 < page_height pc)%Z ->
  existsb visible_speech_bubble (panel_list pc) = false ->
  exists image,
    render_page_to_image math_cos math_sin math_hypot settings pc = Some image
    /\ img_width image = page_width pc
    /\ img_height image = page_height pc.
Proof.
  intros Hdpi Hname Hbleed Hpw Hph Hb.
  assert (Hsize : export_page_size settings pc
                  = Ok (page_width pc, page_height pc)).
  { unfold export_page_size. rewrite Hname, Hdpi.
    rewrite String.eqb_refl. rewrite !to_px_at_reference_dpi. reflexivity. }
  assert (Hs : existsb visible_speech_bubble (sorted_by_layer (panel_list pc))
               = false) by (rewrite existsb_sorted_by_layer; exact Hb).
  unfold render_page_to_image, render_page_body.
  rewrite Hsize. cbn [bind].
  replace ((page_width pc <=? 0)%Z || (page_height pc <=? 0)%Z) with false
    by (symmetry; apply orb_false_iff; split; apply Z.leb_gt; assumption).
  unfold total_canvas_size. rewrite Hbleed.
  replace ((page_width pc =? 0)%Z || (page_height pc =? 0)%Z) with false
    by (symmetry; apply orb_false_iff; split; apply Z.eqb_neq; lia).
  destruct (transparent_background settings && is_PNG (format settings));
    rewrite Image_new_ok by lia; cbn [bind];
    match goal with
    | |- context [render_panels _ _ _ _ _ _ _ ?im _] =>
        destruct (render_panels_no_bubble math_cos math_sin math_hypot settings
                    (page_width pc) (page_height pc) pc _ im Hs)
          as (im' & Hr & Hw' & Hh')
    end;
    rewrite Hr; cbn [bind];
    destruct (marks_size settings im') as [Mw Mh]; cbv zeta in Mw, Mh;
    eexists; (split; [reflexivity|]);
    rewrite Mw, Mh, Hw', Hh'; split; reflexivity.
Qed.

End RasteriserClaims.

Lemma export_zero_dimensions_witness :
  (render_page_to_image some_unary some_unary some_binary default_settings
     (set_page_dimensions init 0 842) = None
   /\ export_current_page some_unary some_unary some_binary (fun _ => true)
        default_settings (set_page_dimensions init 0 842) = false)
  /\ (forall image rest,
         render_panels some_unary some_unary some_binary
           (custom_size_settings 50 70) 50 70 two_panel_page image
           (rect "small" 20 20 10 10 :: rest)
         = render_panels some_unary some_unary some_binary
             (custom_size_settings 50 70) 50 70 two_panel_page image rest).
Proof.
  split.
  - apply (proj1 (export_zero_dimensions some_unary some_unary some_binary
                    (fun _ => true) default_settings
                    (set_page_dimensions init 0 842) 0 842 eq_refl)).
    left. lia.
  - intros image rest.
    apply (proj2 (proj2 (export_zero_dimensions some_unary some_unary
                           some_binary (fun _ => true)
                           (custom_size_settings 50 70) two_panel_page 50 70
                           eq_refl))).
    + reflexivity.
    + discriminate.
    + left. vm_compute. discriminate.
Defined.

(** C5, as the specification states it, fails for the pixel box of a
    panel: exporting a page with a 10 x 10 and a 300 x 300 panel to 50 x 70
    pixels gives the small panel a box 0 pixels wide; it is passed over,
    the large panel is still drawn and the export goes on to write the
    image. *)
Lemma export_zero_dimensions_counterexample :
  exists image small,
    In small (panel_list two_panel_page)
    /\ visible small = true
    /\ export_page_size (custom_size_settings 50 70) two_panel_page
       = Ok (50%Z, 70%Z)
    /\ fst (panel_export_size 50 70 two_panel_page small) = 0%Z
    /\ render_page_to_image some_unary some_unary some_binary
         (custom_size_settings 50 70) two_panel_page = Some image
    /\ List.length (img_ops image) = 1%nat
    /\ export_current_page some_unary some_unary some_binary (fun _ => true)
         (custom_size_settings 50 70) two_panel_page = true.
Proof.
  eexists.
  exists (mkPanel "small" 20 20 10 10 RECTANGULAR default_style 0 0 true
            false None "" false 10 20 0 pi_over_2 [] 0 0 1 true).
  split; [vm_compute; left; reflexivity|].
  split; [vm_compute; reflexivity|].
  split; [vm_compute; reflexivity|].
  split; [vm_compute; reflexivity|].
  split; [vm_compute; reflexivity|].
  split; vm_compute; reflexivity.
Qed.

Lemma speech_bubble_fails_export_witness :
  render_page_to_image some_unary some_unary some_binary default_settings
    bubble_page = None
  /\ export_current_page some_unary some_unary some_binary (fun _ => true)
       default_settings bubble_page = false
  /\ render_page_body some_unary some_unary some_binary default_settings
       bubble_page = Raise (NameError "math").
Proof.
  destruct (speech_bubble_fails_export some_unary some_unary some_binary
              (fun _ => true) default_settings bubble_page)
    as (Hn & He & Hb).
  - reflexivity.
  - vm_compute. discriminate.
  - vm_compute. discriminate.
  - split; [exact Hn|]. split; [exact He|].
    apply (Hb 595%Z 842%Z).
    + vm_compute. reflexivity.
    + lia.
    + lia.
    + vm_compute. discriminate.
    + vm_compute. discriminate.
Defined.

(** C6, as the specification states it, fails on a page of width 0: asked
    for explicit pixel dimensions, [render_page_to_image] allocates the
    canvas and returns it blank before the panel loop, so that the export
    of a page with a visible speech bubble succeeds. *)
Lemma speech_bubble_counterexample :
  existsb visible_speech_bubble
    (panel_list (set_page_dimensions bubble_page 0 842)) = true
  /\ render_page_to_image some_unary some_unary some_binary
       (custom_size_settings 100 100) (set_page_dimensions bubble_page 0 842)
     = Some (mkImage "RGB" 100 100 [])
  /\ export_current_page some_unary some_unary some_binary (fun _ => true)
       (custom_size_settings 100 100) (set_page_dimensions bubble_page 0 842)
     = true.
Proof.
  repeat split; vm_compute; reflexivity.
Qed.

Lemma export_at_reference_dpi_keeps_page_size_witness :
  exists image,
    render_page_to_image some_unary some_unary some_binary default_settings
      two_panel_page = Some image
    /\ img_width image = 595%Z /\ img_height image = 842%Z.
Proof.
  apply (export_at_reference_dpi_keeps_page_size some_unary some_unary
           some_binary default_settings two_panel_page).
  - reflexivity.
  - reflexivity.
  - reflexivity.
  - vm_compute. reflexivity.
  - vm_compute. reflexivity.
  - vm_compute. reflexivity.
Defined.

(** C7, as the specification states it, fails for a page size that is not
    positive (the guard on the page pixel size returns [None]) and for a
    page with a visible speech bubble (the [NameError] on [math]): no
    buffer is produced. *)
Lemma export_at_reference_dpi_counterexample :
  dpi default_settings = 300%Z
  /\ export_page_size_name default_settings = "Текущий холст"%string
  /\ include_bleed default_settings = false
  /\ render_page_to_image some_unary some_unary some_binary default_settings
       (set_page_dimensions init 0 842) = None
  /\ page_width bubble_page = 595%Z /\ page_height bubble_page = 842%Z
  /\ render_page_to_image some_unary some_unary some_binary default_settings
       bubble_page = None.
Proof.
  repeat split; vm_compute; reflexivity.
Qed.

(** * Further properties of the page constructor *)

(** ** Grid snapping *)

Lemma Py_round_near q :
  - (1 # 2) <= inject_Z (Py.round q) - q /\ inject_Z (Py.round q) - q <= 1 # 2.
Proof.
  unfold Py.round.
  pose proof (Qfloor_le q) as Hlo. pose proof (Qlt_floor q) as Hhi.
  rewrite inject_Z_plus in Hhi.
  set (f := Qfloor q) in *.
  change (inject_Z 1) with 1 in Hhi.
  py_cases.
  - lra.
  - rewrite inject_Z_plus. change (inject_Z 1) with 1. lra.
  - destruct (Z.even f).
    + lra.
    + rewrite inject_Z_plus. change (inject_Z 1) with 1. lra.
Qed.

Lemma scaled_rounding_error (k q g v : Q) :
  0 < g -> v == q * g -> - (1 # 2) <= k - q -> k - q <= 1 # 2 ->
  - (g / 2) <= k * g - v /\ k * g - v <= g / 2.
Proof.
  intros Hg E Hlo Hhi.
  assert (H1 : 0 <= (k - q + (1 # 2)) * g)
    by (apply Qmult_le_0_compat; lra).
  assert (H2 : 0 <= ((1 # 2) - (k - q)) * g)
    by (apply Qmult_le_0_compat; lra).
  assert (E1 : (k - q + (1 # 2)) * g == k * g - v + g / 2)
    by (rewrite E; field).
  assert (E2 : ((1 # 2) - (k - q)) * g == g / 2 - (k * g - v))
    by (rewrite E; field).
  rewrite E1 in H1. rewrite E2 in H2.
  split; lra.
Qed.

Lemma snap_axis_near (g : Z) v :
  (0 < g)%Z ->
  let s := inject_Z (Py.round (v / inject_Z g)) * inject_Z g in
  - (inject_Z g / 2) <= s - v /\ s - v <= inject_Z g / 2.
Proof.
  intros Hg. cbv zeta.
  assert (Hgq : 0 < inject_Z g).
  { change 0 with (inject_Z 0). rewrite <- Zlt_Qlt. exact Hg. }
  destruct (Py_round_near (v / inject_Z g)) as [Hlo Hhi].
  apply scaled_rounding_error with (q := v / inject_Z g); try assumption.
  field. lra.
Qed.

(** X1. With snapping on and a positive grid size, each coordinate comes back
    as an integer multiple of the grid size that is at most half a grid
    cell away from the coordinate given; otherwise the coordinates come
    back as they are. *)
Theorem snap_to_grid_nearest_multiple self px py :
  (snap_to_grid self = true -> (0 < grid_size self)%Z ->
   exists kx ky : Z,
     snap_to_grid_coords self px py
     = (inject_Z kx * inject_Z (grid_size self),
        inject_Z ky * inject_Z (grid_size self))
     /\ - (inject_Z (grid_size self) / 2)
        <= inject_Z kx * inject_Z (grid_size self) - px
        <= inject_Z (grid_size self) / 2
     /\ - (inject_Z (grid_size self) / 2)
        <= inject_Z ky * inject_Z (grid_size self) - py
        <= inject_Z (grid_size self) / 2)
  /\ (snap_to_grid self = false \/ (grid_size self <= 0)%Z ->
      snap_to_grid_coords self px py = (px, py)).
Proof.
  split.
  - intros Hs Hg. unfold snap_to_grid_coords. rewrite Hs.
    replace (0 <? grid_size self)%Z with true
      by (symmetry; apply Z.ltb_lt; exact Hg).
    cbn [andb].
    exists (Py.round (px / inject_Z (grid_size self))),
           (Py.round (py / inject_Z (grid_size self))).
    split; [reflexivity|].
    split; apply snap_axis_near; exact Hg.
  - intros H. unfold snap_to_grid_coords.
    destruct H as [H|H].
    + rewrite H. reflexivity.
    + replace (0 <? grid_size self)%Z with false
        by (symmetry; apply Z.ltb_ge; exact H).
      rewrite andb_false_r. reflexivity.
Qed.

Lemma snap_to_grid_nearest_multiple_witness :
  exists kx ky : Z,
    snap_to_grid_coords snapping_page 495 130
    = (inject_Z kx * inject_Z 50, inject_Z ky * inject_Z 50)
    /\ - (inject_Z 50 / 2) <= inject_Z kx * inject_Z 50 - 495
       <= inject_Z 50 / 2
    /\ - (inject_Z 50 / 2) <= inject_Z ky * inject_Z 50 - 130
       <= inject_Z 50 / 2.
Proof.
  apply (proj1 (snap_to_grid_nearest_multiple snapping_page 495 130)).
  - reflexivity.
  - vm_compute. reflexivity.
Defined.

(** ** Zoom *)

(** X2. [set_zoom] keeps the zoom inside [0.01, 10]: the zoom it leaves is
    either the one before or the request clamped to that range, and it is
    the clamped request whenever that differs from the zoom before by more
    than 0.001. Besides the zoom it writes, through
    [update_scroll_region] and [redraw], only the view origin, the
    selection markers and cache flags of panels: every other field of the
    state and every other field of every panel is as before, whatever
    files exist and wherever Tk puts the view. *)
Theorem set_zoom_keeps_range os_path_exists view_origin self zoom_level :
  1 # 100 <= zoom self -> zoom self <= 10 ->
  let self' := set_zoom_level os_path_exists view_origin self zoom_level in
  let clamped := Py.max (1 # 100) (Py.min 10 zoom_level) in
  1 # 100 <= zoom self' /\ zoom self' <= 10
  /\ (zoom self' = zoom self \/ zoom self' = clamped)
  /\ (1 # 1000 < Py.abs (zoom self - clamped) -> zoom self' = clamped)
  /\ self'
     = set_canvas_yorigin
         (set_canvas_xorigin
            (set_selection_handles
               (set_objects (set_zoom self (zoom self')) (objects self'))
               (selection_handles self'))
            (canvas_xorigin self'))
         (canvas_yorigin self')
  /\ (forall a,
        set_image_content_updated_flag (panel_at self' a) false
        = set_image_content_updated_flag (panel_at self a) false).
Proof.
  intros Hlo Hhi. cbv zeta. unfold set_zoom_level.
  assert (Hc : 1 # 100 <= Py.max (1 # 100) (Py.min 10 zoom_level)
               /\ Py.max (1 # 100) (Py.min 10 zoom_level) <= 10).
  { unfold Py.max, Py.min. py_cases; split; lra. }
  set (clamped := Py.max (1 # 100) (Py.min 10 zoom_level)) in *.
  assert (Hset : let s' := redraw os_path_exists
                             (update_scroll_region view_origin
                                (set_zoom self clamped)) in
                 zoom s' = clamped
                 /\ s' = set_canvas_yorigin
                           (set_canvas_xorigin
                              (set_selection_handles
                                 (set_objects (set_zoom self (zoom s'))
                                    (objects s'))
                                 (selection_handles s'))
                              (canvas_xorigin s'))
                           (canvas_yorigin s')
                 /\ forall a,
                      set_image_content_updated_flag (panel_at s' a) false
                      = set_image_content_updated_flag (panel_at self a)
                          false).
  { cbv zeta.
    destruct (redraw_spec os_path_exists
                (update_scroll_region view_origin (set_zoom self clamped)))
      as (E & _ & F & _).
    cbv zeta in E, F.
    set (s' := redraw os_path_exists _) in *.
    assert (Pz : zoom s' = clamped) by (rewrite E; reflexivity).
    assert (Px : canvas_xorigin s' = inject_Z (fst view_origin))
      by (rewrite E; reflexivity).
    assert (Py : canvas_yorigin s' = inject_Z (snd view_origin))
      by (rewrite E; reflexivity).
    split; [exact Pz|]. split; [|exact F].
    rewrite Pz, Px, Py. rewrite E at 1. reflexivity. }
  cbv zeta in Hset. destruct Hset as (Pz & Pf & Pp).
  assert (Hself : self
                  = set_canvas_yorigin
                      (set_canvas_xorigin
                         (set_selection_handles
                            (set_objects (set_zoom self (zoom self))
                               (objects self))
                            (selection_handles self))
                         (canvas_xorigin self))
                      (canvas_yorigin self))
    by (destruct self; reflexivity).
  destruct (Py.ltb (1 # 1000) (Py.abs (zoom self - clamped))) eqn:E1.
  - rewrite Pz. split; [tauto|]. split; [tauto|]. split; [tauto|].
    split; [tauto|]. split; [|exact Pp]. rewrite <- Pz at 2. exact Pf.
  - destruct (Py.leb (zoom self) (1 # 100) && Py.ltb (1 # 100) zoom_level).
    + rewrite Pz. split; [tauto|]. split; [tauto|]. split; [tauto|].
      split; [tauto|]. split; [|exact Pp]. rewrite <- Pz at 2. exact Pf.
    + split; [tauto|]. split; [tauto|]. split; [tauto|].
      split; [|split; [exact Hself|reflexivity]].
      intros H. apply Py_ltb_lt in H. congruence.
Qed.

Lemma set_zoom_keeps_range_witness :
  1 # 100 <= zoom (set_zoom_level (fun _ => true) (0, 0)%Z init 250)
  /\ zoom (set_zoom_level (fun _ => true) (0, 0)%Z init 250) <= 10.
Proof.
  destruct (set_zoom_keeps_range (fun _ => true) (0, 0)%Z init 250)
    as (H1 & H2 & _).
  - q_compute.
  - q_compute.
  - split; assumption.
Defined.

(** ** The history stays bounded *)

Lemma trim_history_length stack :
  (List.length stack <= S MAX_HISTORY_SIZE)%nat ->
  (List.length (trim_history stack) <= MAX_HISTORY_SIZE)%nat.
Proof.
  intros H. unfold trim_history.
  destruct (MAX_HISTORY_SIZE <? List.length stack)%nat eqn:E.
  - destruct stack; cbn in *; lia.
  - apply Nat.ltb_ge in E. exact E.
Qed.

Lemma removelast_length {A} (l : list A) :
  List.length (removelast l) = pred (List.length l).
Proof.
  destruct l as [|a l]; [reflexivity|].
  destruct (exists_last (l := a :: l)) as (l' & z & E); [discriminate|].
  rewrite E, removelast_last, length_app. cbn. lia.
Qed.

(** X3. The undo stack never holds more than [MAX_HISTORY_SIZE] (50)
    snapshots and is never emptied: a commit, an undo and a redo each keep
    its length between 1 and 50. A commit also empties the redo stack, so
    that a redo right after it does nothing. *)
Theorem history_stays_bounded os_path_exists self :
  (1 <= List.length (undo_stack self) <= MAX_HISTORY_SIZE)%nat ->
  (1 <= List.length (undo_stack (save_history_state self))
   <= MAX_HISTORY_SIZE)%nat
  /\ (1 <= List.length (undo_stack (undo os_path_exists self))
      <= MAX_HISTORY_SIZE)%nat
  /\ (1 <= List.length (undo_stack (redo os_path_exists self))
      <= MAX_HISTORY_SIZE)%nat
  /\ redo_action os_path_exists (save_history_state self)
     = (false, save_history_state self).
Proof.
  intros [Hlo Hhi].
  assert (Hpush : forall st,
             (1 <= List.length (trim_history (undo_stack self ++ [st]))
              <= MAX_HISTORY_SIZE)%nat).
  { intros st. split.
    - destruct (trim_history_last (undo_stack self ++ [st]) [])
        as (_ & Hn); [destruct (undo_stack self); discriminate|].
      destruct (trim_history (undo_stack self ++ [st])); [congruence|cbn; lia].
    - apply trim_history_length. rewrite length_app. cbn. lia. }
  split; [|split; [|split]].
  - unfold save_history_state. cbn [undo_stack set_undo_stack]. apply Hpush.
  - unfold undo.
    destruct (Nat.lt_ge_cases 1 (List.length (undo_stack self))) as [H|H].
    + rewrite (undo_action_step _ _ H). cbn [snd].
      match goal with
      | |- context [_post_history_change_update _ ?s] =>
          destruct (post_history_spec os_path_exists s) as (Hu & _)
      end.
      rewrite Hu. cbn. rewrite removelast_length. lia.
    + rewrite undo_action_noop by lia. cbn. lia.
  - unfold redo, redo_action.
    destruct (redo_stack self) as [|r rs] eqn:E; [cbn; lia|].
    cbn [snd].
    match goal with
    | |- context [_post_history_change_update _ ?s] =>
        destruct (post_history_spec os_path_exists s) as (Hu & _)
    end.
    rewrite Hu. cbn. apply Hpush.
  - apply redo_action_noop. reflexivity.
Qed.

Lemma history_stays_bounded_witness :
  (1 <= List.length (undo_stack (save_history_state one_panel_page))
   <= MAX_HISTORY_SIZE)%nat.
Proof.
  refine (proj1 (history_stays_bounded (fun _ => true) one_panel_page _)).
  vm_compute. lia.
Defined.


(** ** Pasting and duplicating *)

(** X5. A pasted panel is a copy under the new id, deselected and of the size
    of the clipboard panel; it never starts left of or above the page, and
    a clipboard panel that is not larger than the page is pasted wholly
    inside the page, wherever it was copied from. *)
Theorem pasted_panel_lies_on_page self uuid panel :
  width panel <= inject_Z (page_width self) ->
  height panel <= inject_Z (page_height self) ->
  let p' := paste_place self uuid panel in
  id p' = uuid /\ selected p' = false
  /\ width p' = width panel /\ height p' = height panel
  /\ 0 <= x p' /\ 0 <= y p'
  /\ x p' + width p' <= inject_Z (page_width self)
  /\ y p' + height p' <= inject_Z (page_height self).
Proof.
  intros Hw Hh. unfold paste_place.
  destruct panel as [? px py w h ? ? ? ? ? ? ? ? ? ? ? ? ? ? ? ? ? ?].
  cbn [x y width height] in *.
  cbv beta iota zeta delta
    [set_x set_y set_id set_selected x y width height id selected].
  destruct (Py.ltb (inject_Z (page_width self)) (px + 20 + w)) eqn:E1;
    [apply Py_ltb_lt in E1|apply Py_ltb_ge in E1];
    cbv beta iota zeta delta
      [set_x set_y set_id set_selected x y width height id selected];
    (destruct (Py.ltb (inject_Z (page_height self)) (py + 20 + h)) eqn:E2;
     [apply Py_ltb_lt in E2|apply Py_ltb_ge in E2]);
    cbv beta iota zeta delta
      [set_x set_y set_id set_selected x y width height id selected Py.max];
    py_cases; repeat split; try reflexivity; lra.
Qed.

Lemma pasted_panel_lies_on_page_witness :
  let p' := paste_place init "n1" (rect "p1" 500 800 200 100) in
  id p' = "n1"%string /\ selected p' = false
  /\ width p' = width (rect "p1" 500 800 200 100)
  /\ height p' = height (rect "p1" 500 800 200 100)
  /\ 0 <= x p' /\ 0 <= y p'
  /\ x p' + width p' <= inject_Z (page_width init)
  /\ y p' + height p' <= inject_Z (page_height init).
Proof.
  apply (pasted_panel_lies_on_page init "n1" (rect "p1" 500 800 200 100));
    q_compute.
Defined.

(** [paste_panels] with no clipboard attribute or with an empty clipboard
    changes nothing: no commit, no change of the selection. Otherwise it
    commits exactly once and appends one panel per clipboard panel. *)
Lemma paste_loop_spec uuid clipboard : forall n self,
  List.length (panels (paste_loop uuid n self clipboard))
  = (List.length (panels self) + List.length clipboard)%nat
  /\ undo_stack (paste_loop uuid n self clipboard) = undo_stack self
  /\ firstn (List.length (panels self))
       (panels (paste_loop uuid n self clipboard)) = panels self.
Proof.
  induction clipboard as [|p rest IH]; intros n self.
  - cbn. rewrite Nat.add_0_r, firstn_all. auto.
  - cbn [paste_loop]. unfold alloc.
    match goal with
    | |- context [paste_loop uuid (S n) ?s rest] =>
        destruct (IH (S n) s) as (Hl & Hu & Hf);
        assert (Hp : panels s
                     = panels self ++ [List.length (objects self)]);
        [|assert (Hus : undo_stack s = undo_stack self)]
    end.
    + unfold select_panel.
      match goal with
      | |- context [if ?c then _ else _] => destruct c
      end; reflexivity.
    + unfold select_panel.
      match goal with
      | |- context [if ?c then _ else _] => destruct c
      end; reflexivity.
    + rewrite Hl, Hu, Hp, Hus, length_app. cbn [List.length].
      split; [lia|]. split; [reflexivity|].
      rewrite Hp, length_app in Hf. cbn [List.length] in Hf.
      apply (f_equal (firstn (List.length (panels self)))) in Hf.
      rewrite firstn_firstn, Nat.min_l in Hf by lia.
      rewrite firstn_app, firstn_all, Nat.sub_diag in Hf.
      cbn in Hf. rewrite app_nil_r in Hf. exact Hf.
Qed.

(** X6. A paste keeps the panels of the page, in their order, appends one
    panel for each panel of the clipboard and commits once; with no
    clipboard or an empty one it changes nothing at all. *)
Theorem paste_appends_and_commits uuid self clipboard :
  let s' := paste_panels uuid self clipboard in
  match clipboard with
  | None | Some [] => s' = self
  | Some (p :: rest) =>
      List.length (panels s')
      = (List.length (panels self) + S (List.length rest))%nat
      /\ firstn (List.length (panels self)) (panels s') = panels self
      /\ last (undo_stack s') [] = panel_list s'
      /\ redo_stack s' = []
      /\ project_modified s' = true
  end.
Proof.
  destruct clipboard as [[|p rest]|]; cbn zeta; try reflexivity.
  unfold paste_panels.
  set (s0 := clear_selection self).
  assert (H0 : panels s0 = panels self).
  { unfold s0. rewrite clear_selection_spec. reflexivity. }
  destruct (paste_loop_spec uuid (p :: rest) 0%nat s0) as (Hl & Hu & Hf).
  set (s1 := paste_loop uuid 0 s0 (p :: rest)) in *.
  rewrite H0 in Hl, Hf.
  split; [exact Hl|]. split; [exact Hf|].
  split; [|split; reflexivity].
  change (last (trim_history (undo_stack s1 ++ [panel_list s1])) []
          = panel_list s1).
  destruct (trim_history_last (undo_stack s1 ++ [panel_list s1]) [])
    as (Hl' & _); [destruct (undo_stack s1); discriminate|].
  rewrite Hl', last_last. reflexivity.
Qed.

(** X7. The copy that [duplicate_panel] makes of a panel that lies inside the
    page lies inside the page and has the size of the original. *)
Theorem duplicate_lies_on_page self uuid panel :
  0 <= x panel -> 0 <= y panel ->
  x panel + width panel <= inject_Z (page_width self) ->
  y panel + height panel <= inject_Z (page_height self) ->
  0 <= width panel -> 0 <= height panel ->
  let p' := duplicate_place self uuid panel in
  id p' = uuid
  /\ width p' = width panel /\ height p' = height panel
  /\ 0 <= x p' /\ 0 <= y p'
  /\ x p' + width p' <= inject_Z (page_width self)
  /\ y p' + height p' <= inject_Z (page_height self).
Proof.
  intros Hx Hy Hr Hb Hw Hh. unfold duplicate_place.
  destruct panel as [? px py w h ? ? ? ? ? ? ? ? ? ? ? ? ? ? ? ? ? ?].
  cbn [x y width height] in *.
  cbv beta iota zeta delta
    [set_x set_y set_id x y width height id].
  destruct (Py.ltb (inject_Z (page_width self)) (px + 20 + w)) eqn:E1;
    [apply Py_ltb_lt in E1|apply Py_ltb_ge in E1];
    cbv beta iota zeta delta [set_x set_y set_id x y width height id];
    (destruct (Py.ltb (inject_Z (page_height self)) (py + 20 + h)) eqn:E2;
     [apply Py_ltb_lt in E2|apply Py_ltb_ge in E2]);
    cbv beta iota zeta delta
      [set_x set_y set_id x y width height id Py.max];
    py_cases; repeat split; try reflexivity; lra.
Qed.

Lemma duplicate_lies_on_page_witness :
  let p' := duplicate_place init "n1" (rect "p1" 400 700 180 120) in
  id p' = "n1"%string
  /\ width p' = width (rect "p1" 400 700 180 120)
  /\ height p' = height (rect "p1" 400 700 180 120)
  /\ 0 <= x p' /\ 0 <= y p'
  /\ x p' + width p' <= inject_Z (page_width init)
  /\ y p' + height p' <= inject_Z (page_height init).
Proof.
  apply (duplicate_lies_on_page init "n1" (rect "p1" 400 700 180 120));
    q_compute.
Defined.

(** ** Hit testing *)

Lemma insert_by_layer_desc_In self a b l :
  In b (insert_by_layer_desc self a l) <-> b = a \/ In b l.
Proof.
  induction l as [|c l IH]; cbn.
  - intuition congruence.
  - destruct (layer (panel_at self c) <=? layer (panel_at self a))%Z; cbn.
    + intuition congruence.
    + rewrite IH. intuition congruence.
Qed.

Lemma sorted_by_layer_desc_In self b l :
  In b (sorted_by_layer_desc self l) <-> In b l.
Proof.
  induction l as [|a l IH]; cbn; [tauto|].
  fold (sorted_by_layer_desc self l).
  rewrite insert_by_layer_desc_In, IH. intuition congruence.
Qed.

Lemma insert_by_layer_desc_descending self a l :
  descending self l -> descending self (insert_by_layer_desc self a l).
Proof.
  induction l as [|c l IH]; cbn; [tauto|].
  intros [Hc Hl].
  destruct (layer (panel_at self c) <=? layer (panel_at self a))%Z eqn:E.
  - apply Z.leb_le in E. cbn. repeat split; auto.
    intros b [<-|Hb]; [exact E|]. specialize (Hc b Hb). lia.
  - apply Z.leb_gt in E. cbn. split; [|auto].
    intros b Hb. apply insert_by_layer_desc_In in Hb.
    destruct Hb as [->|Hb]; [lia|auto].
Qed.

Lemma sorted_by_layer_desc_descending self l :
  descending self (sorted_by_layer_desc self l).
Proof.
  induction l as [|a l IH]; cbn; [exact I|].
  apply insert_by_layer_desc_descending, IH.
Qed.

Lemma find_descending self (f : addr -> bool) l :
  descending self l ->
  match find f l with
  | Some a =>
      In a l /\ f a = true
      /\ forall b, In b l -> f b = true ->
                   (layer (panel_at self b) <= layer (panel_at self a))%Z
  | None => forall b, In b l -> f b = false
  end.
Proof.
  induction l as [|a l IH]; cbn; [tauto|].
  intros [Ha Hl]. destruct (f a) eqn:E.
  - repeat split; auto.
    intros b [<-|Hb] _; [lia|auto].
  - specialize (IH Hl). destruct (find f l) as [c|].
    + destruct IH as (Hin & Hf & Hmax). repeat split; auto.
      intros b [<-|Hb] Hfb; [congruence|auto].
    + intros b [<-|Hb]; auto.
Qed.

(** X8. [find_panel_at_point] returns a panel of the page that is visible and
    contains the point, and no visible panel containing the point has a
    higher layer; it returns [None] exactly when no visible panel of the
    page contains the point. An invisible panel is never returned, whatever
    its layer. *)
Theorem find_panel_at_point_is_topmost_hit self px py :
  let hit a := visible (panel_at self a)
               && contains_point (panel_at self a) px py in
  match find_panel_at_point self px py with
  | Some a =>
      In a (panels self) /\ hit a = true
      /\ forall b, In b (panels self) -> hit b = true ->
                   (layer (panel_at self b) <= layer (panel_at self a))%Z
  | None => forall b, In b (panels self) -> hit b = false
  end.
Proof.
  intros hit. unfold find_panel_at_point.
  pose proof (find_descending self hit _
                (sorted_by_layer_desc_descending self (panels self))) as H.
  fold hit.
  destruct (find hit (sorted_by_layer_desc self (panels self))) as [a|].
  - destruct H as (Hin & Hf & Hmax).
    rewrite sorted_by_layer_desc_In in Hin. repeat split; auto.
    intros b Hb. apply Hmax. rewrite sorted_by_layer_desc_In. exact Hb.
  - intros b Hb. apply H. rewrite sorted_by_layer_desc_In. exact Hb.
Qed.

(** ** Creating a panel *)

Lemma fold_max_ge (l : list Z) : forall v,
  (v <= fold_left Z.max l v)%Z
  /\ forall z, In z l -> (z <= fold_left Z.max l v)%Z.
Proof.
  induction l as [|a l IH]; intros v; cbn.
  - split; [lia|tauto].
  - destruct (IH (Z.max v a)) as (H1 & H2). split; [lia|].
    intros z [<-|Hz]; [lia|auto].
Qed.

Lemma next_layer_above ps p :
  In p ps -> (layer p < next_layer ps)%Z.
Proof.
  destruct ps as [|q rest]; [intros []|]. cbn [next_layer].
  destruct (fold_max_ge (map layer rest) (layer q)) as (H1 & H2).
  intros [<-|Hp]; [lia|].
  specialize (H2 (layer p) (in_map layer _ _ Hp)). lia.
Qed.

Lemma set_selected_twice p b c :
  set_selected (set_selected p b) c = set_selected p c.
Proof. destruct p; reflexivity. Qed.

(** Clearing selection flags changes no other field of any object. *)
Lemma fold_update_nth_deselect refs : forall objs i d,
  set_selected
    (nth i (fold_left
              (fun objs a => update_at a (fun p => set_selected p false) objs)
              refs objs) d) false
  = set_selected (nth i objs d) false.
Proof.
  induction refs as [|a refs IH]; intros objs i d; cbn [fold_left]; auto.
  rewrite IH. destruct (Nat.eq_dec i a) as [->|Hne].
  - destruct (Nat.lt_ge_cases a (List.length objs)) as [H|H].
    + rewrite update_at_nth_same by exact H. apply set_selected_twice.
    + rewrite !nth_overflow; auto. rewrite update_at_length. exact H.
  - rewrite update_at_nth_other by exact Hne. reflexivity.
Qed.

Lemma fold_update_nth_unselected refs : forall objs i d,
  ~ In i refs ->
  nth i (fold_left
           (fun objs a => update_at a (fun p => set_selected p false) objs)
           refs objs) d
  = nth i objs d.
Proof.
  induction refs as [|a refs IH]; intros objs i d Hi; cbn [fold_left]; auto.
  rewrite IH by (intros H; apply Hi; right; exact H).
  apply update_at_nth_other. intros ->. apply Hi. left. reflexivity.
Qed.

Lemma set_selected_layer p b : layer (set_selected p b) = layer p.
Proof. destruct p; reflexivity. Qed.

(** A commit puts the live list on top of the undo stack and empties the
    redo stack. *)
Lemma save_history_state_top self :
  last (undo_stack (save_history_state self)) []
  = panel_list (save_history_state self)
  /\ redo_stack (save_history_state self) = [].
Proof.
  split; [|reflexivity].
  change (last (trim_history (undo_stack self ++ [panel_list self])) []
          = panel_list self).
  destruct (trim_history_last (undo_stack self ++ [panel_list self]) [])
    as (Hl & _); [destruct (undo_stack self); discriminate|].
  rewrite Hl, last_last. reflexivity.
Qed.

(** What [create_panel] and [duplicate_panel] do with the panel they have
    made: append it, clear the selection, select it, commit. *)
Lemma append_select_commit self new :
  panels_allocated self ->
  selection_allocated self ->
  let a := List.length (objects self) in
  let s' := save_history_state
              (select_panel
                 (clear_selection
                    (set_panels (set_objects self (objects self ++ [new]))
                       (panels self ++ [a]))) a) in
  ~ In a (panels self)
  /\ panels s' = panels self ++ [a]
  /\ selected_panels s' = [a]
  /\ panel_at s' a = set_selected new true
  /\ (forall b, In b (panels self) ->
        set_selected (panel_at s' b) false
        = set_selected (panel_at self b) false)
  /\ (forall b, In b (panels self) -> ~ In b (selected_panels self) ->
        panel_at s' b = panel_at self b)
  /\ last (undo_stack s') [] = panel_list s'
  /\ redo_stack s' = [].
Proof.
  intros Hp Hs n.
  set (cleared := fold_left
                    (fun objs a => update_at a (fun p => set_selected p false)
                                     objs)
                    (selected_panels self) (objects self ++ [new])).
  assert (Hlen : List.length cleared = S n).
  { unfold cleared. rewrite fold_update_length, length_app. cbn.
    unfold n. lia. }
  assert (Hnew0 : nth n cleared (new_Panel "" 0 0 100 100 RECTANGULAR 0)
                  = new).
  { unfold cleared.
    rewrite (fold_update_nth_above _ _ _ n) by (auto; exact Hs).
    unfold n. apply nth_middle. }
  rewrite clear_selection_spec.
  cbn [selected_panels set_panels set_objects objects].
  fold cleared.
  set (s' := save_history_state _).
  assert (Hobj : objects s'
                 = update_at n (fun p => set_selected p true) cleared).
  { reflexivity. }
  assert (Hpan : panels s' = panels self ++ [n]) by reflexivity.
  assert (Hold : forall b, In b (panels self) -> (b < n)%nat).
  { intros b Hb. unfold panels_allocated in Hp.
    rewrite Forall_forall in Hp. apply Hp, Hb. }
  assert (Hat : forall b, (b < n)%nat ->
                panel_at s' b
                = nth b cleared (new_Panel "" 0 0 100 100 RECTANGULAR 0)).
  { intros b Hb. unfold panel_at. rewrite Hobj.
    apply update_at_nth_other. lia. }
  assert (Hata : panel_at s' n = set_selected new true).
  { unfold panel_at. rewrite Hobj, update_at_nth_same by lia.
    rewrite Hnew0. reflexivity. }
  split; [|split; [|split; [|split; [|split; [|split]]]]].
  - intros Hin. apply Hold in Hin. lia.
  - exact Hpan.
  - reflexivity.
  - exact Hata.
  - intros b Hb. pose proof (Hold b Hb) as Hlt.
    rewrite (Hat b Hlt). unfold cleared.
    rewrite fold_update_nth_deselect. unfold panel_at.
    rewrite app_nth1 by exact Hlt. reflexivity.
  - intros b Hb Hnb. rewrite (Hat b (Hold b Hb)). unfold cleared.
    rewrite fold_update_nth_unselected by exact Hnb.
    unfold panel_at. apply app_nth1. apply Hold, Hb.
  - apply save_history_state_top.
Qed.

Lemma mark_visuals_layer p : layer (mark_visuals_for_update p) = layer p.
Proof. destruct p; reflexivity. Qed.

(** X9. [create_panel] appends one new object to the panel list and leaves the
    new panel as the only selected one, on a layer above every panel that
    was on the page. The panels that were there keep every field except,
    for those that were selected, the selection flag. The new list is
    committed: the snapshot on top of the undo stack is the live list and
    the redo stack is empty. *)
Theorem create_panel_adds_selected_top_panel uuid self px py w h t :
  panels_allocated self ->
  selection_allocated self ->
  let a := fst (create_panel uuid self px py w h t) in
  let s' := snd (create_panel uuid self px py w h t) in
  ~ In a (panels self)
  /\ panels s' = panels self ++ [a]
  /\ selected_panels s' = [a]
  /\ panel_at s' a
     = set_selected
         (mark_visuals_for_update
            (new_Panel uuid px py w h t (next_layer (panel_list self)))) true
  /\ (forall b, In b (panels self) ->
        set_selected (panel_at s' b) false
        = set_selected (panel_at self b) false
        /\ (layer (panel_at s' b) < layer (panel_at s' a))%Z)
  /\ (forall b, In b (panels self) -> ~ In b (selected_panels self) ->
        panel_at s' b = panel_at self b)
  /\ last (undo_stack s') [] = panel_list s'
  /\ redo_stack s' = [].
Proof.
  intros Hp Hs a s'.
  destruct (append_select_commit self
              (mark_visuals_for_update
                 (new_Panel uuid px py w h t (next_layer (panel_list self))))
              Hp Hs)
    as (H1 & H2 & H3 & H4 & H5 & H6 & H7 & H8).
  change (List.length (objects self)) with a in *.
  match type of H2 with
  | panels ?s = _ => change s with s' in *
  end.
  split; [|split; [|split; [|split; [|split; [|split; [|split]]]]]]; auto.
  intros b Hb. pose proof (H5 b Hb) as Hsel. split; [exact Hsel|].
  apply (f_equal layer) in Hsel. rewrite !set_selected_layer in Hsel.
  rewrite Hsel, H4, set_selected_layer, mark_visuals_layer.
  cbn [new_Panel layer].
  apply next_layer_above. unfold panel_list. apply in_map, Hb.
Qed.

Lemma create_panel_adds_selected_top_panel_witness :
  let a := fst (create_panel "p2" one_panel_page 10 10 50 50 RECTANGULAR) in
  let s' := snd (create_panel "p2" one_panel_page 10 10 50 50 RECTANGULAR) in
  panels s' = panels one_panel_page ++ [a] /\ selected_panels s' = [a].
Proof.
  destruct (create_panel_adds_selected_top_panel "p2" one_panel_page
              10 10 50 50 RECTANGULAR) as (_ & H1 & H2 & _).
  - unfold panels_allocated. vm_compute. repeat constructor.
  - unfold selection_allocated. vm_compute. repeat constructor.
  - split; [exact H1|exact H2].
Defined.

Lemma max_layer_above ps p :
  In p ps -> exists top, max_layer ps = Ok top /\ (layer p <= top)%Z.
Proof.
  destruct ps as [|q rest]; [intros []|]. cbn [max_layer].
  destruct (fold_max_ge (map layer rest) (layer q)) as (H1 & H2).
  intros Hin. eexists. split; [reflexivity|].
  destruct Hin as [<-|Hp]; [lia|].
  apply H2, in_map, Hp.
Qed.

Lemma set_project_modified_panel_at_all s v a :
  panel_at (set_project_modified s v) a = panel_at s a.
Proof. reflexivity. Qed.

(** X10. [duplicate_panel] on a page without panels raises [ValueError] (from
    [max] over an empty generator) and changes nothing. On a page with
    panels it appends one new object under the new id, which becomes the
    only selected panel, lies on a layer above every panel of the page and
    has the place [duplicate_place] gives it; the page is committed and
    marked as modified. *)
Theorem duplicate_panel_adds_top_copy uuid self panel :
  panels_allocated self ->
  selection_allocated self ->
  match panels self with
  | [] => exists msg, duplicate_panel uuid self panel = Raise (ValueError msg)
  | _ :: _ =>
      exists s',
        let a := List.length (objects self) in
        let copy := duplicate_place self uuid (panel_at self panel) in
        duplicate_panel uuid self panel = Ok s'
        /\ panels s' = panels self ++ [a]
        /\ selected_panels s' = [a]
        /\ set_layer (panel_at s' a) 0
           = set_layer (set_selected copy true) 0
        /\ (forall b, In b (panels self) ->
              (layer (panel_at s' b) < layer (panel_at s' a))%Z)
        /\ last (undo_stack s') [] = panel_list s'
        /\ project_modified s' = true
  end.
Proof.
  intros Hp Hs. destruct (panels self) as [|b0 rest] eqn:E.
  - eexists. unfold duplicate_panel, panel_list. rewrite E. reflexivity.
  - rewrite <- E. unfold duplicate_panel.
    destruct (max_layer_above (panel_list self) (panel_at self b0))
      as (top & Htop & _).
    { unfold panel_list. rewrite E. left. reflexivity. }
    rewrite Htop. cbn [bind]. unfold alloc.
    set (copy := duplicate_place self uuid (panel_at self panel)).
    destruct (append_select_commit self
                (set_selected (set_layer copy (top + 1)) false) Hp Hs)
      as (H1 & H2 & H3 & H4 & H5 & H6 & H7 & H8).
    match type of H2 with
    | panels ?s = _ => set (s1 := s) in *; exists (set_project_modified s1 true)
    end.
    cbv zeta. split; [reflexivity|].
    rewrite set_project_modified_panel_at_all.
    change (panels (set_project_modified s1 true)) with (panels s1).
    change (selected_panels (set_project_modified s1 true))
      with (selected_panels s1).
    change (undo_stack (set_project_modified s1 true)) with (undo_stack s1).
    change (panel_list (set_project_modified s1 true)) with (panel_list s1).
    split; [exact H2|]. split; [exact H3|].
    split; [|split; [|split; [exact H7|reflexivity]]].
    + rewrite H4. destruct copy; reflexivity.
    + intros b Hb. rewrite set_project_modified_panel_at_all.
      pose proof (H5 b Hb) as Hsel.
      apply (f_equal layer) in Hsel. rewrite !set_selected_layer in Hsel.
      rewrite Hsel, H4, !set_selected_layer.
      replace (layer (set_layer copy (top + 1))) with (top + 1)%Z
        by (destruct copy; reflexivity).
      destruct (max_layer_above (panel_list self) (panel_at self b))
        as (top' & Htop' & Hle).
      { unfold panel_list. apply in_map, Hb. }
      rewrite Htop in Htop'. injection Htop' as <-. lia.
Qed.

Lemma duplicate_panel_adds_top_copy_witness :
  exists s',
    duplicate_panel "p2" one_panel_page 0%nat = Ok s'
    /\ panels s'
       = panels one_panel_page ++ [List.length (objects one_panel_page)]
    /\ selected_panels s' = [List.length (objects one_panel_page)].
Proof.
  destruct (duplicate_panel_adds_top_copy "p2" one_panel_page 0%nat)
    as (s' & H1 & H2 & H3 & _).
  - unfold panels_allocated. vm_compute. repeat constructor.
  - unfold selection_allocated. vm_compute. repeat constructor.
  - exists s'. split; [exact H1|]. split; [exact H2|exact H3].
Defined.

(** ** Alignment *)















(** ** Layers *)

Lemma store_panel_at_same self a f :
  (a < List.length (objects self))%nat ->
  panel_at (store self a f) a = f (panel_at self a).
Proof. intros H. unfold panel_at. apply update_at_nth_same, H. Qed.

Lemma store_panel_at_other self a f b :
  b <> a -> panel_at (store self a f) b = panel_at self b.
Proof. intros H. unfold panel_at. apply update_at_nth_other, H. Qed.

Lemma store_objects_length self a f :
  List.length (objects (store self a f)) = List.length (objects self).
Proof. apply update_at_length. Qed.

Lemma set_layer_twice p v w : set_layer (set_layer p v) w = set_layer p w.
Proof. destruct p; reflexivity. Qed.

Lemma set_layer_layer p v : layer (set_layer p v) = v.
Proof. destruct p; reflexivity. Qed.

Lemma assign_layers_notin ordered : forall self k a,
  ~ In a ordered ->
  panel_at (assign_layers self k ordered) a = panel_at self a.
Proof.
  induction ordered as [|p rest IH]; intros self k a Ha; cbn; auto.
  rewrite IH by (intros H; apply Ha; right; exact H).
  apply store_panel_at_other. intros ->. apply Ha. left. reflexivity.
Qed.

Lemma assign_layers_other_fields ordered : forall self k a,
  set_layer (panel_at (assign_layers self k ordered) a) 0
  = set_layer (panel_at self a) 0.
Proof.
  induction ordered as [|p rest IH]; intros self k a; cbn; auto.
  rewrite IH. destruct (Nat.eq_dec a p) as [->|Hne].
  - destruct (Nat.lt_ge_cases p (List.length (objects self))) as [H|H].
    + rewrite store_panel_at_same by exact H. apply set_layer_twice.
    + unfold panel_at, store. cbn [objects set_objects].
      rewrite !nth_overflow; auto. rewrite update_at_length. exact H.
  - rewrite store_panel_at_other by exact Hne. reflexivity.
Qed.

Lemma assign_layers_objects_length ordered : forall self k,
  List.length (objects (assign_layers self k ordered))
  = List.length (objects self).
Proof.
  induction ordered as [|p rest IH]; intros self k; cbn; auto.
  rewrite IH. apply store_objects_length.
Qed.

Lemma assign_layers_panels ordered : forall self k,
  panels (assign_layers self k ordered) = panels self.
Proof.
  induction ordered as [|p rest IH]; intros self k; cbn; auto.
  rewrite IH. reflexivity.
Qed.

(** The panel at position [i] of the sorted list gets layer [i]. *)
Lemma assign_layers_at before : forall self k a after,
  NoDup (before ++ a :: after) ->
  (a < List.length (objects self))%nat ->
  layer (panel_at (assign_layers self k (before ++ a :: after)) a)
  = (k + Z.of_nat (List.length before))%Z.
Proof.
  induction before as [|b before IH]; intros self k a after Hnd Ha.
  - cbn [app assign_layers List.length]. inversion Hnd; subst.
    rewrite assign_layers_notin by assumption.
    rewrite store_panel_at_same by exact Ha.
    rewrite set_layer_layer. cbn. lia.
  - cbn [app assign_layers]. inversion Hnd; subst.
    rewrite IH; auto.
    + cbn [List.length]. lia.
    + rewrite store_objects_length. exact Ha.
Qed.

Lemma insert_ref_by_layer_In self a b l :
  In b (insert_ref_by_layer self a l) <-> b = a \/ In b l.
Proof.
  induction l as [|c l IH]; cbn.
  - intuition congruence.
  - destruct (layer (panel_at self a) <=? layer (panel_at self c))%Z; cbn.
    + intuition congruence.
    + rewrite IH. intuition congruence.
Qed.

Lemma sorted_refs_by_layer_In self b l :
  In b (sorted_refs_by_layer self l) <-> In b l.
Proof.
  induction l as [|a l IH]; cbn; [tauto|].
  fold (sorted_refs_by_layer self l).
  rewrite insert_ref_by_layer_In, IH. intuition congruence.
Qed.

Lemma insert_ref_by_layer_NoDup self a l :
  ~ In a l -> NoDup l -> NoDup (insert_ref_by_layer self a l).
Proof.
  induction l as [|c l IH]; cbn; intros Ha Hnd.
  - constructor; auto.
  - destruct (layer (panel_at self a) <=? layer (panel_at self c))%Z.
    + constructor; auto.
    + inversion Hnd; subst. constructor.
      * rewrite insert_ref_by_layer_In. intuition congruence.
      * apply IH; auto.
Qed.

Lemma sorted_refs_by_layer_NoDup self l :
  NoDup l -> NoDup (sorted_refs_by_layer self l).
Proof.
  induction l as [|a l IH]; cbn; intros Hnd; [constructor|].
  inversion Hnd; subst. fold (sorted_refs_by_layer self l).
  apply insert_ref_by_layer_NoDup; auto.
  rewrite sorted_refs_by_layer_In. assumption.
Qed.

Lemma insert_ref_by_layer_length self a l :
  List.length (insert_ref_by_layer self a l) = S (List.length l).
Proof.
  induction l as [|c l IH]; cbn; auto.
  destruct (layer (panel_at self a) <=? layer (panel_at self c))%Z; cbn; auto.
Qed.

Lemma sorted_refs_by_layer_length self l :
  List.length (sorted_refs_by_layer self l) = List.length l.
Proof.
  induction l as [|a l IH]; cbn; auto.
  fold (sorted_refs_by_layer self l).
  rewrite insert_ref_by_layer_length, IH. reflexivity.
Qed.

Lemma insert_ref_by_layer_ascending self a l :
  ascending self l -> ascending self (insert_ref_by_layer self a l).
Proof.
  induction l as [|c l IH]; cbn; [tauto|].
  intros [Hc Hl].
  destruct (layer (panel_at self a) <=? layer (panel_at self c))%Z eqn:E.
  - apply Z.leb_le in E. cbn. repeat split; auto.
    intros b [<-|Hb]; [exact E|]. specialize (Hc b Hb). lia.
  - apply Z.leb_gt in E. cbn. split; [|auto].
    intros b Hb. apply insert_ref_by_layer_In in Hb.
    destruct Hb as [->|Hb]; [lia|auto].
Qed.

Lemma sorted_refs_by_layer_ascending self l :
  ascending self (sorted_refs_by_layer self l).
Proof.
  induction l as [|a l IH]; cbn; [exact I|].
  apply insert_ref_by_layer_ascending, IH.
Qed.

Lemma ascending_split self l1 b l2 :
  ascending self (l1 ++ b :: l2) ->
  forall a, In a l2 -> (layer (panel_at self b) <= layer (panel_at self a))%Z.
Proof.
  induction l1 as [|c l1 IH]; cbn.
  - intros [H _]. exact H.
  - intros [_ H]. apply IH, H.
Qed.

Lemma normalize_layers_spec self :
  panels_distinct self ->
  panels_allocated self ->
  let s' := _normalize_layers self in
  let n := Z.of_nat (List.length (panels self)) in
  panels s' = panels self
  /\ (forall a, set_layer (panel_at s' a) 0 = set_layer (panel_at self a) 0)
  /\ (forall a, In a (panels self) ->
        (0 <= layer (panel_at s' a) < n)%Z)
  /\ (forall a b, In a (panels self) -> In b (panels self) -> a <> b ->
        layer (panel_at s' a) <> layer (panel_at s' b))
  /\ (forall a b, In a (panels self) -> In b (panels self) ->
        (layer (panel_at self a) < layer (panel_at self b))%Z ->
        (layer (panel_at s' a) < layer (panel_at s' b))%Z).
Proof.
  intros Hnd Hal s' n. unfold _normalize_layers in s'.
  set (ordered := sorted_refs_by_layer self (panels self)) in *.
  assert (Hond : NoDup ordered)
    by (apply sorted_refs_by_layer_NoDup; exact Hnd).
  assert (Hoin : forall a, In a ordered <-> In a (panels self))
    by (intros a; apply sorted_refs_by_layer_In).
  assert (Holen : List.length ordered = List.length (panels self))
    by apply sorted_refs_by_layer_length.
  assert (Hasc : ascending self ordered)
    by apply sorted_refs_by_layer_ascending.
  assert (Halloc : forall a, In a (panels self) ->
                   (a < List.length (objects self))%nat).
  { unfold panels_allocated in Hal. rewrite Forall_forall in Hal. exact Hal. }
  assert (Hpos : forall l1 a l2, ordered = l1 ++ a :: l2 ->
                 layer (panel_at s' a) = Z.of_nat (List.length l1)).
  { intros l1 a l2 E. unfold s'. rewrite E.
    rewrite assign_layers_at.
    - reflexivity.
    - pose proof Hond as Hnd'. rewrite E in Hnd'. exact Hnd'.
    - apply Halloc, Hoin. rewrite E. apply in_elt. }
  split; [apply assign_layers_panels|].
  split; [intros a; apply assign_layers_other_fields|].
  split; [|split].
  - intros a Ha. apply Hoin in Ha. destruct (in_split _ _ Ha) as (l1 & l2 & E).
    rewrite (Hpos _ _ _ E). unfold n. rewrite <- Holen, E, length_app.
    cbn [List.length]. lia.
  - intros a b Ha Hb Hab.
    apply Hoin in Hb. destruct (in_split _ _ Hb) as (l1 & l2 & E).
    rewrite (Hpos _ _ _ E).
    apply Hoin in Ha. rewrite E in Ha. apply in_app_or in Ha.
    destruct Ha as [Ha|[Ha|Ha]]; [|congruence|].
    + destruct (in_split _ _ Ha) as (m1 & m2 & E1).
      rewrite E1, <- app_assoc in E. cbn [app] in E.
      rewrite (Hpos _ _ _ E), E1, length_app. cbn [List.length]. lia.
    + destruct (in_split _ _ Ha) as (m1 & m2 & E2).
      assert (E' : ordered = (l1 ++ b :: m1) ++ a :: m2).
      { rewrite E, E2, <- app_assoc. reflexivity. }
      rewrite (Hpos _ _ _ E'), length_app. cbn [List.length]. lia.
  - intros a b Ha Hb Hlt.
    apply Hoin in Hb. destruct (in_split _ _ Hb) as (l1 & l2 & E).
    rewrite (Hpos _ _ _ E).
    apply Hoin in Ha. rewrite E in Ha. apply in_app_or in Ha.
    destruct Ha as [Ha|[Ha|Ha]].
    + destruct (in_split _ _ Ha) as (m1 & m2 & E1).
      rewrite E1, <- app_assoc in E. cbn [app] in E.
      rewrite (Hpos _ _ _ E), E1, length_app. cbn [List.length]. lia.
    + subst a. lia.
    + rewrite E in Hasc. pose proof (ascending_split _ _ _ _ Hasc a Ha). lia.
Qed.


(** X13. [_normalize_layers] renumbers the layers of the panels of the page:
    the new layers are distinct numbers from 0 to the number of panels
    less one, a panel that was on a lower layer than another one stays on
    a lower layer, and no other field of any panel changes. *)
Theorem normalize_layers_renumbers self :
  panels_distinct self ->
  panels_allocated self ->
  let s' := _normalize_layers self in
  let n := Z.of_nat (List.length (panels self)) in
  panels s' = panels self
  /\ (forall a, set_layer (panel_at s' a) 0 = set_layer (panel_at self a) 0)
  /\ (forall a, In a (panels self) ->
        (0 <= layer (panel_at s' a) < n)%Z)
  /\ (forall a b, In a (panels self) -> In b (panels self) -> a <> b ->
        layer (panel_at s' a) <> layer (panel_at s' b))
  /\ (forall a b, In a (panels self) -> In b (panels self) ->
        (layer (panel_at self a) < layer (panel_at self b))%Z ->
        (layer (panel_at s' a) < layer (panel_at s' b))%Z).
Proof. exact (normalize_layers_spec self). Qed.

Lemma normalize_layers_renumbers_witness :
  panels (_normalize_layers two_panel_page) = panels two_panel_page.
Proof.
  destruct (normalize_layers_renumbers two_panel_page) as (H & _).
  - unfold panels_distinct. vm_compute. repeat constructor; cbn; intuition lia.
  - unfold panels_allocated. vm_compute. repeat constructor.
  - exact H.
Defined.

Lemma fold_min_le (l : list Z) : forall v,
  (fold_left Z.min l v <= v)%Z
  /\ forall z, In z l -> (fold_left Z.min l v <= z)%Z.
Proof.
  induction l as [|a l IH]; intros v; cbn.
  - split; [lia|tauto].
  - destruct (IH (Z.min v a)) as (H1 & H2). split; [lia|].
    intros z [<-|Hz]; [lia|auto].
Qed.

Lemma min_layer_below ps p :
  In p ps -> exists bottom, min_layer ps = Ok bottom /\ (bottom <= layer p)%Z.
Proof.
  destruct ps as [|q rest]; [intros []|]. cbn [min_layer].
  destruct (fold_min_le (map layer rest) (layer q)) as (H1 & H2).
  intros Hin. eexists. split; [reflexivity|].
  destruct Hin as [<-|Hp]; [lia|].
  apply H2, in_map, Hp.
Qed.

(** X14. [bring_to_front] on a panel of the page returns with that panel on a
    layer strictly above every other panel of the page. The other panels
    keep their order from bottom to top, the panel list is the same, and no
    field of any panel other than the layer changes. *)
Theorem bring_to_front_puts_panel_on_top self panel :
  panels_distinct self ->
  panels_allocated self ->
  In panel (panels self) ->
  exists s',
    bring_to_front self panel = Ok s'
    /\ panels s' = panels self
    /\ (forall b, In b (panels self) -> b <> panel ->
          (layer (panel_at s' b) < layer (panel_at s' panel))%Z)
    /\ (forall a b, In a (panels self) -> In b (panels self) ->
          a <> panel -> b <> panel ->
          (layer (panel_at self a) < layer (panel_at self b))%Z ->
          (layer (panel_at s' a) < layer (panel_at s' b))%Z)
    /\ (forall a, set_layer (panel_at s' a) 0
                  = set_layer (panel_at self a) 0).
Proof.
  intros Hnd Hal Hin.
  destruct (normalize_layers_spec self Hnd Hal)
    as (Hpan & Hfields & _ & Hdist & Hord).
  unfold bring_to_front.
  set (s1 := _normalize_layers self) in *.
  assert (Hall : forall b, In b (panels self) ->
                 exists top, max_layer (panel_list s1) = Ok top
                             /\ (layer (panel_at s1 b) <= top)%Z).
  { intros b Hb. apply max_layer_above. unfold panel_list.
    rewrite Hpan. apply in_map, Hb. }
  destruct (Hall panel Hin) as (top & Htop & Hle).
  rewrite Htop. cbn [bind].
  assert (Hlen : (panel < List.length (objects s1))%nat).
  { unfold s1, _normalize_layers. rewrite assign_layers_objects_length.
    unfold panels_allocated in Hal. rewrite Forall_forall in Hal. auto. }
  destruct (layer (panel_at s1 panel) <? top)%Z eqn:E.
  - eexists. split; [reflexivity|].
    assert (Hat : forall b, panel_at
                    (set_project_modified
                       (save_history_state
                          (store s1 panel (fun p => set_layer p (top + 1))))
                       true) b
                  = panel_at (store s1 panel
                                (fun p => set_layer p (top + 1))) b)
      by reflexivity.
    split; [exact Hpan|]. split; [|split].
    + intros b Hb Hne. rewrite !Hat.
      rewrite store_panel_at_same by exact Hlen.
      rewrite store_panel_at_other by exact Hne.
      rewrite set_layer_layer.
      destruct (Hall b Hb) as (top' & Htop' & Hle').
      rewrite Htop in Htop'. injection Htop' as <-. lia.
    + intros a b Ha Hb Hna Hnb Hlt. rewrite !Hat.
      rewrite !store_panel_at_other by assumption. auto.
    + intros a. rewrite Hat. rewrite <- Hfields.
      destruct (Nat.eq_dec a panel) as [->|Hne].
      * rewrite store_panel_at_same by exact Hlen. apply set_layer_twice.
      * rewrite store_panel_at_other by exact Hne. reflexivity.
  - apply Z.ltb_ge in E. eexists. split; [reflexivity|].
    split; [exact Hpan|]. split; [|split].
    + intros b Hb Hne.
      destruct (Hall b Hb) as (top' & Htop' & Hle').
      rewrite Htop in Htop'. injection Htop' as <-.
      pose proof (Hdist b panel Hb Hin Hne). lia.
    + intros a b Ha Hb _ _. apply Hord; assumption.
    + exact Hfields.
Qed.

Lemma bring_to_front_puts_panel_on_top_witness :
  exists s',
    bring_to_front two_panel_page 0%nat = Ok s'
    /\ panels s' = panels two_panel_page.
Proof.
  destruct (bring_to_front_puts_panel_on_top two_panel_page 0%nat)
    as (s' & H1 & H2 & _).
  - unfold panels_distinct. vm_compute. repeat constructor; cbn; intuition lia.
  - unfold panels_allocated. vm_compute. repeat constructor.
  - vm_compute. auto.
  - exists s'. split; [exact H1|exact H2].
Defined.

(** X15. [send_to_back] on a panel of the page returns with that panel on a
    layer strictly below every other panel of the page. The other panels
    keep their order from bottom to top, the panel list is the same, and no
    field of any panel other than the layer changes. *)
Theorem send_to_back_puts_panel_at_bottom self panel :
  panels_distinct self ->
  panels_allocated self ->
  In panel (panels self) ->
  exists s',
    send_to_back self panel = Ok s'
    /\ panels s' = panels self
    /\ (forall b, In b (panels self) -> b <> panel ->
          (layer (panel_at s' panel) < layer (panel_at s' b))%Z)
    /\ (forall a b, In a (panels self) -> In b (panels self) ->
          a <> panel -> b <> panel ->
          (layer (panel_at self a) < layer (panel_at self b))%Z ->
          (layer (panel_at s' a) < layer (panel_at s' b))%Z)
    /\ (forall a, set_layer (panel_at s' a) 0
                  = set_layer (panel_at self a) 0).
Proof.
  intros Hnd Hal Hin.
  destruct (normalize_layers_spec self Hnd Hal)
    as (Hpan & Hfields & _ & Hdist & Hord).
  unfold send_to_back.
  set (s1 := _normalize_layers self) in *.
  assert (Hall : forall b, In b (panels self) ->
                 exists bottom, min_layer (panel_list s1) = Ok bottom
                                /\ (bottom <= layer (panel_at s1 b))%Z).
  { intros b Hb. apply min_layer_below. unfold panel_list.
    rewrite Hpan. apply in_map, Hb. }
  destruct (Hall panel Hin) as (bottom & Hbot & Hle).
  rewrite Hbot. cbn [bind].
  assert (Hlen : (panel < List.length (objects s1))%nat).
  { unfold s1, _normalize_layers. rewrite assign_layers_objects_length.
    unfold panels_allocated in Hal. rewrite Forall_forall in Hal. auto. }
  destruct (bottom <? layer (panel_at s1 panel))%Z eqn:E.
  - eexists. split; [reflexivity|].
    assert (Hat : forall b, panel_at
                    (set_project_modified
                       (save_history_state
                          (store s1 panel (fun p => set_layer p (bottom - 1))))
                       true) b
                  = panel_at (store s1 panel
                                (fun p => set_layer p (bottom - 1))) b)
      by reflexivity.
    split; [exact Hpan|]. split; [|split].
    + intros b Hb Hne. rewrite !Hat.
      rewrite store_panel_at_same by exact Hlen.
      rewrite store_panel_at_other by exact Hne.
      rewrite set_layer_layer.
      destruct (Hall b Hb) as (bottom' & Hbot' & Hle').
      rewrite Hbot in Hbot'. injection Hbot' as <-. lia.
    + intros a b Ha Hb Hna Hnb Hlt. rewrite !Hat.
      rewrite !store_panel_at_other by assumption. auto.
    + intros a. rewrite Hat. rewrite <- Hfields.
      destruct (Nat.eq_dec a panel) as [->|Hne].
      * rewrite store_panel_at_same by exact Hlen. apply set_layer_twice.
      * rewrite store_panel_at_other by exact Hne. reflexivity.
  - apply Z.ltb_ge in E. eexists. split; [reflexivity|].
    split; [exact Hpan|]. split; [|split].
    + intros b Hb Hne.
      destruct (Hall b Hb) as (bottom' & Hbot' & Hle').
      rewrite Hbot in Hbot'. injection Hbot' as <-.
      pose proof (Hdist b panel Hb Hin Hne). lia.
    + intros a b Ha Hb _ _. apply Hord; assumption.
    + exact Hfields.
Qed.

Lemma send_to_back_puts_panel_at_bottom_witness :
  exists s',
    send_to_back two_panel_page 1%nat = Ok s'
    /\ panels s' = panels two_panel_page.
Proof.
  destruct (send_to_back_puts_panel_at_bottom two_panel_page 1%nat)
    as (s' & H1 & H2 & _).
  - unfold panels_distinct. vm_compute. repeat constructor; cbn; intuition lia.
  - unfold panels_allocated. vm_compute. repeat constructor.
  - vm_compute. auto.
  - exists s'. split; [exact H1|exact H2].
Defined.

(** ** Deleting and clearing *)

Lemma Panel_eqb_id p q : Panel_eqb p q = true -> id p = id q.
Proof.
  unfold Panel_eqb. rewrite !andb_true_iff.
  intros H. repeat match type of H with _ /\ _ => destruct H as [H _] end.
  apply String.eqb_eq, H.
Qed.

Lemma filter_all_true {A} (l : list A) : filter (fun _ => true) l = l.
Proof. induction l; cbn; congruence. Qed.

Lemma panel_in_In self a l :
  ids_distinct self (a :: l) ->
  panel_in self a l = true <-> In a l.
Proof.
  intros Hid. unfold panel_in. rewrite existsb_exists. split.
  - intros (b & Hb & H). apply orb_true_iff in H. destruct H as [H|H].
    + apply Nat.eqb_eq in H. subst. exact Hb.
    + apply Panel_eqb_id in H.
      rewrite (Hid a b); auto; [left; reflexivity|right; exact Hb].
  - intros Ha. exists a. split; [exact Ha|].
    rewrite Nat.eqb_refl. reflexivity.
Qed.

Lemma remove_panel_filter self a l :
  NoDup l -> ids_distinct self (a :: l) ->
  remove_panel self a l = filter (not_among [a]) l.
Proof.
  intros Hnd Hid. induction l as [|b l IH]; [reflexivity|].
  inversion Hnd as [|? ? Hnb Hnd']; subst. cbn [remove_panel filter].
  unfold not_among at 1. cbn [existsb]. rewrite orb_false_r.
  destruct (Nat.eqb a b || Panel_eqb (panel_at self a) (panel_at self b))
    eqn:E.
  - assert (a = b).
    { apply orb_true_iff in E. destruct E as [E|E].
      - apply Nat.eqb_eq, E.
      - apply Panel_eqb_id in E. apply Hid; auto;
          [left; reflexivity|right; left; reflexivity]. }
    subst b. rewrite Nat.eqb_refl. cbn [negb].
    symmetry. rewrite <- (filter_ext_in (fun _ => true)).
    + apply filter_all_true.
    + intros c Hc. unfold not_among. cbn [existsb]. rewrite orb_false_r.
      destruct (Nat.eqb c a) eqn:Eca; [|reflexivity].
      apply Nat.eqb_eq in Eca. subst. contradiction.
  - apply orb_false_iff in E. destruct E as [E _].
    rewrite Nat.eqb_sym in E. rewrite E. cbn [negb]. f_equal.
    apply IH; auto.
    intros c d Hc Hd. apply Hid.
    + destruct Hc as [<-|Hc]; [left; reflexivity|right; right; exact Hc].
    + destruct Hd as [<-|Hd]; [left; reflexivity|right; right; exact Hd].
Qed.

Lemma not_among_cons a refs b :
  not_among (a :: refs) b = negb (Nat.eqb b a) && not_among refs b.
Proof. unfold not_among. cbn [existsb]. apply negb_orb. Qed.

Lemma filter_not_among_cons a refs (l : list addr) :
  filter (not_among refs) (filter (not_among [a]) l)
  = filter (not_among (a :: refs)) l.
Proof.
  induction l as [|b l IH]; [reflexivity|]. cbn [filter].
  rewrite (not_among_cons a refs b), (not_among_cons a [] b).
  change (not_among [] b) with true. rewrite andb_true_r.
  destruct (Nat.eqb b a); cbn [negb andb filter]; [exact IH|].
  destruct (not_among refs b); rewrite IH; reflexivity.
Qed.

Lemma filter_not_among_absent a refs (l : list addr) :
  ~ In a l ->
  filter (not_among (a :: refs)) l = filter (not_among refs) l.
Proof.
  intros Ha. apply filter_ext_in. intros b Hb.
  unfold not_among. cbn [existsb].
  destruct (Nat.eqb b a) eqn:E; [|reflexivity].
  apply Nat.eqb_eq in E. subst. contradiction.
Qed.

Lemma set_panels_same self : set_panels self (panels self) = self.
Proof. destruct self; reflexivity. Qed.

Lemma set_panels_twice self l l' :
  set_panels (set_panels self l) l' = set_panels self l'.
Proof. reflexivity. Qed.

Lemma commit_and_mark s :
  last (undo_stack (set_project_modified (save_history_state s) true)) []
  = panel_list (set_project_modified (save_history_state s) true).
Proof. apply (save_history_state_top s). Qed.

(** The loop of [delete_selected] takes out of the panel list exactly the
    references it runs over, and touches nothing else. *)
Lemma delete_loop_spec refs : forall self ids,
  NoDup (panels self) ->
  ids_distinct self (panels self ++ refs) ->
  fst (delete_loop self refs ids)
  = set_panels self (filter (not_among refs) (panels self)).
Proof.
  induction refs as [|a refs IH]; intros self ids Hnd Hid.
  - cbn [delete_loop fst]. unfold not_among. cbn [existsb negb].
    rewrite <- (set_panels_same self) at 1. f_equal.
    symmetry. apply filter_all_true.
  - cbn [delete_loop].
    assert (Hida : ids_distinct self (a :: panels self)).
    { intros c d Hc Hd. apply Hid.
      - destruct Hc as [<-|Hc]; apply in_or_app;
          [right; left; reflexivity|left; exact Hc].
      - destruct Hd as [<-|Hd]; apply in_or_app;
          [right; left; reflexivity|left; exact Hd]. }
    destruct (panel_in self a (panels self)) eqn:E.
    + rewrite IH.
      * cbn [panels set_panels]. rewrite set_panels_twice.
        rewrite (remove_panel_filter self a (panels self) Hnd Hida).
        rewrite filter_not_among_cons. reflexivity.
      * cbn [panels set_panels].
        rewrite (remove_panel_filter self a (panels self) Hnd Hida).
        apply NoDup_filter, Hnd.
      * cbn [panels set_panels].
        rewrite (remove_panel_filter self a (panels self) Hnd Hida).
        intros c d Hc Hd.
        change (panel_at (set_panels self ?l) ?x) with (panel_at self x).
        apply Hid.
        -- apply in_app_or in Hc. apply in_or_app.
           destruct Hc as [Hc|Hc];
             [left; apply filter_In in Hc; tauto|right; right; exact Hc].
        -- apply in_app_or in Hd. apply in_or_app.
           destruct Hd as [Hd|Hd];
             [left; apply filter_In in Hd; tauto|right; right; exact Hd].
    + rewrite IH; auto.
      * rewrite filter_not_among_absent; [reflexivity|].
        intros Ha. apply (panel_in_In self a (panels self) Hida) in Ha.
        congruence.
      * intros c d Hc Hd. apply Hid.
        -- apply in_app_or in Hc. apply in_or_app.
           destruct Hc as [Hc|Hc]; [left; exact Hc|right; right; exact Hc].
        -- apply in_app_or in Hd. apply in_or_app.
           destruct Hd as [Hd|Hd]; [left; exact Hd|right; right; exact Hd].
Qed.

(** X16. [delete_selected] with an empty selection does nothing. Otherwise it
    takes exactly the selected panels out of the panel list, keeping the
    others in their order and unchanged, empties the selection, commits
    and marks the project as modified. *)
Theorem delete_selected_removes_selection self :
  NoDup (panels self) ->
  ids_distinct self (panels self ++ selected_panels self) ->
  let s' := delete_selected self in
  match selected_panels self with
  | [] => s' = self
  | _ :: _ =>
      panels s' = filter (not_among (selected_panels self)) (panels self)
      /\ (forall b, In b (panels s') -> panel_at s' b = panel_at self b)
      /\ selected_panels s' = []
      /\ last (undo_stack s') [] = panel_list s'
      /\ redo_stack s' = []
      /\ project_modified s' = true
  end.
Proof.
  intros Hnd Hid. cbv zeta. unfold delete_selected.
  destruct (selected_panels self) as [|a0 rest] eqn:Esel; [reflexivity|].
  rewrite <- Esel in *.
  pose proof (delete_loop_spec (selected_panels self) self [] Hnd Hid) as Hl.
  destruct (delete_loop self (selected_panels self) []) as [s1 ids].
  cbn [fst] in Hl. subst s1.
  set (kept := filter (not_among (selected_panels self)) (panels self)).
  set (s1 := set_panels self kept).
  set (s2 := match image_editing_panel s1 with
             | Some a =>
                 if existsb (String.eqb (id (panel_at s1 a))) ids
                 then set_image_editing_panel s1 None else s1
             | None => s1
             end).
  assert (H2 : panels s2 = kept /\ objects s2 = objects self
               /\ selected_panels s2 = selected_panels self).
  { unfold s2. destruct (image_editing_panel s1) as [e|];
      [destruct (existsb _ ids)|]; repeat split; reflexivity. }
  destruct H2 as (Hp2 & Ho2 & Hs2).
  set (s' := set_project_modified (save_history_state (clear_selection s2))
               true).
  assert (Hp' : panels s' = kept).
  { unfold s'. rewrite clear_selection_spec. exact Hp2. }
  split; [exact Hp'|]. split; [|split; [|split; [|split]]].
  - intros b Hb. rewrite Hp' in Hb. apply filter_In in Hb.
    destruct Hb as [_ Hb]. unfold s'. rewrite clear_selection_spec.
    unfold panel_at. cbn [objects set_project_modified save_history_state
                            set_undo_stack set_redo_stack
                            set_selection_handles set_selected_panels
                            set_objects].
    rewrite Hs2, Ho2. apply fold_update_nth_unselected.
    intros Hin. unfold not_among in Hb. apply negb_true_iff in Hb.
    assert (existsb (Nat.eqb b) (selected_panels self) = true);
      [|congruence].
    apply existsb_exists. exists b. split; [exact Hin|apply Nat.eqb_refl].
  - unfold s'. rewrite clear_selection_spec. reflexivity.
  - apply (commit_and_mark (clear_selection s2)).
  - reflexivity.
  - reflexivity.
Qed.

Lemma delete_selected_removes_selection_witness :
  panels (delete_selected two_panel_page)
  = filter (not_among (selected_panels two_panel_page))
      (panels two_panel_page).
Proof.
  destruct (delete_selected_removes_selection two_panel_page) as (H & _).
  - vm_compute. repeat constructor; cbn; intuition lia.
  - intros a b Ha Hb. vm_compute in Ha, Hb.
    intuition (subst; try reflexivity; vm_compute in *; discriminate).
  - exact H.
Defined.

(** X17. [clear_page] empties the page and starts the history over with the
    empty page as its only snapshot: afterwards neither an undo nor a redo
    changes anything, so a cleared page cannot be brought back. *)
Theorem clear_page_resets_history os_path_exists self :
  let s' := clear_page self in
  panel_list s' = []
  /\ selected_panels s' = []
  /\ undo_stack s' = [[]]
  /\ redo_stack s' = []
  /\ image_editing_panel s' = None
  /\ undo_action os_path_exists s' = (false, s')
  /\ redo_action os_path_exists s' = (false, s').
Proof.
  cbv zeta.
  assert (Hu : undo_stack (clear_page self) = [[]]) by reflexivity.
  split; [reflexivity|]. split; [reflexivity|]. split; [exact Hu|].
  split; [reflexivity|]. split; [reflexivity|]. split.
  - apply undo_action_noop. rewrite Hu. cbn. lia.
  - apply redo_action_noop. reflexivity.
Qed.

(** ** Selecting all *)

Lemma set_selected_id p b : id (set_selected p b) = id p.
Proof. destruct p; reflexivity. Qed.

Lemma deselected_same_id p q :
  set_selected p false = set_selected q false -> id p = id q.
Proof.
  intros H. apply (f_equal id) in H. rewrite !set_selected_id in H. exact H.
Qed.

(** A run of [select_panel] over distinct panels that are not selected
    yet appends all of them to the selection. *)
Lemma select_fold_spec l : forall s,
  NoDup (selected_panels s ++ l) ->
  ids_distinct s (selected_panels s ++ l) ->
  (forall a, In a l -> (a < List.length (objects s))%nat) ->
  let s' := fold_left select_panel l s in
  selected_panels s' = selected_panels s ++ l
  /\ (forall a, In a l -> selected (panel_at s' a) = true)
  /\ (forall a, ~ In a l -> panel_at s' a = panel_at s a)
  /\ (forall a, set_selected (panel_at s' a) false
                = set_selected (panel_at s a) false)
  /\ panels s' = panels s
  /\ undo_stack s' = undo_stack s
  /\ redo_stack s' = redo_stack s.
Proof.
  induction l as [|a l IH]; intros s Hnd Hid Hal; cbv zeta.
  - cbn [fold_left]. rewrite app_nil_r.
    split; [reflexivity|]. split; [intros a []|]. repeat split; reflexivity.
  - cbn [fold_left].
    assert (Hna : ~ In a (selected_panels s)).
    { intros Hin. apply NoDup_remove_2 in Hnd. apply Hnd.
      apply in_or_app. left. exact Hin. }
    assert (Hpin : panel_in s a (selected_panels s) = false).
    { apply not_true_is_false. intros Hp. apply Hna.
      apply (panel_in_In s a (selected_panels s)); [|exact Hp].
      intros c d Hc Hd. apply Hid.
      - destruct Hc as [<-|Hc]; apply in_or_app;
          [right; left; reflexivity|left; exact Hc].
      - destruct Hd as [<-|Hd]; apply in_or_app;
          [right; left; reflexivity|left; exact Hd]. }
    assert (Hsel : select_panel s a
                   = set_selected_panels
                       (store s a (fun p => set_selected p true))
                       (selected_panels s ++ [a])).
    { unfold select_panel. rewrite Hpin. reflexivity. }
    rewrite Hsel. clear Hsel.
    set (s1 := set_selected_panels
                 (store s a (fun p => set_selected p true))
                 (selected_panels s ++ [a])).
    assert (Hs1 : selected_panels s1 = selected_panels s ++ [a])
      by reflexivity.
    assert (Hat1 : forall b, panel_at s1 b
                   = panel_at (store s a (fun p => set_selected p true)) b)
      by reflexivity.
    assert (Ha : (a < List.length (objects s))%nat)
      by (apply Hal; left; reflexivity).
    assert (Hsame : forall b, set_selected (panel_at s1 b) false
                              = set_selected (panel_at s b) false).
    { intros b. rewrite Hat1. destruct (Nat.eq_dec b a) as [->|Hne].
      - rewrite store_panel_at_same by exact Ha. apply set_selected_twice.
      - rewrite store_panel_at_other by exact Hne. reflexivity. }
    destruct (IH s1) as (H1 & H2 & H3 & H4 & H5 & H6 & H7).
    + rewrite Hs1, <- app_assoc. exact Hnd.
    + rewrite Hs1, <- app_assoc. intros c d Hc Hd Hcd.
      apply Hid; auto.
      rewrite <- (deselected_same_id _ _ (Hsame c)).
      rewrite <- (deselected_same_id _ _ (Hsame d)). exact Hcd.
    + intros b Hb. unfold s1.
      change (objects (set_selected_panels ?x ?y)) with (objects x).
      rewrite store_objects_length. apply Hal. right. exact Hb.
    + rewrite H1, Hs1, <- app_assoc.
      split; [reflexivity|]. split; [|split; [|split; [|split; [|split]]]].
      * intros b [<-|Hb]; [|apply H2, Hb].
        rewrite H3.
        -- rewrite Hat1, store_panel_at_same by exact Ha.
           destruct (panel_at s a); reflexivity.
        -- apply NoDup_remove_2 in Hnd. intros Hin. apply Hnd.
           apply in_or_app. right. exact Hin.
      * intros b Hb. rewrite H3 by (intros Hin; apply Hb; right; exact Hin).
        rewrite Hat1. apply store_panel_at_other.
        intros ->. apply Hb. left. reflexivity.
      * intros b. rewrite H4. apply Hsame.
      * rewrite H5. reflexivity.
      * rewrite H6. reflexivity.
      * rewrite H7. reflexivity.
Qed.

(** X18. [select_all] selects every panel of the page, in the order of the
    panel list, and sets its selection flag; it changes no other field of
    any panel, neither the panel list nor the history. *)
Theorem select_all_selects_every_panel self :
  NoDup (panels self) ->
  panels_allocated self ->
  ids_distinct self (panels self) ->
  let s' := select_all self in
  selected_panels s' = panels self
  /\ (forall a, In a (panels self) -> selected (panel_at s' a) = true)
  /\ (forall a, set_selected (panel_at s' a) false
                = set_selected (panel_at self a) false)
  /\ panels s' = panels self
  /\ undo_stack s' = undo_stack self
  /\ redo_stack s' = redo_stack self.
Proof.
  intros Hnd Hal Hid. cbv zeta. unfold select_all.
  set (s0 := clear_selection self).
  assert (Hp0 : panels s0 = panels self)
    by (unfold s0; rewrite clear_selection_spec; reflexivity).
  assert (Hs0 : selected_panels s0 = [])
    by (unfold s0; rewrite clear_selection_spec; reflexivity).
  assert (Hu0 : undo_stack s0 = undo_stack self
                /\ redo_stack s0 = redo_stack self)
    by (unfold s0; rewrite clear_selection_spec; split; reflexivity).
  assert (Ho0 : objects s0
                = fold_left
                    (fun objs a =>
                       update_at a (fun p => set_selected p false) objs)
                    (selected_panels self) (objects self))
    by (unfold s0; rewrite clear_selection_spec; reflexivity).
  assert (Hsame0 : forall a, set_selected (panel_at s0 a) false
                             = set_selected (panel_at self a) false).
  { intros a. unfold panel_at. rewrite Ho0.
    apply fold_update_nth_deselect. }
  destruct (select_fold_spec (panels s0) s0)
    as (H1 & H2 & _ & H4 & H5 & H6 & H7).
  - rewrite Hs0, Hp0. exact Hnd.
  - rewrite Hs0, Hp0. cbn [app]. intros c d Hc Hd Hcd. apply Hid; auto.
    rewrite <- (deselected_same_id _ _ (Hsame0 c)).
    rewrite <- (deselected_same_id _ _ (Hsame0 d)). exact Hcd.
  - intros a Ha. rewrite Ho0, fold_update_length.
    unfold panels_allocated in Hal. rewrite Forall_forall in Hal.
    apply Hal. rewrite <- Hp0. exact Ha.
  - rewrite Hs0, Hp0 in *. cbn [app] in H1. destruct Hu0 as (Hu & Hr).
    split; [exact H1|]. split; [exact H2|].
    split; [intros a; rewrite H4; apply Hsame0|].
    split; [exact H5|]. split; congruence.
Qed.

Lemma select_all_selects_every_panel_witness :
  selected_panels (select_all two_panel_page) = panels two_panel_page.
Proof.
  destruct (select_all_selects_every_panel two_panel_page) as (H & _).
  - vm_compute. repeat constructor; cbn; intuition lia.
  - unfold panels_allocated. vm_compute. repeat constructor.
  - intros a b Ha Hb. vm_compute in Ha, Hb.
    intuition (subst; try reflexivity; vm_compute in *; discriminate).
  - exact H.
Defined.

(** ** Moving by dragging *)

Lemma fold_update_nth_idem g refs : forall objs i d,
  (forall p, g (g p) = g p) ->
  (i < List.length objs)%nat ->
  nth i (fold_left (fun objs a => update_at a g objs) refs objs) d
  = if existsb (Nat.eqb i) refs then g (nth i objs d) else nth i objs d.
Proof.
  induction refs as [|a refs IH]; intros objs i d Hg Hi; [reflexivity|].
  cbn [fold_left existsb].
  rewrite IH by (auto; rewrite update_at_length; exact Hi).
  destruct (Nat.eqb i a) eqn:E.
  - apply Nat.eqb_eq in E. subst a. cbn [orb].
    rewrite update_at_nth_same by exact Hi.
    destruct (existsb (Nat.eqb i) refs); [apply Hg|reflexivity].
  - apply Nat.eqb_neq in E. cbn [orb].
    rewrite update_at_nth_other by exact E. reflexivity.
Qed.

Lemma drag_move_panel_last self dx dy dx' dy' p :
  drag_move_panel self dx dy (drag_move_panel self dx' dy' p)
  = drag_move_panel self dx dy p.
Proof.
  unfold drag_move_panel.
  destruct (dict_get (id p) (panel_drag_initial_states self))
    as [[[[ix iy] pw] ph]|] eqn:E; [|rewrite E; reflexivity].
  destruct (snap_to_grid_coords self _ _) as [nx' ny'].
  replace (id (set_y (set_x p nx') ny')) with (id p)
    by (destruct p; reflexivity).
  rewrite E.
  destruct (snap_to_grid_coords self _ _) as [nx ny].
  destruct p; reflexivity.
Qed.

Lemma on_mouse_drag_move math_cos math_sin math_atan2 self event :
  dragging self = true ->
  drag_mode self = Some "move"%string ->
  on_mouse_drag math_cos math_sin math_atan2 self event
  = ' (current_page_x, current_page_y) <-
      screen_to_page self (inject_Z (ev_x event)) (inject_Z (ev_y event)) ;;
    Ok (fold_left
          (fun s a =>
             store s a
               (drag_move_panel self
                  (current_page_x - fst (page_drag_start_coords self))
                  (current_page_y - snd (page_drag_start_coords self))))
          (selected_panels self) self).
Proof.
  intros Hd Hm. unfold on_mouse_drag, drag_mode_is. rewrite Hd, Hm.
  cbn [negb].
  destruct (screen_to_page self _ _) as [[cx cy]|e]; [|reflexivity].
  cbn [bind]. cbn [String.eqb Ascii.eqb Bool.eqb].
  destruct (tail_move_panel self), (tail_root_move_panel self);
    reflexivity.
Qed.

(** X19. While panels are moved by dragging, their place follows from the
    pointer position of the last drag event and from what was recorded
    when the button went down, not from the way the pointer took: a drag
    event after another one leaves the state that it alone would have
    left. *)
Theorem move_drag_depends_on_last_event math_cos math_sin math_atan2
  self first_event second_event s1 :
  dragging self = true ->
  drag_mode self = Some "move"%string ->
  on_mouse_drag math_cos math_sin math_atan2 self first_event = Ok s1 ->
  on_mouse_drag math_cos math_sin math_atan2 s1 second_event
  = on_mouse_drag math_cos math_sin math_atan2 self second_event.
Proof.
  intros Hd Hm H1.
  rewrite (on_mouse_drag_move _ _ _ self first_event Hd Hm) in H1.
  destruct (screen_to_page self (inject_Z (ev_x first_event)) _)
    as [[cx1 cy1]|e]; [|discriminate].
  cbn [bind] in H1. injection H1 as H1. rewrite fold_store in H1.
  set (g1 := drag_move_panel self
               (cx1 - fst (page_drag_start_coords self))
               (cy1 - snd (page_drag_start_coords self))) in *.
  assert (Hd1 : dragging s1 = true) by (subst s1; exact Hd).
  assert (Hm1 : drag_mode s1 = Some "move"%string) by (subst s1; exact Hm).
  rewrite (on_mouse_drag_move _ _ _ s1 second_event Hd1 Hm1).
  rewrite (on_mouse_drag_move _ _ _ self second_event Hd Hm).
  assert (Hsp : screen_to_page s1 (inject_Z (ev_x second_event))
                  (inject_Z (ev_y second_event))
                = screen_to_page self (inject_Z (ev_x second_event))
                    (inject_Z (ev_y second_event)))
    by (subst s1; reflexivity).
  rewrite Hsp.
  destruct (screen_to_page self (inject_Z (ev_x second_event)) _)
    as [[cx2 cy2]|e]; [|reflexivity].
  cbn [bind]. f_equal. rewrite !fold_store.
  assert (Hg : forall dx dy p, drag_move_panel s1 dx dy p
                               = drag_move_panel self dx dy p)
    by (subst s1; reflexivity).
  assert (Hc : page_drag_start_coords s1 = page_drag_start_coords self)
    by (subst s1; reflexivity).
  assert (Hsel : selected_panels s1 = selected_panels self)
    by (subst s1; reflexivity).
  rewrite Hc, Hsel.
  set (g2 := drag_move_panel self
               (cx2 - fst (page_drag_start_coords self))
               (cy2 - snd (page_drag_start_coords self))).
  assert (Hfun : (fun objs a =>
                    update_at a
                      (drag_move_panel s1
                         (cx2 - fst (page_drag_start_coords self))
                         (cy2 - snd (page_drag_start_coords self))) objs)
                 = (fun objs a => update_at a g2 objs)).
  { subst s1. reflexivity. }
  rewrite Hfun.
  assert (Hobjs : fold_left (fun objs a => update_at a g2 objs)
                    (selected_panels self) (objects s1)
                  = fold_left (fun objs a => update_at a g2 objs)
                      (selected_panels self) (objects self)).
  { subst s1. cbn [objects set_objects].
    apply (nth_ext _ _ (new_Panel "" 0 0 100 100 RECTANGULAR 0)
             (new_Panel "" 0 0 100 100 RECTANGULAR 0)).
    - rewrite !fold_update_length. reflexivity.
    - intros i Hi. rewrite !fold_update_length in Hi.
      rewrite (fold_update_nth_idem g2); 
        [|intros p; apply drag_move_panel_last
         |rewrite fold_update_length; exact Hi].
      rewrite (fold_update_nth_idem g2);
        [|intros p; apply drag_move_panel_last|exact Hi].
      rewrite (fold_update_nth_idem g1);
        [|intros p; apply drag_move_panel_last|exact Hi].
      destruct (existsb (Nat.eqb i) (selected_panels self)); [|reflexivity].
      apply drag_move_panel_last. }
  rewrite Hobjs. subst s1. reflexivity.
Qed.

Lemma move_drag_depends_on_last_event_witness :
  on_mouse_drag some_unary some_unary some_binary moved_once (pointer_at 90 40)
  = on_mouse_drag some_unary some_unary some_binary move_session
      (pointer_at 90 40).
Proof.
  apply (move_drag_depends_on_last_event some_unary some_unary some_binary
           move_session (pointer_at 60 70));
    vm_compute; reflexivity.
Defined.

(** ** Units, page sizes and marks of the export *)

Lemma Py_int_monotone a b : a <= b -> (Py.int a <= Py.int b)%Z.
Proof.
  intros H. unfold Py.int.
  destruct (Py.ltb a 0) eqn:Ea; destruct (Py.ltb b 0) eqn:Eb.
  - apply Qceiling_resp_le, H.
  - apply Py_ltb_lt in Ea. apply Py_ltb_ge in Eb.
    assert (Qceiling a <= 0)%Z.
    { change 0%Z with (Qceiling 0). apply Qceiling_resp_le. lra. }
    assert (0 <= Qfloor b)%Z.
    { change 0%Z with (Qfloor 0). apply Qfloor_resp_le. exact Eb. }
    lia.
  - apply Py_ltb_ge in Ea. apply Py_ltb_lt in Eb. lra.
  - apply Qfloor_resp_le, H.
Qed.

(** X20. Millimetres turned into pixels and back are the millimetres again, at
    any resolution other than 0; at resolution 0 the way back raises
    [ZeroDivisionError], the way there never raises. *)
Theorem mm_pixels_round_trip mm dpi :
  if Qeq_bool dpi 0
  then pixels_to_mm (mm_to_pixels mm dpi) dpi = Raise ZeroDivisionError
  else exists back,
         pixels_to_mm (mm_to_pixels mm dpi) dpi = Ok back /\ back == mm.
Proof.
  unfold pixels_to_mm, py_div.
  destruct (Qeq_bool dpi 0) eqn:E; [reflexivity|].
  cbn [bind]. eexists. split; [reflexivity|].
  apply Qeq_bool_neq in E. unfold mm_to_pixels. field. exact E.
Qed.

Lemma page_sizes_are_portrait name :
  let base := match dict_get name PAGE_SIZES with
              | Some v => v
              | None => (2079, 2953)%Z
              end in
  (fst base <= snd base)%Z.
Proof.
  unfold PAGE_SIZES. cbn [dict_get].
  repeat match goal with
         | |- context [if String.eqb ?a name then _ else _] =>
             destruct (String.eqb a name)
         end; cbn; lia.
Qed.

Lemma to_px_monotone (dpi v w : Z) :
  (0 <= dpi)%Z -> (v <= w)%Z ->
  (Py.int (inject_Z v * (inject_Z dpi / REFERENCE_DPI_FOR_PAGE_SIZES))
   <= Py.int (inject_Z w * (inject_Z dpi / REFERENCE_DPI_FOR_PAGE_SIZES)))%Z.
Proof.
  intros Hd Hvw. apply Py_int_monotone.
  apply Qmult_le_compat_r.
  - rewrite <- Zle_Qle. exact Hvw.
  - unfold REFERENCE_DPI_FOR_PAGE_SIZES. apply Qle_shift_div_l; [reflexivity|].
    rewrite Qmult_0_l. change 0 with (inject_Z 0). rewrite <- Zle_Qle.
    exact Hd.
Qed.

(** X21. For a named page size (neither the canvas nor a custom size) the
    export always finds a pixel size, also for a name that is not in
    [PAGE_SIZES] (B5 is taken then), and the size has the orientation that
    was asked for: at least as wide as high for the landscape orientation,
    at least as high as wide otherwise. *)
Theorem named_page_size_has_chosen_orientation settings pc :
  export_page_size_name settings <> "Текущий холст"%string ->
  export_page_size_name settings <> "Пользовательский"%string ->
  (0 <= dpi settings)%Z ->
  exists w h,
    export_page_size settings pc = Ok (w, h)
    /\ if landscape_chosen settings pc then (h <= w)%Z else (w <= h)%Z.
Proof.
  intros Hn1 Hn2 Hdpi. unfold export_page_size.
  apply String.eqb_neq in Hn1, Hn2. rewrite Hn1, Hn2.
  change (dict_get "B5" PAGE_SIZES) with (Some (2079, 2953)%Z).
  cbn [bind].
  pose proof (page_sizes_are_portrait (export_page_size_name settings)) as Hp.
  cbv zeta in Hp.
  destruct (match dict_get (export_page_size_name settings) PAGE_SIZES with
            | Some v => v
            | None => (2079, 2953)%Z
            end) as [bw bh].
  cbn [fst snd] in Hp. unfold landscape_chosen.
  destruct (String.eqb (export_orientation_name settings) "Текущий холст").
  - destruct (page_height pc <? page_width pc)%Z; cbn [String.eqb];
      do 2 eexists; (split; [reflexivity|]); apply to_px_monotone; assumption.
  - unfold ORIENTATIONS. cbn [dict_get].
    destruct (String.eqb "Портретный" (export_orientation_name settings))
      eqn:E1.
    + apply String.eqb_eq in E1. rewrite <- E1.
      do 2 eexists. split; [reflexivity|].
      replace (String.eqb "Портретный" "Альбомный") with false
        by (vm_compute; reflexivity).
      apply to_px_monotone; assumption.
    + rewrite (String.eqb_sym (export_orientation_name settings)).
      destruct (String.eqb "Альбомный" (export_orientation_name settings));
        do 2 eexists; (split; [reflexivity|]);
        apply to_px_monotone; assumption.
Qed.

Lemma named_page_size_has_chosen_orientation_witness :
  exists w h,
    export_page_size a4_landscape_settings init = Ok (w, h)
    /\ if landscape_chosen a4_landscape_settings init
       then (h <= w)%Z else (w <= h)%Z.
Proof.
  apply (named_page_size_has_chosen_orientation a4_landscape_settings init).
  - vm_compute. discriminate.
  - vm_compute. discriminate.
  - vm_compute. discriminate.
Defined.

Lemma mm_to_pixels_monotone mm d1 d2 :
  0 <= mm -> d1 <= d2 -> mm_to_pixels mm d1 <= mm_to_pixels mm d2.
Proof.
  intros Hmm Hd. unfold mm_to_pixels. cbv zeta.
  rewrite !(Qmult_comm (mm / (254 # 10))).
  apply Qmult_le_compat_r; [exact Hd|].
  apply Qle_shift_div_l; [reflexivity|]. rewrite Qmult_0_l. exact Hmm.
Qed.

Lemma mark_pixels_from (low : Z) (mm : Q) (dpi : Z) :
  0 <= mm -> (low <= dpi)%Z ->
  (Py.int (mm_to_pixels mm (inject_Z low))
   <= Py.int (mm_to_pixels mm (inject_Z dpi)))%Z.
Proof.
  intros Hmm Hd. apply Py_int_monotone, mm_to_pixels_monotone; [exact Hmm|].
  rewrite <- Zle_Qle. exact Hd.
Qed.



(** X23. Without bleed the image is the trimmed page, and at a resolution of
    13 dpi or more (where the 2 mm distance of the marks is at least one
    pixel) every crop mark lies wholly off the image: asking for crop
    marks without bleed puts no mark on the exported page. *)
Theorem crop_marks_without_bleed_are_off_image settings w h :
  include_bleed settings = false ->
  (13 <= dpi settings)%Z ->
  total_canvas_size settings w h = (w, h)
  /\ Forall (off_image w h) (page_crop_marks settings w h).
Proof.
  intros Hb Hd. unfold total_canvas_size. rewrite Hb.
  split; [reflexivity|].
  unfold page_crop_marks, add_crop_marks, bleed_offset_px. rewrite Hb.
  pose proof (mark_pixels_from 13 5 (dpi settings)) as H5.
  pose proof (mark_pixels_from 13 2 (dpi settings)) as H2.
  assert (E5 : Py.int (mm_to_pixels 5 (inject_Z 13)) = 2%Z)
    by (vm_compute; reflexivity).
  assert (E2 : Py.int (mm_to_pixels 2 (inject_Z 13)) = 1%Z)
    by (vm_compute; reflexivity).
  rewrite E5 in H5. rewrite E2 in H2.
  assert (0 <= 5) by q_compute. assert (0 <= 2) by q_compute.
  specialize (H5 ltac:(assumption) Hd). specialize (H2 ltac:(assumption) Hd).
  cbv zeta.
  set (len := Py.int (mm_to_pixels 5 (inject_Z (dpi settings)))) in *.
  set (off := Py.int (mm_to_pixels 2 (inject_Z (dpi settings)))) in *.
  repeat (apply Forall_cons; [unfold off_image; cbv beta iota; lia|]).
  apply Forall_nil.
Qed.

Lemma crop_marks_without_bleed_are_off_image_witness :
  total_canvas_size a4_no_bleed_settings 3508 2480 = (3508, 2480)%Z
  /\ Forall (off_image 3508 2480)
       (page_crop_marks a4_no_bleed_settings 3508 2480).
Proof.
  apply (crop_marks_without_bleed_are_off_image a4_no_bleed_settings
           3508 2480).
  - reflexivity.
  - vm_compute. discriminate.
Defined.

Lemma floor_half_inside (room size : Q) :
  0 <= size -> size <= room ->
  0 <= inject_Z (Qfloor ((room - size) / 2))
  /\ inject_Z (Qfloor ((room - size) / 2)) + size <= room.
Proof.
  intros Hs Hr.
  pose proof (Qfloor_le ((room - size) / 2)) as Hle.
  assert (H0 : 0 <= (room - size) / 2).
  { apply Qle_shift_div_l; [reflexivity|]. lra. }
  apply Qfloor_resp_le in H0. change (Qfloor 0) with 0%Z in H0.
  rewrite Zle_Qle in H0. split; [exact H0|].
  assert ((room - size) / 2 + size <= room); [|lra].
  assert (E : (room - size) / 2 + size == (room + size) / 2) by field.
  rewrite E. apply Qle_shift_div_r; [reflexivity|]. lra.
Qed.

(** X24. The watermark text is placed inside the image whenever the image has
    room for the text and a margin of 10 pixels around it, for each of the
    four corner positions and for the centre, which every other position
    name means. *)
Theorem watermark_lies_inside_image position iw ih tw th :
  0 <= tw -> 0 <= th ->
  tw + 20 <= inject_Z iw -> th + 20 <= inject_Z ih ->
  let '(wx, wy) := watermark_origin position iw ih tw th in
  0 <= wx /\ wx + tw <= inject_Z iw /\ 0 <= wy /\ wy + th <= inject_Z ih.
Proof.
  intros Htw Hth Hw Hh. unfold watermark_origin. cbv zeta.
  destruct (String.eqb position "top_left"); [repeat split; lra|].
  destruct (String.eqb position "top_right"); [repeat split; lra|].
  destruct (String.eqb position "bottom_left"); [repeat split; lra|].
  destruct (String.eqb position "bottom_right"); [repeat split; lra|].
  destruct (floor_half_inside (inject_Z iw) tw) as (H1 & H2); [lra|lra|].
  destruct (floor_half_inside (inject_Z ih) th) as (H3 & H4); [lra|lra|].
  repeat split; assumption.
Qed.

Lemma watermark_lies_inside_image_witness :
  let '(wx, wy) := watermark_origin "bottom_right" 595 842 120 14 in
  0 <= wx /\ wx + 120 <= inject_Z 595 /\ 0 <= wy
  /\ wy + 14 <= inject_Z 842.
Proof.
  apply (watermark_lies_inside_image "bottom_right" 595 842 120 14);
    q_compute.
Defined.

(** ** The order of compositing *)

Section RasteriserOrder.

Variables math_cos math_sin : Q -> Q.
Variable math_hypot : Q -> Q -> Q.

Lemma pasted_panels_draw_on image op :
  pasted_panels (draw_on image op)
  = pasted_panels image ++ match op with
                           | PastePanel l => [pl_panel l]
                           | _ => []
                           end.
Proof.
  unfold pasted_panels, draw_on. cbn [img_ops].
  rewrite flat_map_app. cbn [flat_map]. rewrite app_nil_r. reflexivity.
Qed.

Lemma render_visible_other_pasted settings w h pc image panel :
  panel_type panel <> SPEECH_BUBBLE ->
  visible panel = true ->
  exists image',
    render_visible_panel math_cos math_sin math_hypot settings w h pc image
      panel = Ok image'
    /\ pasted_panels image'
       = pasted_panels image
         ++ (if is_drawn w h pc panel then [id panel] else []).
Proof.
  intros Ht Hv. unfold render_visible_panel, is_drawn, panel_export_size.
  rewrite Hv. cbn [andb fst snd].
  replace (PanelType_eqb (panel_type panel) SPEECH_BUBBLE) with false
    by (destruct (panel_type panel); try reflexivity; congruence).
  cbn [bind].
  set (ew := Py.int ((x panel + width panel - x panel) * _)).
  set (eh := Py.int ((y panel + height panel - y panel) * _)).
  destruct (ew <=? 0)%Z eqn:Ew.
  - exists image. split; [reflexivity|].
    apply Z.leb_le in Ew. replace (0 <? ew)%Z with false
      by (symmetry; apply Z.ltb_ge; exact Ew).
    cbn. rewrite app_nil_r. reflexivity.
  - destruct (eh <=? 0)%Z eqn:Eh.
    + exists image. split; [reflexivity|].
      apply Z.leb_le in Eh. replace (0 <? eh)%Z with false
        by (symmetry; apply Z.ltb_ge; exact Eh).
      rewrite andb_false_r. rewrite app_nil_r. reflexivity.
    + cbn [orb]. apply Z.leb_gt in Ew, Eh.
      replace (0 <? ew)%Z with true by (symmetry; apply Z.ltb_lt; exact Ew).
      replace (0 <? eh)%Z with true by (symmetry; apply Z.ltb_lt; exact Eh).
      cbn [andb]. unfold render_panel_to_image.
      match goal with
      | |- context [(?a + ew - ?a <=? 0)%Z] =>
          replace (a + ew - a <=? 0)%Z with false
            by (symmetry; apply Z.leb_gt; lia)
      end.
      match goal with
      | |- context [(?a + eh - ?a <=? 0)%Z] =>
          replace (a + eh - a <=? 0)%Z with false
            by (symmetry; apply Z.leb_gt; lia)
      end.
      cbn [orb].
      replace (PanelType_eqb (panel_type panel) SPEECH_BUBBLE) with false
        by (destruct (panel_type panel); try reflexivity; congruence).
      cbn [bind]. eexists. split; [reflexivity|].
      rewrite pasted_panels_draw_on. reflexivity.
Qed.

Lemma render_panels_pasted settings w h pc : forall l image,
  existsb visible_speech_bubble l = false ->
  exists image',
    render_panels math_cos math_sin math_hypot settings w h pc image l
    = Ok image'
    /\ pasted_panels image'
       = pasted_panels image ++ map id (filter (is_drawn w h pc) l).
Proof.
  induction l as [|p l IH]; intros image H.
  - exists image. cbn. rewrite app_nil_r. auto.
  - cbn in H. apply orb_false_iff in H. destruct H as [Hp Hl].
    cbn [render_panels filter].
    destruct (visible p) eqn:Ev; cbn [negb].
    + destruct (visible_speech_bubble_false p Hp) as [Hv|Ht]; [congruence|].
      destruct (render_visible_other_pasted settings w h pc image p Ht Ev)
        as (image1 & Hr & Hp1).
      rewrite Hr. cbn [bind].
      destruct (IH image1 Hl) as (image' & Hr' & Hp').
      exists image'. split; [exact Hr'|].
      rewrite Hp', Hp1, <- app_assoc.
      destruct (is_drawn w h pc p); reflexivity.
    + replace (is_drawn w h pc p) with false
        by (unfold is_drawn; rewrite Ev; reflexivity).
      apply IH. exact Hl.
Qed.

Lemma insert_by_layer_In p q l :
  In q (insert_by_layer p l) <-> q = p \/ In q l.
Proof.
  induction l as [|c l IH]; cbn.
  - intuition congruence.
  - destruct (layer p <=? layer c)%Z; cbn.
    + intuition congruence.
    + rewrite IH. intuition congruence.
Qed.

Lemma sorted_by_layer_In q l : In q (sorted_by_layer l) <-> In q l.
Proof.
  unfold sorted_by_layer. induction l as [|a l IH]; cbn; [tauto|].
  rewrite insert_by_layer_In, IH. intuition congruence.
Qed.

Lemma insert_by_layer_bottom_up p l :
  bottom_up l -> bottom_up (insert_by_layer p l).
Proof.
  induction l as [|c l IH]; cbn; [tauto|].
  intros [Hc Hl].
  destruct (layer p <=? layer c)%Z eqn:E.
  - apply Z.leb_le in E. cbn. repeat split; auto.
    intros q [<-|Hq]; [exact E|]. specialize (Hc q Hq). lia.
  - apply Z.leb_gt in E. cbn. split; [|auto].
    intros q Hq. apply insert_by_layer_In in Hq.
    destruct Hq as [->|Hq]; [lia|auto].
Qed.

Lemma sorted_by_layer_bottom_up l : bottom_up (sorted_by_layer l).
Proof.
  unfold sorted_by_layer. induction l as [|a l IH]; cbn; [exact I|].
  apply insert_by_layer_bottom_up, IH.
Qed.

Lemma filter_bottom_up f l : bottom_up l -> bottom_up (filter f l).
Proof.
  induction l as [|a l IH]; cbn; [tauto|].
  intros [Ha Hl]. destruct (f a); cbn; [split|]; auto.
  intros q Hq. apply filter_In in Hq. apply Ha, Hq.
Qed.

(** X25. An export that gives an image of a page of non-zero size has
    composited onto it exactly the panels of the page that are visible and
    have a pixel box that is not empty, each once, and from the lowest
    layer to the highest, so that a panel on a higher layer covers the
    panels below it. No invisible panel is composited. *)
Theorem export_composites_visible_panels_bottom_up settings pc image :
  render_page_to_image math_cos math_sin math_hypot settings pc = Some image ->
  page_width pc <> 0%Z ->
  page_height pc <> 0%Z ->
  exists w h drawn,
    export_page_size settings pc = Ok (w, h)
    /\ drawn = filter (is_drawn w h pc) (sorted_by_layer (panel_list pc))
    /\ pasted_panels image = map id drawn
    /\ bottom_up drawn
    /\ (forall p, In p drawn <->
                  In p (panel_list pc) /\ is_drawn w h pc p = true)
    /\ (forall p, In p drawn -> visible p = true).
Proof.
  unfold render_page_to_image, render_page_body.
  destruct (export_page_size settings pc) as [[w h]|e]; [|discriminate].
  cbn [bind].
  destruct ((w <=? 0)%Z || (h <=? 0)%Z); [discriminate|].
  destruct (total_canvas_size settings w h) as [tw th].
  intros Hr Hpw Hph.
  assert (Hnew : forall mode im, Image_new mode tw th = Ok im ->
                                 pasted_panels im = []).
  { intros mode im. unfold Image_new.
    destruct ((tw <? 0)%Z || (th <? 0)%Z); [discriminate|].
    intros E. injection E as <-. reflexivity. }
  match type of Hr with
  | match bind ?c _ with _ => _ end = _ =>
      assert (Him : forall im, c = Ok im -> pasted_panels im = [])
        by (intros im;
            destruct (transparent_background settings
                      && is_PNG (format settings)); apply Hnew);
      destruct c as [im|e]; [|discriminate]
  end.
  specialize (Him im eq_refl). cbn [bind] in Hr.
  replace ((page_width pc =? 0)%Z || (page_height pc =? 0)%Z) with false in Hr
    by (symmetry; apply orb_false_iff; split; apply Z.eqb_neq; assumption).
  destruct (existsb visible_speech_bubble (sorted_by_layer (panel_list pc)))
    eqn:Eb.
  { rewrite (render_panels_bubble _ _ _ _ _ _ _ _ _ Eb) in Hr. discriminate. }
  destruct (render_panels_pasted settings w h pc _ im Eb)
    as (im' & Hrp & Hpp).
  rewrite Hrp in Hr. cbn [bind] in Hr. injection Hr as <-.
  exists w, h, (filter (is_drawn w h pc) (sorted_by_layer (panel_list pc))).
  split; [reflexivity|]. split; [reflexivity|].
  split; [|split; [|split]].
  - destruct (include_crop_marks settings),
             (include_registration_marks settings);
      rewrite ?pasted_panels_draw_on, ?app_nil_r, Hpp, Him; reflexivity.
  - apply filter_bottom_up, sorted_by_layer_bottom_up.
  - intros p. rewrite filter_In, sorted_by_layer_In. tauto.
  - intros p Hp. apply filter_In in Hp. destruct Hp as [_ Hp].
    unfold is_drawn in Hp. rewrite !andb_true_iff in Hp. tauto.
Qed.

End RasteriserOrder.

Lemma export_composites_visible_panels_bottom_up_witness :
  exists w h drawn,
    export_page_size default_settings two_panel_page = Ok (w, h)
    /\ drawn = filter (is_drawn w h two_panel_page)
                 (sorted_by_layer (panel_list two_panel_page))
    /\ pasted_panels two_panel_export = map id drawn.
Proof.
  destruct (export_composites_visible_panels_bottom_up
              some_unary some_unary some_binary
              default_settings two_panel_page two_panel_export)
    as (w & h & drawn & H1 & H2 & H3 & _).
  - vm_compute. reflexivity.
  - vm_compute. discriminate.
  - vm_compute. discriminate.
  - exists w, h, drawn. split; [exact H1|]. split; [exact H2|exact H3].
Defined.

(** ** Panels *)

Lemma Py_leb_shift a b d : Py.leb (a + d) (b + d) = Py.leb a b.
Proof.
  destruct (Py.leb a b) eqn:E.
  - apply Py_leb_le in E. apply Py_leb_le. lra.
  - apply Py_leb_gt in E. apply Py_leb_gt. lra.
Qed.

Lemma Py_leb_shift_sum a s b d : Py.leb (b + d) (a + d + s) = Py.leb b (a + s).
Proof.
  destruct (Py.leb b (a + s)) eqn:E.
  - apply Py_leb_le in E. apply Py_leb_le. lra.
  - apply Py_leb_gt in E. apply Py_leb_gt. lra.
Qed.

(** X26. [Panel.move] takes the points of a panel along: a point lies in the
    moved panel exactly when the point it came from lay in the panel, and
    the move changes neither the size nor any other field. *)
Theorem moved_panel_contains_moved_points p dx dy px py :
  contains_point (move p dx dy) (px + dx) (py + dy) = contains_point p px py
  /\ width (move p dx dy) = width p
  /\ height (move p dx dy) = height p
  /\ set_y (set_x (move p dx dy) 0) 0 = set_y (set_x p 0) 0.
Proof.
  destruct p as [? x0 y0 w h ? ? ? ? ? ? ? ? ? ? ? ? ? ? ? ? ? ?].
  unfold contains_point, get_bounds, move.
  cbv beta iota zeta delta [set_x set_y x y width height].
  rewrite !Py_leb_shift, !Py_leb_shift_sum.
  split; [reflexivity|]. split; [reflexivity|]. split; reflexivity.
Qed.

(** ** Undo takes back the last commit *)

(** The drawing reads the zoom and the margin of the state only. *)
Lemma as_drawn_state os_path_exists s1 s2 p :
  zoom s1 = zoom s2 -> margin s1 = margin s2 ->
  as_drawn os_path_exists s1 p = as_drawn os_path_exists s2 p.
Proof.
  intros Hz Hm.
  unfold as_drawn, draw_panel, draw_rectangular_panel, draw_round_panel,
    page_to_screen.
  rewrite Hz, Hm. reflexivity.
Qed.

Lemma as_drawn_flag os_path_exists self p :
  without_flag (as_drawn os_path_exists self p) = without_flag p.
Proof.
  unfold as_drawn, without_flag. destruct (visible p); [|reflexivity].
  apply draw_panel_flag.
Qed.


(** The panel loop of [redraw] over distinct allocated panels draws each
    of them once. *)
Lemma redraw_loop_at os_path_exists refs : forall self a,
  NoDup refs ->
  (forall b, In b refs -> (b < List.length (objects self))%nat) ->
  panel_at
    (fold_left
       (fun s panel =>
          if visible (panel_at s panel)
          then store s panel (draw_panel os_path_exists s)
          else s)
       refs self) a
  = if existsb (Nat.eqb a) refs
    then as_drawn os_path_exists self (panel_at self a)
    else panel_at self a.
Proof.
  induction refs as [|b refs IH]; intros self a Hnd Hal; [reflexivity|].
  inversion Hnd as [|? ? Hnb Hnd']; subst. cbn [fold_left existsb].
  set (s1 := if visible (panel_at self b)
             then store self b (draw_panel os_path_exists self)
             else self).
  assert (Hb : (b < List.length (objects self))%nat)
    by (apply Hal; left; reflexivity).
  assert (H1 : zoom s1 = zoom self /\ margin s1 = margin self
               /\ List.length (objects s1) = List.length (objects self)
               /\ panel_at s1 b
                  = as_drawn os_path_exists self (panel_at self b)
               /\ forall c, c <> b -> panel_at s1 c = panel_at self c).
  { unfold s1, as_drawn. destruct (visible (panel_at self b)).
    - split; [reflexivity|]. split; [reflexivity|].
      split; [apply store_objects_length|].
      split; [apply store_panel_at_same; exact Hb|].
      intros c Hc. apply store_panel_at_other, Hc.
    - repeat split; reflexivity. }
  destruct H1 as (Hz & Hm & Hl & Hsame & Hother).
  rewrite IH; [|exact Hnd'|].
  - destruct (Nat.eqb a b) eqn:E.
    + apply Nat.eqb_eq in E. subst a. cbn [orb].
      replace (existsb (Nat.eqb b) refs) with false; [exact Hsame|].
      symmetry. apply not_true_is_false. intros H.
      apply existsb_exists in H. destruct H as (c & Hc & Hbc).
      apply Nat.eqb_eq in Hbc. subst c. contradiction.
    + apply Nat.eqb_neq in E. cbn [orb]. rewrite (Hother a E).
      destruct (existsb (Nat.eqb a) refs); [|reflexivity].
      apply as_drawn_state; assumption.
  - intros c Hc. rewrite Hl. apply Hal. right. exact Hc.
Qed.

Lemma redraw_panel_at os_path_exists self a :
  NoDup (panels self) ->
  panels_allocated self ->
  panel_at (redraw os_path_exists self) a
  = if existsb (Nat.eqb a) (panels self)
    then as_drawn os_path_exists self (panel_at self a)
    else panel_at self a.
Proof.
  intros Hnd Hal. unfold redraw.
  change (panel_at (draw_selection ?s) a) with (panel_at s a).
  rewrite redraw_loop_at.
  - replace (existsb (Nat.eqb a) (sorted_refs_by_layer self (panels self)))
      with (existsb (Nat.eqb a) (panels self)); [reflexivity|].
    apply eq_true_iff_eq. rewrite !existsb_exists.
    split; intros (b & Hb & E); exists b; split; try exact E;
      apply (sorted_refs_by_layer_In self b (panels self)); exact Hb.
  - apply sorted_refs_by_layer_NoDup, Hnd.
  - intros b Hb. apply sorted_refs_by_layer_In in Hb.
    unfold panels_allocated in Hal. rewrite Forall_forall in Hal. auto.
Qed.

(** Restoring a snapshot: the live list holds the panels of the snapshot
    as the closing redraw leaves them. The selection that is cleared
    before refers to the objects of the list that was replaced. *)
Lemma restore_panel_list os_path_exists self state :
  selection_allocated self ->
  panel_list (_post_history_change_update os_path_exists
                (rebind_panels self state))
  = map (as_drawn os_path_exists self) state.
Proof.
  intros Hsel. unfold _post_history_change_update.
  set (s1 := match image_editing_panel (rebind_panels self state) with
             | Some _ => set_image_editing_panel (rebind_panels self state)
                           None
             | None => rebind_panels self state
             end).
  assert (H1 : panels s1 = seq (List.length (objects self))
                             (List.length state)
               /\ objects s1 = objects self ++ state
               /\ selected_panels s1 = selected_panels self
               /\ zoom s1 = zoom self /\ margin s1 = margin self).
  { unfold s1. destruct (image_editing_panel (rebind_panels self state));
      repeat split; reflexivity. }
  destruct H1 as (Hp1 & Ho1 & Hs1 & Hz1 & Hm1).
  set (s2 := clear_selection s1).
  assert (H2 : panels s2 = seq (List.length (objects self))
                             (List.length state)
               /\ objects s2
                  = fold_left
                      (fun objs a =>
                         update_at a (fun p => set_selected p false) objs)
                      (selected_panels self) (objects self ++ state)
               /\ zoom s2 = zoom self /\ margin s2 = margin self).
  { unfold s2. rewrite clear_selection_spec. cbn. rewrite Hp1, Ho1, Hs1.
    repeat split; assumption. }
  destruct H2 as (Hp2 & Ho2 & Hz2 & Hm2).
  assert (Hat2 : forall a, In a (panels s2) ->
                 panel_at s2 a
                 = nth a (objects self ++ state)
                     (new_Panel "" 0 0 100 100 RECTANGULAR 0)).
  { intros a Ha. rewrite Hp2 in Ha. apply in_seq in Ha.
    unfold panel_at. rewrite Ho2.
    apply fold_update_nth_above with (base := List.length (objects self)).
    - exact Hsel.
    - lia. }
  unfold panel_list.
  transitivity
    (map (as_drawn os_path_exists self)
       (map (fun a => nth a (objects self ++ state)
                        (new_Panel "" 0 0 100 100 RECTANGULAR 0))
          (seq (List.length (objects self)) (List.length state))));
    [|rewrite map_nth_seq_app; reflexivity].
  rewrite map_map.
  replace (panels (redraw os_path_exists s2)) with (panels s2)
    by (destruct (redraw_spec os_path_exists s2) as (E & _);
        cbv zeta in E; rewrite E; reflexivity).
  rewrite <- Hp2. apply map_ext_in. intros a Ha.
  rewrite redraw_panel_at.
  - replace (existsb (Nat.eqb a) (panels s2)) with true.
    + rewrite (Hat2 a Ha). apply as_drawn_state; assumption.
    + symmetry. apply existsb_exists. exists a.
      split; [exact Ha|apply Nat.eqb_refl].
  - rewrite Hp2. apply seq_NoDup.
  - unfold panels_allocated. rewrite Forall_forall. intros b Hb.
    rewrite Hp2 in Hb. apply in_seq in Hb.
    rewrite Ho2, fold_update_length, length_app. lia.
Qed.



(** The list an undo restores can differ from the list of the commit
    before in the cache flag: a commit made right after an image was
    applied to a panel (the flag is set, as [apply_image_to_panel] of
    image_manager.py leaves it) holds the flag, and the redraw that closes
    the undo clears it when the file of the image exists. *)
Lemma undo_redraw_clears_cache_flag :
  let before :=
    save_history_state (store pan_session 0%nat mark_visuals_for_update) in
  let edited := store before 0%nat (fun p => set_x p 150) in
  map _image_content_updated_flag (panel_list before) = [true]
  /\ map _image_content_updated_flag
       (panel_list (undo (fun _ => true) (save_history_state edited)))
     = [false]
  /\ map _image_content_updated_flag
       (panel_list (undo (fun _ => false) (save_history_state edited)))
     = [true].
Proof.
  cbv zeta. split; [vm_compute; reflexivity|].
  split; vm_compute; reflexivity.
Qed.

(** ** Undo followed by redo *)

Lemma undo_noop os_path_exists self :
  (List.length (undo_stack self) < 2)%nat -> undo os_path_exists self = self.
Proof.
  intros H. unfold undo. rewrite undo_action_noop by exact H. reflexivity.
Qed.

Lemma redo_noop os_path_exists self :
  redo_stack self = [] -> redo os_path_exists self = self.
Proof.
  intros H. unfold redo. rewrite redo_action_noop by exact H. reflexivity.
Qed.

Lemma iter_redo_noop os_path_exists k self :
  redo_stack self = [] -> Nat.iter k (redo os_path_exists) self = self.
Proof.
  intros H. induction k as [|k IH]; [reflexivity|].
  rewrite Nat.iter_succ, IH. apply redo_noop, H.
Qed.

(** One successful undo moves the top snapshot to the redo stack. *)
Lemma undo_step os_path_exists self :
  (1 < List.length (undo_stack self))%nat ->
  redo_stack (undo os_path_exists self)
  = redo_stack self ++ [last (undo_stack self) []]
  /\ selection_allocated (undo os_path_exists self).
Proof.
  intros Hlen. unfold undo.
  rewrite (undo_action_step _ _ Hlen). cbn [snd].
  match goal with
  | |- context [_post_history_change_update _ ?s] =>
      destruct (post_history_spec os_path_exists s)
        as (_ & Hr & _ & Hs & _)
  end.
  split; [rewrite Hr; reflexivity|].
  apply selection_allocated_nil, Hs.
Qed.

(** [k] undos push at most [k] snapshots on the redo stack, the first of
    which is the snapshot that was on top of the undo stack. *)
Lemma iter_undo_spec os_path_exists k : forall self,
  selection_allocated self ->
  exists pushed,
    redo_stack (Nat.iter k (undo os_path_exists) self)
    = redo_stack self ++ pushed
    /\ (List.length pushed <= k)%nat
    /\ (pushed = [] -> Nat.iter k (undo os_path_exists) self = self)
    /\ (pushed <> [] -> hd [] pushed = last (undo_stack self) [])
    /\ selection_allocated (Nat.iter k (undo os_path_exists) self).
Proof.
  induction k as [|k IH]; intros self Hs.
  - exists []. cbn. rewrite app_nil_r. repeat split; auto; tauto.
  - rewrite Nat.iter_succ_r.
    destruct (Nat.lt_ge_cases 1 (List.length (undo_stack self))) as [H|H].
    + destruct (undo_step os_path_exists self H) as (Hr & Hs').
      destruct (IH (undo os_path_exists self) Hs')
        as (pushed & Hp & Hl & _ & _ & Hs'').
      exists (last (undo_stack self) [] :: pushed).
      rewrite Hp, Hr, <- app_assoc. cbn.
      repeat split; auto; try lia; discriminate.
    + rewrite undo_noop by lia.
      destruct (IH self Hs) as (pushed & Hp & Hl & He & Hh & Hs').
      exists pushed. repeat split; auto.
Qed.

(** One successful redo makes the top snapshot of the redo stack the live
    list, up to the cache flags that the closing redraw clears. *)
Lemma redo_step os_path_exists self :
  selection_allocated self -> redo_stack self <> [] ->
  map without_flag (panel_list (redo os_path_exists self))
  = map without_flag (last (redo_stack self) [])
  /\ redo_stack (redo os_path_exists self) = removelast (redo_stack self)
  /\ selection_allocated (redo os_path_exists self).
Proof.
  intros Hsel Hne. unfold redo, redo_action.
  destruct (redo_stack self) as [|r rs] eqn:E; [congruence|].
  cbn [snd].
  match goal with
  | |- context [_post_history_change_update _ (rebind_panels ?s ?st)] =>
      pose proof (restore_panel_list os_path_exists s st Hsel) as Hpl;
      destruct (post_history_spec os_path_exists (rebind_panels s st))
        as (_ & Hr & _ & Hs & _)
  end.
  rewrite Hpl, Hr. split; [|split].
  - rewrite map_map. apply map_ext. intros p. apply as_drawn_flag.
  - reflexivity.
  - apply selection_allocated_nil, Hs.
Qed.

Lemma hd_removelast {A} (l : list A) d :
  removelast l <> [] -> hd d (removelast l) = hd d l.
Proof.
  destruct l as [|a [|b l]]; cbn; intros H; congruence.
Qed.

Lemma removelast_nil_last {A} (l : list A) d :
  l <> [] -> removelast l = [] -> last l d = hd d l.
Proof.
  destruct l as [|a [|b l]]; cbn; intros H1 H2; congruence.
Qed.

Lemma removelast_length_le {A} (l : list A) k :
  (List.length l <= S k)%nat -> (List.length (removelast l) <= k)%nat.
Proof.
  intros H. rewrite removelast_length. lia.
Qed.

(** [k] redos on a redo stack of at most [k] snapshots end on the oldest
    one. *)
Lemma iter_redo_spec os_path_exists k : forall self,
  selection_allocated self -> redo_stack self <> [] ->
  (List.length (redo_stack self) <= k)%nat ->
  map without_flag (panel_list (Nat.iter k (redo os_path_exists) self))
  = map without_flag (hd [] (redo_stack self)).
Proof.
  induction k as [|k IH]; intros self Hsel Hne Hlen.
  - destruct (redo_stack self); cbn in *; [congruence|lia].
  - rewrite Nat.iter_succ_r.
    destruct (redo_step os_path_exists self Hsel Hne) as (Hp & Hr & Hs).
    destruct (removelast (redo_stack self)) as [|r rs] eqn:E.
    + rewrite iter_redo_noop by exact Hr.
      rewrite Hp. f_equal. apply removelast_nil_last; assumption.
    + rewrite IH.
      * rewrite Hr. rewrite <- E. f_equal.
        apply hd_removelast. rewrite E. discriminate.
      * exact Hs.
      * rewrite Hr. discriminate.
      * rewrite Hr, <- E. apply removelast_length_le, Hlen.
Qed.

(** What holds of the round trip of C2: right after a commit, [k] undos
    followed by [k] redos bring back the committed list in every field of
    every panel but the cache flag, which the redraw that closes an undo
    or a redo clears on the image panels it draws. (The list that is live
    before the first undo is the committed one only as long as nothing was
    written to a panel after the commit.) *)
Lemma undo_then_redo_restores_commit os_path_exists self k :
  selection_allocated self ->
  let committed_state := save_history_state self in
  map without_flag
    (panel_list (Nat.iter k (redo os_path_exists)
                   (Nat.iter k (undo os_path_exists) committed_state)))
  = map without_flag (panel_list committed_state).
Proof.
  intros Hsel. cbv zeta.
  destruct (save_history_state_committed self Hsel)
    as ((_ & Htop & Hsel') & Hr & _).
  destruct (iter_undo_spec os_path_exists k _ Hsel')
    as (pushed & Hp & Hl & He & Hh & Hs).
  rewrite Hr in Hp. cbn in Hp.
  destruct pushed as [|p pushed].
  - rewrite iter_redo_noop by exact Hp. rewrite He; reflexivity.
  - rewrite iter_redo_spec.
    + rewrite Hp. cbn [app hd].
      pose proof (Hh ltac:(discriminate)) as Hhd. cbn [hd] in Hhd.
      rewrite Hhd, Htop. reflexivity.
    + exact Hs.
    + rewrite Hp. discriminate.
    + rewrite Hp. exact Hl.
Qed.
